(** * The model mapping engine of Tijdlijn-OBM

    A shallow embedding of [resources/resource_classes/data_models/base.py]
    ([BaseModel.to_dict], [BaseModel.from_dict], [_serialize_value],
    [_deserialize_value]) together with record types of
    [data_models/timeline.py], [data_models/mdto.py] and
    [data_models/scraper_models.py], and the properties the specification
    states about them; then the callers of the codec: [Timeline.doc_by_id],
    the normalisers of [services/timeline.py], [TimelineRepository], and
    two helpers of [DocumentRepository].

    Modelling choices.
    - A Python value is a [pyval]; a dataclass instance holds its class and
      one value per declared field, in declaration order.
    - What the code finds in type position ([f.type], the [typ] argument) is
      a [pytype]: a type object the codec inspects ([datetime], a [Union],
      a [List]/[Tuple]/[Dict] alias, a dataclass), or any other object
      ([TPlain]: [str], [int], [Any], [None], and also an annotation kept as
      text, which is what [f.type] holds in a module that starts with
      [from __future__ import annotations]).
    - A class refers to the classes of its fields directly, so the class
      graph is a tree and both traversals are structural recursions.
    - Exceptions are values of [pyexc]; fallible code returns [result].
    - The [datetime] library ([strptime], [strftime], [isoformat],
      [fromisoformat], [astimezone]) and the two overridable hooks are
      interfaces ([DatetimeLib], [Hooks]); [PyDatetime] implements a fragment
      of the library for the worked examples.
    - Dataclasses are plain: no [__post_init__], [InitVar] or [init=False]
      field takes part in the codec.  Dict keys are strings, as in the
      [Dict[str, Any]] / [Mapping[str, Any]] signatures of the source. *)

From Stdlib Require Import ZArith List String Ascii Bool Lia.
Import ListNotations.
Open Scope string_scope.
Open Scope Z_scope.

Set Warnings "-register-all".

(** ** Dates and times *)

(** [tzinfo] objects: [ZoneInfo(key)] and the fixed offset zones produced by
    parsing (seconds east of UTC). *)
Inductive tzinfo : Type :=
| ZoneInfo (key : string)
| FixedOffset (seconds : Z).

Record datetime : Type := mkDatetime {
  year : Z; month : Z; day : Z;
  hour : Z; minute : Z; second : Z; microsecond : Z;
  tzinfo_of : option tzinfo
}.

(** [dt.replace(tzinfo=z)] *)
Definition replace_tzinfo (dt : datetime) (z : tzinfo) : datetime :=
  mkDatetime (year dt) (month dt) (day dt) (hour dt) (minute dt) (second dt)
             (microsecond dt) (Some z).

(** ** Types and classes *)

(** Immutable constants usable as a field default. *)
Inductive scalar : Type :=
| SNone
| SBool (b : bool)
| SInt (n : Z)
| SStr (s : string).

Inductive pytype : Type :=
| TPlain (repr : string)          (* str, int, Any, None, a textual annotation *)
| TNoneType                       (* type(None) *)
| TDatetime                       (* the class datetime *)
| TUnion (args : list pytype)     (* Union[...], Optional[T] = Union[T, None] *)
| TList (args : list pytype)      (* List[...] / list[...], origin list *)
| TTuple (args : list pytype)     (* Tuple[...], origin tuple *)
| TDict (args : list pytype)      (* Dict[...], origin dict *)
| TClass (c : pyclass)            (* a dataclass *)
with pyclass : Type :=
| PyClass (name : string)
          (base_model : bool)     (* derives from BaseModel: has to_dict / from_dict *)
          (flds : list field)
          (DATE_FORMAT_MAP : list (string * string))
          (DATE_INPUT_FORMATS : list (string * list string))
          (OUTPUT_TZ_NAME : string)
          (INPUT_NAIVE_TZ_NAME : string)
with field : Type :=
| Field (name : string) (type : pytype) (default : fdefault)
with fdefault : Type :=
| MISSING
| Default (v : scalar)
| DefaultFactory (f : factory)
with factory : Type :=
| FList                           (* default_factory=list *)
| FDict                           (* default_factory=dict *)
| FClass (c : pyclass).           (* default_factory=SomeDataclass *)

Definition cname (c : pyclass) : string :=
  match c with PyClass n _ _ _ _ _ _ => n end.
Definition is_base_model (c : pyclass) : bool :=
  match c with PyClass _ b _ _ _ _ _ => b end.
Definition fields (c : pyclass) : list field :=
  match c with PyClass _ _ fs _ _ _ _ => fs end.
Definition DATE_FORMAT_MAP (c : pyclass) : list (string * string) :=
  match c with PyClass _ _ _ m _ _ _ => m end.
Definition DATE_INPUT_FORMATS (c : pyclass) : list (string * list string) :=
  match c with PyClass _ _ _ _ m _ _ => m end.
Definition OUTPUT_TZ_NAME (c : pyclass) : string :=
  match c with PyClass _ _ _ _ _ z _ => z end.
Definition INPUT_NAIVE_TZ_NAME (c : pyclass) : string :=
  match c with PyClass _ _ _ _ _ _ z => z end.

Definition fname (f : field) : string :=
  match f with Field n _ _ => n end.
Definition ftype (f : field) : pytype :=
  match f with Field _ t _ => t end.
Definition fdefault_of (f : field) : fdefault :=
  match f with Field _ _ d => d end.

(** [f.default is not MISSING or f.default_factory is not MISSING] *)
Definition has_default (f : field) : bool :=
  match fdefault_of f with MISSING => false | _ => true end.

(** ** Values *)

Inductive pyval : Type :=
| VNone
| VBool (b : bool)
| VInt (n : Z)
| VStr (s : string)
| VDatetime (dt : datetime)
| VList (l : list pyval)
| VTuple (l : list pyval)
| VDict (items : list (string * pyval))
| VObj (c : pyclass) (vals : list pyval).

Definition of_scalar (s : scalar) : pyval :=
  match s with
  | SNone => VNone
  | SBool b => VBool b
  | SInt n => VInt n
  | SStr s => VStr s
  end.

Definition is_None (v : pyval) : bool :=
  match v with VNone => true | _ => false end.

(** ** Exceptions *)

Inductive pyexc : Type :=
| TypeError
| AttributeError
| ValueError (name : string) (value : pyval).
  (* ValueError(f"Invalid datetime for field '{name}': {value!r}"), the only
     ValueError the codec raises: its message is fixed by [name] and [value] *)

Inductive result (A : Type) : Type :=
| Ok (a : A)
| Raise (e : pyexc).
Arguments Ok {A} a.
Arguments Raise {A} e.

Declare Scope py_scope.
Delimit Scope py_scope with py.
Notation "x <- r ;; k" :=
  (match r with Ok x => k | Raise e => Raise e end)
  (at level 61, r at next level, right associativity) : py_scope.
Open Scope py_scope.

(** ** Dictionaries (insertion ordered, string keys) *)

Fixpoint dict_get {A : Type} (d : list (string * A)) (k : string) : option A :=
  match d with
  | [] => None
  | (k', v) :: d' => if String.eqb k' k then Some v else dict_get d' k
  end.

Definition dict_contains {A : Type} (d : list (string * A)) (k : string) : bool :=
  match dict_get d k with Some _ => true | None => false end.

(** [d[k] = v] *)
Fixpoint dict_set {A : Type} (d : list (string * A)) (k : string) (v : A)
  : list (string * A) :=
  match d with
  | [] => [(k, v)]
  | (k', v') :: d' =>
      if String.eqb k' k then (k', v) :: d' else (k', v') :: dict_set d' k v
  end.

(** [needle in hay] for two strings. *)
Fixpoint str_contains (needle hay : string) : bool :=
  if String.prefix needle hay then true
  else match hay with
       | EmptyString => false
       | String _ hay' => str_contains needle hay'
       end.

(** [name in data] *)
Definition py_contains (data : pyval) (name : string) : result bool :=
  match data with
  | VDict items => Ok (dict_contains items name)
  | VStr s => Ok (str_contains name s)
  | VList l | VTuple l =>
      Ok (existsb (fun v => match v with VStr s => String.eqb s name | _ => false end) l)
  | _ => Raise TypeError           (* argument of type ... is not iterable *)
  end.

(** [data[name]] for a string [name] *)
Definition py_getitem (data : pyval) (name : string) : result pyval :=
  match data with
  | VDict items =>
      match dict_get items name with
      | Some v => Ok v
      | None => Raise TypeError    (* KeyError; unreachable after [name in data] *)
      end
  | _ => Raise TypeError           (* indices must be integers / not subscriptable *)
  end.

(** [for v in value] *)
Fixpoint str_chars (s : string) : list pyval :=
  match s with
  | EmptyString => []
  | String a s' => VStr (String a EmptyString) :: str_chars s'
  end.

Definition py_iter (value : pyval) : result (list pyval) :=
  match value with
  | VList l | VTuple l => Ok l
  | VDict items => Ok (map (fun kv => VStr (fst kv)) items)
  | VStr s => Ok (str_chars s)
  | _ => Raise TypeError           (* object is not iterable *)
  end.

(** [value.items()] *)
Definition py_items (value : pyval) : result (list (string * pyval)) :=
  match value with
  | VDict items => Ok items
  | _ => Raise AttributeError      (* object has no attribute 'items' *)
  end.

(** [isinstance(value, Mapping)] *)
Definition is_Mapping (value : pyval) : bool :=
  match value with VDict _ => true | _ => false end.

(** ** The interfaces the codec relies on *)

(** The part of Python's [datetime] module used by [base.py].  [None] stands
    for the [ValueError] raised by a parser. *)
Class DatetimeLib : Type := {
  strptime : string -> string -> option datetime;
  fromisoformat : string -> option datetime;
  strftime : datetime -> string -> string;
  isoformat : datetime -> string;
  astimezone : datetime -> tzinfo -> datetime;
  (* [a == b] on two datetime objects *)
  datetime_eq : datetime -> datetime -> bool
}.

(** The hooks [_serialize_field] and [_deserialize_field] a model class may
    override; [None] is the [MISSING] sentinel. *)
Class Hooks : Type := {
  _serialize_field : pyclass -> string -> pyval -> pytype -> option pyval;
  _deserialize_field : pyclass -> string -> pyval -> pytype -> option pyval
}.

(** The hooks as [BaseModel] defines them: both return [MISSING]. *)
Definition BaseModel_hooks : Hooks :=
  {| _serialize_field := fun _ _ _ _ => None;
     _deserialize_field := fun _ _ _ _ => None |}.

(** ** The codec *)

Section Codec.
Context {lib : DatetimeLib} {hooks : Hooks}.

(** A format string is truthy when it is not empty. *)
Definition truthy (s : string) : bool :=
  match s with EmptyString => false | _ => true end.

(** *** Construction of dataclass instances *)

Section Init.
(** [new c] is the call [c()] of a default factory. *)
Variable new : pyclass -> option pyval.

Definition default_value (d : fdefault) : option pyval :=
  match d with
  | MISSING => None
  | Default s => Some (of_scalar s)
  | DefaultFactory FList => Some (VList [])
  | DefaultFactory FDict => Some (VDict [])
  | DefaultFactory (FClass c) => new c
  end.

Fixpoint init_fields (kwargs : list (string * pyval)) (fs : list field)
  : option (list pyval) :=
  match fs with
  | [] => Some []
  | f :: fs' =>
      match (match dict_get kwargs (fname f) with
             | Some v => Some v
             | None => default_value (fdefault_of f)
             end) with
      | Some v =>
          match init_fields kwargs fs' with
          | Some vs => Some (v :: vs)
          | None => None
          end
      | None => None
      end
  end.
End Init.

(** Every keyword is the name of a declared field. *)
Definition known_keywords (fs : list field) (kwargs : list (string * pyval)) : bool :=
  forallb (fun kv => existsb (fun f => String.eqb (fname f) (fst kv)) fs) kwargs.

(** [c( **kwargs)], the generated [__init__]; [None] is the [TypeError] of
    an unexpected keyword or a missing required argument.  A class that
    defines [__post_init__] runs it on the instance built here; of the
    classes of the repository only [SearchQuery] does, and
    [SearchQuery_from_dict] below adds it.  What [from_dict] hands to the
    constructor is stated on the keyword arguments, which do not depend on
    it. *)
Fixpoint construct (c : pyclass) (kwargs : list (string * pyval)) {struct c}
  : option pyval :=
  match c with
  | PyClass _ _ fs _ _ _ _ =>
      if known_keywords fs kwargs then
        match init_fields (fun c' => construct c' []) kwargs fs with
        | Some vs => Some (VObj c vs)
        | None => None
        end
      else None
  end.

(** *** Encoding *)

(** Lines 80-82 of [base.py]: a naive value receives the output zone, then
    the value is converted to the output zone. *)
Definition in_output_zone (self : pyclass) (value : datetime) : datetime :=
  let value :=
    match tzinfo_of value with
    | None => replace_tzinfo value (ZoneInfo (OUTPUT_TZ_NAME self))
    | Some _ => value
    end in
  astimezone value (ZoneInfo (OUTPUT_TZ_NAME self)).

(** Lines 84-85: [value.strftime(fmt) if fmt else value.isoformat()] with
    [fmt = (self.DATE_FORMAT_MAP or {}).get(name)]. *)
Definition format_datetime (self : pyclass) (name : string) (value : datetime)
  : pyval :=
  match dict_get (DATE_FORMAT_MAP self) name with
  | Some fmt =>
      if truthy fmt then VStr (strftime value fmt) else VStr (isoformat value)
  | None => VStr (isoformat value)
  end.

(** The branch [isinstance(value, datetime)] of [_serialize_value]. *)
Definition serialize_datetime (self : pyclass) (name : string) (value : datetime)
  : pyval :=
  format_datetime self name (in_output_zone self value).

Section SerializeFields.
Variable ser : string -> pyval -> pytype -> pyval.

(** [for f in fields(obj): out[f.name] = ser(f.name, getattr(obj, f.name), f.type)] *)
Fixpoint serialize_fields (fs : list field) (vals : list pyval)
         (out : list (string * pyval)) {struct vals} : list (string * pyval) :=
  match vals, fs with
  | v :: vals', f :: fs' =>
      serialize_fields fs' vals' (dict_set out (fname f) (ser (fname f) v (ftype f)))
  | _, _ => out
  end.

(** [{k: ser(name, v, None) for k, v in value.items()}] *)
Fixpoint serialize_items (name : string) (items : list (string * pyval))
         (out : list (string * pyval)) {struct items} : list (string * pyval) :=
  match items with
  | [] => out
  | (k, v) :: items' =>
      serialize_items name items' (dict_set out k (ser name v (TPlain "None")))
  end.
End SerializeFields.

Fixpoint _serialize_value (self : pyclass) (name : string) (value : pyval)
         (typ : pytype) {struct value} : pyval :=
  match _serialize_field self name value typ with
  | Some hook => hook
  | None =>
      match value with
      | VNone => VNone
      | VDatetime dt => serialize_datetime self name dt
      | VObj c vals =>
          if is_base_model c then
            (* value.to_dict() *)
            VDict (serialize_fields (fun n v t => _serialize_value c n v t)
                                    (fields c) vals [])
          else
            VDict (serialize_fields (fun n v t => _serialize_value self n v t)
                                    (fields c) vals [])
      | VList l | VTuple l =>
          VList (map (fun v => _serialize_value self name v (TPlain "None")) l)
      | VDict items =>
          VDict (serialize_items (fun n v t => _serialize_value self n v t)
                                 name items [])
      | _ => value
      end
  end.

(** [self.to_dict()] for an instance of class [c] holding [vals]. *)
Definition to_dict (c : pyclass) (vals : list pyval) : pyval :=
  VDict (serialize_fields (fun n v t => _serialize_value c n v t) (fields c) vals []).

(** *** Decoding *)

Definition attach_input_tz (cls : pyclass) (dt : datetime) : datetime :=
  match tzinfo_of dt with
  | None => replace_tzinfo dt (ZoneInfo (INPUT_NAIVE_TZ_NAME cls))
  | Some _ => dt
  end.

(** [datetime.strptime(value, fmt)] under [except (ValueError, TypeError)]:
    a value that is not a string raises [TypeError]. *)
Definition try_strptime (value : pyval) (fmt : string) : option datetime :=
  match value with
  | VStr s => strptime s fmt
  | _ => None
  end.

Definition try_fromisoformat (value : pyval) : option datetime :=
  match value with
  | VStr s => fromisoformat s
  | _ => None
  end.

(** A [for fmt in ...: try: ... return dt except: pass] loop. *)
Fixpoint try_formats (cls : pyclass) (value : pyval) (fmts : list string)
  : option datetime :=
  match fmts with
  | [] => None
  | fmt :: rest =>
      match try_strptime value fmt with
      | Some dt => Some (attach_input_tz cls dt)
      | None => try_formats cls value rest
      end
  end.

Definition input_formats (cls : pyclass) (name : string) : list string :=
  match dict_get (DATE_INPUT_FORMATS cls) name with
  | Some fmts => fmts
  | None => []
  end.

Definition fallback_formats : list string :=
  ["%d-%m-%Y %H:%M:%S"; "%Y-%m-%d %H:%M:%S"].

(** Lines 135-171 of [base.py]. *)
Definition parse_datetime (cls : pyclass) (name : string) (value : pyval)
  : result pyval :=
  match try_formats cls value (input_formats cls name) with
  | Some dt => Ok (VDatetime dt)
  | None =>
      match (match dict_get (DATE_FORMAT_MAP cls) name with
             | Some fmt_out =>
                 if truthy fmt_out then
                   match try_strptime value fmt_out with
                   | Some dt => Some (attach_input_tz cls dt)
                   | None => None
                   end
                 else None
             | None => None
             end) with
      | Some dt => Ok (VDatetime dt)
      | None =>
          match try_fromisoformat value with
          | Some dt => Ok (VDatetime (attach_input_tz cls dt))
          | None =>
              match try_formats cls value fallback_formats with
              | Some dt => Ok (VDatetime dt)
              | None => Raise (ValueError name value)
              end
          end
      end
  end.

Definition is_NoneType (t : pytype) : bool :=
  match t with TNoneType => true | _ => false end.
Definition is_datetime (t : pytype) : bool :=
  match t with TDatetime => true | _ => false end.

(** [args = [a for a in get_args(typ) if a is not type(None)]] *)
Definition non_None_args (args : list pytype) : list pytype :=
  filter (fun a => negb (is_NoneType a)) args.

(** The decoding of a value against a type without structure: the hook,
    the test for [None], and [return value]. *)
Definition deserialize_leaf (cls : pyclass) (name : string) (value : pyval)
           (typ : pytype) : result pyval :=
  match _deserialize_field cls name value typ with
  | Some hook => Ok hook
  | None => if is_None value then Ok VNone else Ok value
  end.

Section Comprehensions.
Variable deser : string -> pyval -> result pyval.

(** [[deser(name, v) for v in value]] *)
Fixpoint deserialize_list (name : string) (l : list pyval) : result (list pyval) :=
  match l with
  | [] => Ok []
  | v :: l' =>
      x <- deser name v ;;
      xs <- deserialize_list name l' ;;
      Ok (x :: xs)
  end.

(** [{k: deser(name, v) for k, v in value.items()}] *)
Fixpoint deserialize_items (name : string) (items : list (string * pyval))
         (out : list (string * pyval)) : result (list (string * pyval)) :=
  match items with
  | [] => Ok out
  | (k, v) :: items' =>
      x <- deser name v ;;
      deserialize_items name items' (dict_set out k x)
  end.
End Comprehensions.

Section FromDictLoop.
Variable deser : string -> pyval -> pytype -> result pyval.
Variable data : pyval.

(** The loop of [from_dict] over [fields(cls)], building [kwargs]. *)
Fixpoint from_dict_loop (fs : list field) (kwargs : list (string * pyval))
  : result (list (string * pyval)) :=
  match fs with
  | [] => Ok kwargs
  | f :: fs' =>
      present <- py_contains data (fname f) ;;
      if present then
        raw <- py_getitem data (fname f) ;;
        x <- deser (fname f) raw (ftype f) ;;
        from_dict_loop fs' (dict_set kwargs (fname f) x)
      else if has_default f then
        from_dict_loop fs' kwargs
      else
        from_dict_loop fs' (dict_set kwargs (fname f) VNone)
  end.
End FromDictLoop.

(** The result of decoding against each member of a union, for the one
    member that is not [NoneType], when there is exactly one. *)
Definition sole_member {A : Type} (rs : list (pytype * A)) : option A :=
  match filter (fun p => negb (is_NoneType (fst p))) rs with
  | [(_, r)] => Some r
  | _ => None
  end.

(** [typ( **kwargs)] as an expression that may raise. *)
Definition call_constructor (c : pyclass) (kwargs : list (string * pyval))
  : result pyval :=
  match construct c kwargs with
  | Some inst => Ok inst
  | None => Raise TypeError
  end.

(** [_deserialize_value] and [from_dict], by recursion on the declared type.
    The tests of the source on [typ] ([hasattr(typ, "__dataclass_fields__")],
    [hasattr(typ, "from_dict")], [origin is Union], [typ is datetime],
    [origin in (list, List, tuple)], ["dict" in str(origin)]) are the cases of
    the match on [typ], each with the branches it can reach, in the order of
    the source.  Two devices keep the recursion structural: the union case
    decodes against every member and keeps the result for the sole member
    that is not [NoneType] ([sole_member]), and an element type [Any] is
    decoded by [deserialize_leaf].  The equations [deserialize_union],
    [deserialize_List], [deserialize_Dict] and [deserialize_Class] below
    restate each case in the words of the source. *)
Fixpoint _deserialize_value (cls : pyclass) (name : string) (value : pyval)
         (typ : pytype) {struct typ} : result pyval :=
  match _deserialize_field cls name value typ with
  | Some hook => Ok hook                                   (* lines 101-103 *)
  | None =>
      if is_None value then
        (* lines 107-119: Coalesce None naar lege container als mogelijk *)
        match typ with
        | TClass c =>
            match construct c [] with
            | Some inst => Ok inst
            | None => Ok VNone
            end
        | _ => Ok VNone
        end
      else
        match typ with
        | TClass c =>
            (* lines 121-123, then 173-177 *)
            if is_base_model c then from_dict c value
            else if is_Mapping value then
              items <- py_items value ;; call_constructor c items
            else Ok value
        | TUnion args =>
            (* lines 125-129, then 131-134 *)
            match sole_member
                    (map (fun a => (a, _deserialize_value cls name value a)) args) with
            | Some r => r
            | None =>
                if existsb is_datetime args then parse_datetime cls name value
                else Ok value
            end
        | TDatetime => parse_datetime cls name value       (* lines 131-171 *)
        | TList args | TTuple args =>
            (* lines 179-182 *)
            l <- py_iter value ;;
            xs <- match args with
                  | inner :: _ =>
                      deserialize_list
                        (fun n v => _deserialize_value cls n v inner) name l
                  | [] =>
                      deserialize_list
                        (fun n v => deserialize_leaf cls n v (TPlain "Any")) name l
                  end ;;
            Ok (VList xs)
        | TDict args =>
            (* lines 184-191 *)
            items <- py_items value ;;
            out <- match args with
                   | [_; val_type] =>
                       deserialize_items
                         (fun n v => _deserialize_value cls n v val_type) name items []
                   | _ =>
                       deserialize_items
                         (fun n v => deserialize_leaf cls n v (TPlain "Any")) name items []
                   end ;;
            Ok (VDict out)
        | TPlain _ | TNoneType => Ok value                 (* line 193 *)
        end
  end
with from_dict (cls : pyclass) (data : pyval) {struct cls} : result pyval :=
  match cls with
  | PyClass _ _ fs _ _ _ _ =>
      kwargs <- from_dict_loop (fun n v t => _deserialize_value cls n v t) data fs [] ;;
      call_constructor cls kwargs                          (* line 62 *)
  end.

(** The items of a mapping whose key names a declared field of [cls]. *)
Definition known_items (cls : pyclass) (items : list (string * pyval))
  : list (string * pyval) :=
  filter (fun kv => existsb (fun f => String.eqb (fname f) (fst kv)) (fields cls))
         items.

(** No key of [keys] is bound in [out]. *)
Definition fresh {A : Type} (out : list (string * A)) (keys : list string) : Prop :=
  forall k, In k keys -> dict_get out k = None.

(** [getattr(inst, name)] on a dataclass instance. *)
Fixpoint field_value (fs : list field) (vals : list pyval) (name : string)
  : option pyval :=
  match fs, vals with
  | f :: fs', v :: vals' =>
      if String.eqb (fname f) name then Some v else field_value fs' vals' name
  | _, _ => None
  end.

Definition getattr (inst : pyval) (name : string) : option pyval :=
  match inst with
  | VObj c vals => field_value (fields c) vals name
  | _ => None
  end.

(** [inner = get_args(typ)[0] if get_args(typ) else Any] *)
Definition inner_type (args : list pytype) : pytype :=
  match args with
  | inner :: _ => inner
  | [] => TPlain "Any"
  end.

(** [val_type = get_args(typ)[1] if ... len(get_args(typ)) == 2 else Any] *)
Definition value_type (args : list pytype) : pytype :=
  match args with
  | [_; val_type] => val_type
  | _ => TPlain "Any"
  end.

(** *** The order of the parsing rules, as the specification words it *)

(** The parsers tried on the raw value of a date/time field, in order:
    (a) each configured input format, (b) the configured output format if
    present (a format that is not the empty string), (c) ISO-8601, (d) the
    two fixed fallback formats. *)
Definition parse_attempts (cls : pyclass) (name : string)
  : list (pyval -> option datetime) :=
  map (fun fmt value => try_strptime value fmt) (input_formats cls name)
  ++ match dict_get (DATE_FORMAT_MAP cls) name with
     | Some fmt_out =>
         if truthy fmt_out then [fun value => try_strptime value fmt_out] else []
     | None => []
     end
  ++ [try_fromisoformat]
  ++ [fun value => try_strptime value "%d-%m-%Y %H:%M:%S";
      fun value => try_strptime value "%Y-%m-%d %H:%M:%S"].

(** The first success of a list of parsers on a value. *)
Fixpoint first_success (attempts : list (pyval -> option datetime)) (value : pyval)
  : option datetime :=
  match attempts with
  | [] => None
  | parse :: rest =>
      match parse value with
      | Some dt => Some dt
      | None => first_success rest value
      end
  end.

(** A declared type under which a value is parsed as a date/time: [datetime]
    itself, or a union with [datetime] among its members. *)
Definition datetime_typed (typ : pytype) : bool :=
  match typ with
  | TDatetime => true
  | TUnion args => existsb is_datetime args
  | _ => false
  end.

(** *** Equality of values *)

Section ListEq.
Variable A : Type.
Variable eqb : A -> A -> bool.

Fixpoint list_eqb (l1 l2 : list A) {struct l1} : bool :=
  match l1, l2 with
  | [], [] => true
  | a :: l1', b :: l2' => eqb a b && list_eqb l1' l2'
  | _, _ => false
  end.

(** Every item of the first dict has an equal value under the same key in
    the second. *)
Fixpoint items_leb (i1 i2 : list (string * A)) {struct i1} : bool :=
  match i1 with
  | [] => true
  | (k, v) :: i1' =>
      match dict_get i2 k with
      | Some v' => eqb v v' && items_leb i1' i2
      | None => false
      end
  end.
End ListEq.

(** [a == b].  Two dataclass instances are equal when they have the same
    class (classes are told apart by name) and equal field values; two
    dicts are equal when they hold equal values under the same keys. *)
Fixpoint py_eqb (a b : pyval) {struct a} : bool :=
  match a, b with
  | VNone, VNone => true
  | VBool x, VBool y => Bool.eqb x y
  | VBool x, VInt y => y =? (if x then 1 else 0)
  | VInt x, VBool y => x =? (if y then 1 else 0)
  | VInt x, VInt y => x =? y
  | VStr x, VStr y => String.eqb x y
  | VDatetime x, VDatetime y => datetime_eq x y
  | VList l1, VList l2 => list_eqb pyval py_eqb l1 l2
  | VTuple l1, VTuple l2 => list_eqb pyval py_eqb l1 l2
  | VDict i1, VDict i2 =>
      Nat.eqb (List.length i1) (List.length i2) && items_leb pyval py_eqb i1 i2
  | VObj c1 v1, VObj c2 v2 =>
      String.eqb (cname c1) (cname c2) && list_eqb pyval py_eqb v1 v2
  | _, _ => false
  end.

(** *** Values that round-trip *)

Fixpoint distinct (l : list string) : bool :=
  match l with
  | [] => true
  | k :: l' => negb (existsb (String.eqb k) l') && distinct l'
  end.

(** Values of the generic tree: scalars, lists and dicts of them. *)
Fixpoint plain (v : pyval) : bool :=
  match v with
  | VNone | VBool _ | VInt _ | VStr _ => true
  | VList l => forallb plain l
  | VDict items =>
      distinct (map fst items)
      && (fix all (items : list (string * pyval)) : bool :=
            match items with
            | [] => true
            | (_, v) :: items' => plain v && all items'
            end) items
  | _ => false
  end.

(** The rendering of [dt] in field [name] of [cls] parses back, by the rules
    of that field, to a value equal to [dt]. *)
Definition lossless (cls : pyclass) (name : string) (dt : datetime) : Prop :=
  exists s dt',
    serialize_datetime cls name dt = VStr s
    /\ parse_datetime cls name (VStr s) = Ok (VDatetime dt')
    /\ datetime_eq dt' dt = true.

(** Decoding [None] against the type gives [None]: the type is not a
    dataclass that can be built without arguments. *)
Definition null_stays_null (typ : pytype) : Prop :=
  match typ with
  | TClass c => construct c [] = None
  | _ => True
  end.

(** [conforms cls name typ v]: the value [v], held in field [name] of an
    instance of [cls] declared with type [typ], has the shape the type
    announces, and its date/time values are lossless. *)
Inductive conforms : pyclass -> string -> pytype -> pyval -> Prop :=
| conforms_None cls name typ :
    null_stays_null typ ->
    conforms cls name typ VNone
| conforms_plain cls name r v :
    plain v = true ->
    conforms cls name (TPlain r) v
| conforms_datetime cls name dt :
    lossless cls name dt ->
    conforms cls name TDatetime (VDatetime dt)
| conforms_optional cls name args a v :
    non_None_args args = [a] ->
    conforms cls name a v ->
    conforms cls name (TUnion args) v
| conforms_list cls name inner rest l :
    Forall (conforms cls name inner) l ->
    conforms cls name (TList (inner :: rest)) (VList l)
| conforms_list_untyped cls name l :
    forallb plain l = true ->
    conforms cls name (TList []) (VList l)
| conforms_dict cls name key_type val_type items :
    distinct (map fst items) = true ->
    Forall (fun kv => conforms cls name val_type (snd kv)) items ->
    conforms cls name (TDict [key_type; val_type]) (VDict items)
| conforms_record cls name c vals :
    is_base_model c = true ->
    distinct (map fname (fields c)) = true ->
    Forall2 (fun f v => conforms c (fname f) (ftype f) v) (fields c) vals ->
    conforms cls name (TClass c) (VObj c vals).

(** Decoding the encoding of [v], held in field [name] of an instance of
    [cls] and declared with type [typ], gives a value equal to [v]. *)
Definition round_trips (cls : pyclass) (name : string) (typ : pytype) (v : pyval)
  : Prop :=
  forall t,
  exists v',
    _deserialize_value cls name (_serialize_value cls name v t) typ = Ok v'
    /\ py_eqb v' v = true.

(** The item that [to_dict] writes for a field and its value. *)
Definition encoded_field (c : pyclass) (fv : field * pyval) : string * pyval :=
  (fname (fst fv), _serialize_value c (fname (fst fv)) (snd fv) (ftype (fst fv))).

(** Values that neither [in] nor [for] accept. *)
Definition not_iterable (v : pyval) : bool :=
  match v with
  | VBool _ | VInt _ | VDatetime _ | VObj _ _ => true
  | _ => false
  end.

End Codec.

(** ** A fragment of Python's [datetime] module

    Enough of the library to run the codec on concrete inputs: format strings
    made of the directives [%Y %m %d %H %M %S %z %%] and literal characters,
    ISO-8601 text as [isoformat] prints it (and a date alone), and the zones
    [base.py] names, "Europe/Amsterdam" (with the EU summer time rule in
    force since 1996) and "UTC".  Any other zone key reads as UTC.

    The fragment serves the worked examples; the theorems are stated over
    the interface [DatetimeLib].  Where it is narrower than Python:
    [strptime] matches the format character by character (Python also takes
    a run of white space for a space and a day padded with a space),
    [fromisoformat] reads the text that [isoformat] writes and a date alone
    (Python reads further ISO forms, such as a time without seconds), the
    summer time rule since 1996 is applied to every year, [%Y] is written
    with four digits, and equality compares instants (Python's [==] is
    false between zones for a value in a repeated or skipped local
    hour). *)

Module PyDatetime.

(** *** Civil dates and instants *)

Definition days_from_civil (y m d : Z) : Z :=
  let y' := if m <=? 2 then y - 1 else y in
  let era := y' / 400 in
  let yoe := y' - era * 400 in
  let mp := if m >? 2 then m - 3 else m + 9 in
  let doy := (153 * mp + 2) / 5 + d - 1 in
  let doe := yoe * 365 + yoe / 4 - yoe / 100 + doy in
  era * 146097 + doe - 719468.

Definition civil_from_days (days : Z) : Z * Z * Z :=
  let z := days + 719468 in
  let era := z / 146097 in
  let doe := z - era * 146097 in
  let yoe := (doe - doe / 1460 + doe / 36524 - doe / 146096) / 365 in
  let doy := doe - (365 * yoe + yoe / 4 - yoe / 100) in
  let mp := (5 * doy + 2) / 153 in
  let d := doy - (153 * mp + 2) / 5 + 1 in
  let m := if mp <? 10 then mp + 3 else mp - 9 in
  let y := yoe + era * 400 in
  (if m <=? 2 then y + 1 else y, m, d).

Definition is_leap (y : Z) : bool :=
  ((y mod 4 =? 0) && negb (y mod 100 =? 0)) || (y mod 400 =? 0).

Definition days_in_month (y m : Z) : Z :=
  if m =? 2 then (if is_leap y then 29 else 28)
  else if (m =? 4) || (m =? 6) || (m =? 9) || (m =? 11) then 30
  else 31.

(** The checks of the [datetime(...)] constructor. *)
Definition valid_datetime (dt : datetime) : bool :=
  (1 <=? year dt) && (year dt <=? 9999) &&
  (1 <=? month dt) && (month dt <=? 12) &&
  (1 <=? day dt) && (day dt <=? days_in_month (year dt) (month dt)) &&
  (0 <=? hour dt) && (hour dt <=? 23) &&
  (0 <=? minute dt) && (minute dt <=? 59) &&
  (0 <=? second dt) && (second dt <=? 59) &&
  (0 <=? microsecond dt) && (microsecond dt <=? 999999).

(** Seconds from 1970-01-01T00:00:00 to the wall clock reading of [dt]. *)
Definition wall_seconds (dt : datetime) : Z :=
  days_from_civil (year dt) (month dt) (day dt) * 86400
  + hour dt * 3600 + minute dt * 60 + second dt.

Definition of_wall_seconds (s : Z) (us : Z) (z : option tzinfo) : datetime :=
  let days := s / 86400 in
  let rem := s mod 86400 in
  let '(y, m, d) := civil_from_days days in
  mkDatetime y m d (rem / 3600) ((rem mod 3600) / 60) (rem mod 60) us z.

(** *** Zones *)

(** Day of the month of the last Sunday of a month of 31 days. *)
Definition last_sunday (y m : Z) : Z :=
  let weekday := (days_from_civil y m 31 + 3) mod 7 in   (* Monday = 0 *)
  31 - (weekday + 1) mod 7.

(** Summer time in the EU: from 01:00 UTC on the last Sunday of March to
    01:00 UTC on the last Sunday of October. *)
Definition eu_summer_time (utc : Z) : bool :=
  let '(y, _, _) := civil_from_days (utc / 86400) in
  let start := days_from_civil y 3 (last_sunday y 3) * 86400 + 3600 in
  let stop := days_from_civil y 10 (last_sunday y 10) * 86400 + 3600 in
  (start <=? utc) && (utc <? stop).

(** The offset of a zone at an instant given in UTC seconds. *)
Definition offset_at_utc (z : tzinfo) (utc : Z) : Z :=
  match z with
  | FixedOffset s => s
  | ZoneInfo key =>
      if String.eqb key "Europe/Amsterdam" then
        (if eu_summer_time utc then 7200 else 3600)
      else 0
  end.

(** The offset of a zone at a wall clock reading ([fold=0]). *)
Definition offset_at_wall (z : tzinfo) (wall : Z) : Z :=
  match z with
  | FixedOffset s => s
  | ZoneInfo key =>
      if String.eqb key "Europe/Amsterdam" then
        (if eu_summer_time (wall - 7200) then 7200 else 3600)
      else 0
  end.

(** [dt.utcoffset()] in seconds, for an aware [dt]. *)
Definition utcoffset (dt : datetime) : option Z :=
  match tzinfo_of dt with
  | Some z => Some (offset_at_wall z (wall_seconds dt))
  | None => None
  end.

Definition tzinfo_eqb (a b : tzinfo) : bool :=
  match a, b with
  | ZoneInfo k1, ZoneInfo k2 => String.eqb k1 k2
  | FixedOffset s1, FixedOffset s2 => s1 =? s2
  | _, _ => false
  end.

(** [dt.astimezone(z)]; the codec calls it on aware values only. *)
Definition astimezone (dt : datetime) (z : tzinfo) : datetime :=
  match tzinfo_of dt with
  | None => replace_tzinfo dt z
  | Some z0 =>
      if tzinfo_eqb z0 z then dt
      else
        let utc := wall_seconds dt - offset_at_wall z0 (wall_seconds dt) in
        of_wall_seconds (utc + offset_at_utc z utc) (microsecond dt) (Some z)
  end.

(** [a == b]: two naive values compare field by field, two aware values
    compare as instants, a naive and an aware value are never equal. *)
Definition datetime_eq (a b : datetime) : bool :=
  match utcoffset a, utcoffset b with
  | None, None =>
      (wall_seconds a =? wall_seconds b) && (microsecond a =? microsecond b)
  | Some oa, Some ob =>
      (wall_seconds a - oa =? wall_seconds b - ob)
      && (microsecond a =? microsecond b)
  | _, _ => false
  end.

(** *** Printing *)

Definition ascii_of_digit (d : Z) : ascii :=
  ascii_of_nat (Z.to_nat (48 + d)).

(** The last [width] decimal digits of [n], in front of [acc]. *)
Fixpoint show_digits (width : nat) (n : Z) (acc : string) : string :=
  match width with
  | O => acc
  | S w => show_digits w (n / 10) (String (ascii_of_digit (n mod 10)) acc)
  end.

Definition digits (width : nat) (n : Z) : string := show_digits width n "".

(** An offset as [+HH<sep>MM], with the seconds when there are some. *)
Definition show_offset (sep : string) (off : Z) : string :=
  let a := Z.abs off in
  (if off <? 0 then "-" else "+")
    ++ digits 2 (a / 3600) ++ sep ++ digits 2 ((a mod 3600) / 60)
    ++ (if a mod 60 =? 0 then "" else sep ++ digits 2 (a mod 60)).

Definition isoformat (dt : datetime) : string :=
  digits 4 (year dt) ++ "-" ++ digits 2 (month dt) ++ "-" ++ digits 2 (day dt)
    ++ "T" ++ digits 2 (hour dt) ++ ":" ++ digits 2 (minute dt)
    ++ ":" ++ digits 2 (second dt)
    ++ (if microsecond dt =? 0 then "" else "." ++ digits 6 (microsecond dt))
    ++ match utcoffset dt with
       | Some off => show_offset ":" off
       | None => ""
       end.

Definition show_directive (c : ascii) (dt : datetime) : string :=
  if Ascii.eqb c "Y" then digits 4 (year dt)
  else if Ascii.eqb c "m" then digits 2 (month dt)
  else if Ascii.eqb c "d" then digits 2 (day dt)
  else if Ascii.eqb c "H" then digits 2 (hour dt)
  else if Ascii.eqb c "M" then digits 2 (minute dt)
  else if Ascii.eqb c "S" then digits 2 (second dt)
  else if Ascii.eqb c "z" then
    match utcoffset dt with Some off => show_offset "" off | None => "" end
  else String c "".

Fixpoint strftime (dt : datetime) (fmt : string) : string :=
  match fmt with
  | String "%" (String c fmt') => show_directive c dt ++ strftime dt fmt'
  | String a fmt' => String a (strftime dt fmt')
  | EmptyString => ""
  end.

(** *** Parsing *)

Definition digit_of (a : ascii) : option Z :=
  let n := Z.of_nat (nat_of_ascii a) in
  if (48 <=? n) && (n <=? 57) then Some (n - 48) else None.

(** Exactly [width] digits at the head of [s]. *)
Fixpoint read_digits (width : nat) (s : string) (acc : Z) : option (Z * string) :=
  match width with
  | O => Some (acc, s)
  | S w =>
      match s with
      | String a s' =>
          match digit_of a with
          | Some d => read_digits w s' (acc * 10 + d)
          | None => None
          end
      | EmptyString => None
      end
  end.

Definition in_range (lo hi : Z) (r : option (Z * string)) : list (Z * string) :=
  match r with
  | Some (n, rest) => if (lo <=? n) && (n <=? hi) then [(n, rest)] else []
  | None => []
  end.

(** The readings of a numeric directive, in the order the pattern of
    [strptime] prefers them: two digits, then one. *)
Definition two_or_one (lo hi : Z) (s : string) : list (Z * string) :=
  in_range lo hi (read_digits 2 s 0) ++ in_range lo 9 (read_digits 1 s 0).

(** [+HH:MM], [+HHMM] or [Z]. *)
Definition read_offset (s : string) : option (Z * string) :=
  match s with
  | String "Z" rest => Some (0, rest)
  | String sign rest =>
      if Ascii.eqb sign "+" || Ascii.eqb sign "-" then
        match read_digits 2 rest 0 with
        | Some (h, rest1) =>
            let rest2 := match rest1 with String ":" r => r | _ => rest1 end in
            match read_digits 2 rest2 0 with
            | Some (m, rest3) =>
                if m <=? 59 then
                  Some ((if Ascii.eqb sign "-" then -1 else 1) * (h * 3600 + m * 60),
                        rest3)
                else None
            | None => None
            end
        | None => None
        end
      else None
  | EmptyString => None
  end.

Definition set_year (dt : datetime) (v : Z) : datetime :=
  mkDatetime v (month dt) (day dt) (hour dt) (minute dt) (second dt)
             (microsecond dt) (tzinfo_of dt).
Definition set_month (dt : datetime) (v : Z) : datetime :=
  mkDatetime (year dt) v (day dt) (hour dt) (minute dt) (second dt)
             (microsecond dt) (tzinfo_of dt).
Definition set_day (dt : datetime) (v : Z) : datetime :=
  mkDatetime (year dt) (month dt) v (hour dt) (minute dt) (second dt)
             (microsecond dt) (tzinfo_of dt).
Definition set_hour (dt : datetime) (v : Z) : datetime :=
  mkDatetime (year dt) (month dt) (day dt) v (minute dt) (second dt)
             (microsecond dt) (tzinfo_of dt).
Definition set_minute (dt : datetime) (v : Z) : datetime :=
  mkDatetime (year dt) (month dt) (day dt) (hour dt) v (second dt)
             (microsecond dt) (tzinfo_of dt).
Definition set_second (dt : datetime) (v : Z) : datetime :=
  mkDatetime (year dt) (month dt) (day dt) (hour dt) (minute dt) v
             (microsecond dt) (tzinfo_of dt).
Definition set_microsecond (dt : datetime) (v : Z) : datetime :=
  mkDatetime (year dt) (month dt) (day dt) (hour dt) (minute dt) (second dt)
             v (tzinfo_of dt).

(** The readings of one directive at the head of [s]: the updated fields
    and the rest of the input. *)
Definition read_directive (c : ascii) (s : string) (dt : datetime)
  : list (datetime * string) :=
  let upd set := map (fun r => (set dt (fst r), snd r)) in
  if Ascii.eqb c "Y" then upd set_year (in_range 0 9999 (read_digits 4 s 0))
  else if Ascii.eqb c "m" then upd set_month (two_or_one 1 12 s)
  else if Ascii.eqb c "d" then upd set_day (two_or_one 1 31 s)
  else if Ascii.eqb c "H" then upd set_hour (two_or_one 0 23 s)
  else if Ascii.eqb c "M" then upd set_minute (two_or_one 0 59 s)
  else if Ascii.eqb c "S" then upd set_second (two_or_one 0 61 s)
  else if Ascii.eqb c "z" then
    match read_offset s with
    | Some (off, rest) => [(replace_tzinfo dt (FixedOffset off), rest)]
    | None => []
    end
  else if Ascii.eqb c "%" then
    match s with
    | String "%" rest => [(dt, rest)]
    | _ => []
    end
  else [].

Fixpoint first_some {A B : Type} (f : A -> option B) (l : list A) : option B :=
  match l with
  | [] => None
  | a :: l' => match f a with Some b => Some b | None => first_some f l' end
  end.

(** Matching of the whole input against the format, with backtracking over
    the readings of each directive. *)
Fixpoint match_format (fmt : string) (s : string) (dt : datetime) {struct fmt}
  : option datetime :=
  match fmt with
  | EmptyString =>
      match s with EmptyString => Some dt | _ => None end
  | String "%" (String c fmt') =>
      first_some (fun r => match_format fmt' (snd r) (fst r)) (read_directive c s dt)
  | String a fmt' =>
      match s with
      | String b s' => if Ascii.eqb a b then match_format fmt' s' dt else None
      | EmptyString => None
      end
  end.

(** [datetime.strptime(s, fmt)]: fields that the format does not set keep
    the defaults 1900-01-01 00:00:00. *)
Definition strptime (s fmt : string) : option datetime :=
  match match_format fmt s (mkDatetime 1900 1 1 0 0 0 0 None) with
  | Some dt => if valid_datetime dt then Some dt else None
  | None => None
  end.

(** At most six digits of a fraction of a second, as microseconds. *)
Fixpoint read_fraction (width : nat) (s : string) (acc : Z) : Z * string :=
  match width with
  | O => (acc, s)
  | S w =>
      match s with
      | String a s' =>
          match digit_of a with
          | Some d => read_fraction w s' (acc * 10 + d)
          | None => (acc * 10 ^ Z.of_nat width, s)
          end
      | EmptyString => (acc * 10 ^ Z.of_nat width, s)
      end
  end.

(** The zone at the end of ISO-8601 text: nothing, or an offset. *)
Definition read_iso_zone (s : string) (dt : datetime) : option datetime :=
  match s with
  | EmptyString => Some dt
  | _ =>
      match read_offset s with
      | Some (off, EmptyString) => Some (replace_tzinfo dt (FixedOffset off))
      | _ => None
      end
  end.

Definition read_iso_time (s : string) (dt : datetime) : option datetime :=
  match match_format "%H:%M:%S" (substring 0 8 s) dt with
  | Some dt1 =>
      if (String.length s <? 8)%nat then None
      else
        match substring 8 (String.length s - 8) s with
        | String "." frac =>
            match frac with
            | String a _ =>
                match digit_of a with
                | Some _ =>
                    let '(us, rest) := read_fraction 6 frac 0 in
                    read_iso_zone rest (set_microsecond dt1 us)
                | None => None
                end
            | EmptyString => None
            end
        | rest => read_iso_zone rest dt1
        end
  | None => None
  end.

(** [datetime.fromisoformat(s)] on [YYYY-MM-DD], alone or followed by one
    separator character and [HH:MM:SS[.ffffff][+HH:MM]]. *)
Definition fromisoformat (s : string) : option datetime :=
  match match_format "%Y-%m-%d" (substring 0 10 s)
                     (mkDatetime 1900 1 1 0 0 0 0 None) with
  | Some dt =>
      if (String.length (substring 0 10 s) <? 10)%nat then None
      else
        match match substring 10 (String.length s - 10) s with
              | EmptyString => Some dt
              | String _ time => read_iso_time time dt
              end with
        | Some dt' => if valid_datetime dt' then Some dt' else None
        | None => None
        end
  | None => None
  end.

Definition lib : DatetimeLib :=
  Build_DatetimeLib strptime fromisoformat strftime isoformat astimezone datetime_eq.

End PyDatetime.


(** ** The record types of the repository *)

(** A subclass of [BaseModel] that keeps the class attributes of the base:
    empty format tables and "Europe/Amsterdam" for both zones. *)
Definition base_model (name : string) (flds : list field) : pyclass :=
  PyClass name true flds [] [] "Europe/Amsterdam" "Europe/Amsterdam".

Definition Optional (t : pytype) : pytype := TUnion [t; TNoneType].

(** The classes as [fields(cls)] reports them.  Every module of
    [data_models] starts with [from __future__ import annotations], so
    [f.type] is the text of the annotation. *)
Module Declared.

Definition ContentChunk : pyclass :=
  base_model "ContentChunk"
    [Field "chunk_identifier" (TPlain "'str'") MISSING;
     Field "content" (TPlain "'str'") MISSING].

Definition TimelineDocument : pyclass :=
  base_model "TimelineDocument"
    [Field "id" (TPlain "'str'") MISSING;
     Field "title" (TPlain "'str'") MISSING;
     Field "created_at" (TPlain "'datetime'") MISSING;
     Field "publisher" (TPlain "'Optional[str]'") (Default SNone);
     Field "summary" (TPlain "'Optional[str]'") (Default SNone);
     Field "publisher_link" (TPlain "'Optional[str]'") (Default SNone);
     Field "content_text" (TPlain "'List[ContentChunk]'") (DefaultFactory FList);
     Field "informatieobject" (TPlain "'Dict[str, Any]'") (DefaultFactory FDict)].

Definition Timeline : pyclass :=
  base_model "Timeline"
    [Field "identifier" (TPlain "'str'") MISSING;
     Field "name" (TPlain "'str'") MISSING;
     Field "documents" (TPlain "'List[TimelineDocument]'") (DefaultFactory FList);
     Field "beschrijving" (TPlain "'Optional[str]'") (Default SNone);
     Field "gegenereerd_op" (TPlain "'Optional[datetime]'") (Default SNone)].

(** [data_models/mdto.py]; the default factory is the class itself. *)
Definition OrganisatieType : pyclass :=
  base_model "OrganisatieType"
    [Field "label" (TPlain "'Optional[str]'") (Default SNone);
     Field "uri" (TPlain "'Optional[str]'") (Default SNone)].

Definition Organisatie : pyclass :=
  base_model "Organisatie"
    [Field "naam" (TPlain "'Optional[str]'") (Default SNone);
     Field "organisatieType" (TPlain "'OrganisatieType'")
           (DefaultFactory (FClass OrganisatieType));
     Field "uri" (TPlain "'Optional[str]'") (Default SNone)].


End Declared.

(** The same classes with every annotation evaluated to the type object it
    names, as [_deserialize_value] expects to find it. *)
Module Resolved.

Definition str : pytype := TPlain "str".
Definition Any : pytype := TPlain "Any".

Definition ContentChunk : pyclass :=
  base_model "ContentChunk"
    [Field "chunk_identifier" str MISSING;
     Field "content" str MISSING].

Definition TimelineDocument : pyclass :=
  base_model "TimelineDocument"
    [Field "id" str MISSING;
     Field "title" str MISSING;
     Field "created_at" TDatetime MISSING;
     Field "publisher" (Optional str) (Default SNone);
     Field "summary" (Optional str) (Default SNone);
     Field "publisher_link" (Optional str) (Default SNone);
     Field "content_text" (TList [TClass ContentChunk]) (DefaultFactory FList);
     Field "informatieobject" (TDict [str; Any]) (DefaultFactory FDict)].

Definition Timeline : pyclass :=
  base_model "Timeline"
    [Field "identifier" str MISSING;
     Field "name" str MISSING;
     Field "documents" (TList [TClass TimelineDocument]) (DefaultFactory FList);
     Field "beschrijving" (Optional str) (Default SNone);
     Field "gegenereerd_op" (Optional TDatetime) (Default SNone)].

(** [data_models/mdto.py] *)
Definition OrganisatieType : pyclass :=
  base_model "OrganisatieType"
    [Field "label" (Optional str) (Default SNone);
     Field "uri" (Optional str) (Default SNone)].

Definition Organisatie : pyclass :=
  base_model "Organisatie"
    [Field "naam" (Optional str) (Default SNone);
     Field "organisatieType" (TClass OrganisatieType)
           (DefaultFactory (FClass OrganisatieType));
     Field "uri" (Optional str) (Default SNone)].

(** [data_models/scraper_models.py] *)
Definition RawDocument : pyclass :=
  base_model "RawDocument"
    [Field "publisher_link" str MISSING;
     Field "document_link" str MISSING;
     Field "metadata" (TDict [str; Any]) MISSING].

End Resolved.

(** ** Further model classes, for the worked examples *)

Module Examples.

(** A record with a date/time field that accepts two input formats. *)
Definition Event : pyclass :=
  PyClass "Event" true
    [Field "title" (TPlain "str") MISSING;
     Field "when" TDatetime MISSING]
    []
    [("when", ["%d-%m-%Y"; "%Y-%m-%d"])]
    "Europe/Amsterdam" "Europe/Amsterdam".

(** A record whose zones differ and whose dates are written day first. *)
Definition Logbook : pyclass :=
  PyClass "Logbook" true
    [Field "opened" TDatetime MISSING;
     Field "entries" (TList [TDatetime]) (DefaultFactory FList);
     Field "marks" (TDict [TPlain "str"; TDatetime]) (DefaultFactory FDict)]
    [("opened", "%d-%m-%Y %H:%M:%S"); ("entries", "%d-%m-%Y %H:%M"); ("marks", "%d-%m-%Y")]
    [("entries", ["%d-%m-%Y %H:%M"]); ("marks", ["%d-%m-%Y"])]
    "UTC" "Europe/Amsterdam".

(** A record with a required field of a record type. *)
Definition Membership : pyclass :=
  base_model "Membership"
    [Field "naam" (TPlain "str") MISSING;
     Field "organisatie" (TClass Resolved.OrganisatieType) MISSING;
     Field "bron" (Optional (TClass Resolved.OrganisatieType)) MISSING].


(** [OrganisatieType()] *)
Definition OrganisatieType_default : pyval :=
  VObj Resolved.OrganisatieType [VNone; VNone].

Definition noon : datetime := mkDatetime 2024 1 1 12 0 0 0 None.
Definition noon_in (z : string) : datetime :=
  mkDatetime 2024 1 1 12 0 0 0 (Some (ZoneInfo z)).

(** A timeline with one document; every date/time carries a zone. *)
Definition chunk : pyval :=
  VObj Resolved.ContentChunk [VStr "c1"; VStr "Eerste alinea"].

Definition document : pyval :=
  VObj Resolved.TimelineDocument
    [VStr "d1"; VStr "Kamerbrief"; VDatetime (noon_in "UTC");
     VNone; VStr "samenvatting"; VNone;
     VList [chunk];
     VDict [("titel", VStr "Kamerbrief"); ("pagina's", VInt 3)]].

Definition timeline_values : list pyval :=
  [VStr "t1"; VStr "Tijdlijn"; VList [document]; VNone;
   VDatetime (noon_in "Europe/Amsterdam")].


End Examples.


(** ** The callers of the codec

    [Timeline.doc_by_id] of [data_models/timeline.py], the normalisers of
    [services/timeline.py], [TimelineRepository] and two helpers of
    [DocumentRepository].  They work on the classes as declared.  The
    digest [hashlib.md5(s.encode("utf-8")).hexdigest()], [repr], [str.lower]
    and the search client are parameters.  An assignment to an attribute
    returns the updated instance. *)

(** [bool(v)] *)
Definition py_truthy (v : pyval) : bool :=
  match v with
  | VNone => false
  | VBool b => b
  | VInt n => negb (n =? 0)
  | VStr s => truthy s
  | VList l | VTuple l => match l with [] => false | _ => true end
  | VDict items => match items with [] => false | _ => true end
  | VDatetime _ | VObj _ _ => true
  end.

(** [a or b] *)
Definition py_or (a b : pyval) : pyval := if py_truthy a then a else b.

(** [d.get(key, default)] on a dict *)
Definition py_get (d : list (string * pyval)) (key : string) (default : pyval) : pyval :=
  match dict_get d key with
  | Some v => v
  | None => default
  end.

(** [isinstance(v, c)]; classes are told apart by name. *)
Definition isinstance (v : pyval) (c : pyclass) : bool :=
  match v with
  | VObj c' _ => String.eqb (cname c') (cname c)
  | _ => false
  end.

(** The expression [obj.name], which raises [AttributeError] when the object
    has no such attribute. *)
Definition py_getattr (obj : pyval) (name : string) : result pyval :=
  match getattr obj name with
  | Some v => Ok v
  | None => Raise AttributeError
  end.

Fixpoint set_field_value (fs : list field) (vals : list pyval) (name : string)
         (v : pyval) : list pyval :=
  match fs, vals with
  | f :: fs', x :: vals' =>
      if String.eqb (fname f) name then v :: vals'
      else x :: set_field_value fs' vals' name v
  | _, _ => vals
  end.

(** [obj.name = v] on an instance that has the attribute. *)
Definition setattr (obj : pyval) (name : string) (v : pyval) : pyval :=
  match obj with
  | VObj c vals => VObj c (set_field_value (fields c) vals name v)
  | _ => obj
  end.

(** [range(start, stop)] *)
Definition py_range (start stop : Z) : list Z :=
  map (fun i => start + Z.of_nat i) (seq 0 (Z.to_nat (stop - start))).

Section TimelineService.
Context {lib : DatetimeLib} {hooks : Hooks}.

(** [hashlib.md5(s.encode("utf-8")).hexdigest()] *)
Variable md5_hexdigest : string -> string.
(** [repr(raw)] of a dict *)
Variable repr : list (string * pyval) -> string.

(** The generator of [doc_by_id]: the first [d] with [d.id == doc_id]. *)
Fixpoint first_with_id (docs : list pyval) (doc_id : pyval) : result pyval :=
  match docs with
  | [] => Ok VNone
  | d :: rest =>
      i <- py_getattr d "id" ;;
      if py_eqb i doc_id then Ok d else first_with_id rest doc_id
  end.

(** [Timeline.doc_by_id], [data_models/timeline.py] lines 44-47. *)
Definition doc_by_id (self : pyval) (doc_id : string) : result pyval :=
  documents <- py_getattr self "documents" ;;
  docs <- py_iter documents ;;
  first_with_id docs (VStr doc_id).

(** [hashlib.md5(v.encode("utf-8")).hexdigest()]: only a string has
    [encode]. *)
Definition md5_of (v : pyval) : result pyval :=
  match v with
  | VStr s => Ok (VStr (md5_hexdigest s))
  | _ => Raise AttributeError
  end.

(** [_map_processed_document], [services/timeline.py] lines 163-183. *)
Definition _map_processed_document (raw : list (string * pyval)) : result pyval :=
  let identifier := py_or (py_get raw "doc_identifier" VNone) (py_get raw "id" VNone) in
  identifier <-
    (if py_truthy identifier then Ok identifier
     else
       let fallback_source :=
         py_or (py_or (py_or (py_get raw "title" VNone)
                             (py_get raw "publisher_link" VNone))
                      (py_get raw "document_link" VNone))
               (VStr (repr raw)) in
       md5_of fallback_source) ;;
  Ok (VDict [("id", identifier);
             ("title", py_get raw "title" (VStr "Onbekend document"));
             ("created_at", py_get raw "created_at" VNone);
             ("publisher", py_get raw "publisher" VNone);
             ("summary", py_get raw "summary" VNone);
             ("publisher_link", py_get raw "publisher_link" VNone);
             ("content_text", py_or (py_get raw "content_text" VNone) (VList []));
             ("informatieobject", py_or (py_get raw "informatieobject" VNone) (VDict []))]).

(** [_normalize_chunk], lines 229-240; [None] is returned for [None] and
    for a payload of another kind. *)
Definition _normalize_chunk (chunk : pyval) : result pyval :=
  match chunk with
  | VNone => Ok VNone
  | VDict _ => from_dict Declared.ContentChunk chunk
  | VStr s =>
      call_constructor Declared.ContentChunk
        [("chunk_identifier", VStr (md5_hexdigest s)); ("content", chunk)]
  | _ => if isinstance chunk Declared.ContentChunk then Ok chunk else Ok VNone
  end.

(** The loop of [_normalize_chunks]. *)
Fixpoint normalize_chunk_list (chunks : list pyval) : result (list pyval) :=
  match chunks with
  | [] => Ok []
  | chunk :: rest =>
      normalized_chunk <- _normalize_chunk chunk ;;
      normalized <- normalize_chunk_list rest ;;
      Ok (if is_None normalized_chunk then normalized
          else normalized_chunk :: normalized)
  end.

(** [_normalize_chunks], lines 220-227. *)
Definition _normalize_chunks (chunks : pyval) : result pyval :=
  l <- py_iter (py_or chunks (VList [])) ;;
  normalized <- normalize_chunk_list l ;;
  Ok (VList normalized).

(** [_normalize_document], lines 201-218. *)
Definition _normalize_document (document : pyval) : result pyval :=
  model <-
    match document with
    | VDict items =>
        payload <-
          (if dict_contains items "doc_identifier" && negb (dict_contains items "id")
           then _map_processed_document items
           else Ok document) ;;
        from_dict Declared.TimelineDocument payload
    | _ =>
        if isinstance document Declared.TimelineDocument then Ok document
        else Raise TypeError
    end ;;
  content_text <- py_getattr model "content_text" ;;
  chunks <- _normalize_chunks (py_or content_text (VList [])) ;;
  Ok (setattr model "content_text" chunks).

(** [[self._normalize_document(doc) for doc in ...]] *)
Fixpoint normalize_document_list (docs : list pyval) : result (list pyval) :=
  match docs with
  | [] => Ok []
  | doc :: rest =>
      model <- _normalize_document doc ;;
      models <- normalize_document_list rest ;;
      Ok (model :: models)
  end.

(** [_normalize_timeline], lines 185-199. *)
Definition _normalize_timeline (timeline : pyval) : result pyval :=
  model <-
    match timeline with
    | VDict _ => from_dict Declared.Timeline timeline
    | _ =>
        if isinstance timeline Declared.Timeline then Ok timeline
        else Raise TypeError
    end ;;
  docs <- py_iter (match getattr model "documents" with
                   | Some documents => documents
                   | None => VList []
                   end) ;;
  documents <- normalize_document_list docs ;;
  Ok (setattr model "documents" (VList documents)).

End TimelineService.

(** [TimelineRepository], [repositories/timeline_repository.py].  The search
    client is a state [S] with the two calls the repository makes on it;
    [os_get] gives [None] when the call raises. *)
Section TimelineRepository.
Context {lib : DatetimeLib} {hooks : Hooks}.
Variable Client : Type.
(** [opensearch.index(index=..., id=..., body=...)] *)
Variable os_index : Client -> string -> pyval -> pyval -> Client.
(** [opensearch.get(index=..., id=...)] *)
Variable os_get : Client -> string -> string -> option pyval.

(** [_doc_to_source]: [timeline.to_dict()] *)
Definition _doc_to_source (timeline : pyval) : result pyval :=
  match timeline with
  | VObj c vals => if is_base_model c then Ok (to_dict c vals) else Raise AttributeError
  | _ => Raise AttributeError
  end.

(** [_source_to_doc]: [Timeline.from_dict(source)] *)
Definition _source_to_doc (source : pyval) : result pyval :=
  from_dict Declared.Timeline source.

(** [upsert], lines 30-37. *)
Definition upsert (client : Client) (index : string) (timeline : pyval) : result Client :=
  identifier <- py_getattr timeline "identifier" ;;
  body <- _doc_to_source timeline ;;
  Ok (os_index client index identifier body).

(** [res.get("_source")] *)
Definition response_source (res : pyval) : result pyval :=
  match res with
  | VDict items => Ok (py_get items "_source" VNone)
  | _ => Raise AttributeError
  end.

(** [get], lines 39-51. *)
Definition repository_get (client : Client) (index identifier : string) : result pyval :=
  match os_get client index identifier with
  | None => Ok VNone                      (* except Exception: return None *)
  | Some res =>
      source <- response_source res ;;
      if py_truthy source then _source_to_doc source else Ok VNone
  end.

(** [d.get(key, default)]: only a dict has [get]. *)
Definition py_dict_get (d : pyval) (key : string) (default : pyval) : result pyval :=
  match d with
  | VDict items => Ok (py_get items key default)
  | _ => Raise AttributeError
  end.

(** [[self._source_to_doc(hit["_source"]) for hit in hits if hit.get("_source")]] *)
Fixpoint hits_to_docs (hits : list pyval) : result (list pyval) :=
  match hits with
  | [] => Ok []
  | hit :: rest =>
      source <- py_dict_get hit "_source" VNone ;;
      if py_truthy source then
        raw <- py_getitem hit "_source" ;;
        doc <- _source_to_doc raw ;;
        docs <- hits_to_docs rest ;;
        Ok (doc :: docs)
      else hits_to_docs rest
  end.

(** [find_all], lines 58-68, on the response of [opensearch.search]. *)
Definition find_all (response : pyval) : result pyval :=
  outer <- py_dict_get response "hits" (VDict []) ;;
  hits <- py_dict_get outer "hits" (VList []) ;;
  l <- py_iter hits ;;
  docs <- hits_to_docs l ;;
  Ok (VList docs).

End TimelineRepository.

(** [DocumentRepository._iterate_pages],
    [repositories/scraper_repository.py] lines 295-298. *)
Definition _iterate_pages (total_pages max_pages : Z) : list Z :=
  let last_page :=
    if negb (max_pages =? 0) then Z.min total_pages max_pages else total_pages in
  py_range 1 (last_page + 1).

(** [DocumentRepository._determine_publication_filter], lines 334-351;
    [None] is the exception [DocumentsNotFound]. *)
Section PublicationFilter.
(** [str.lower] *)
Variable lower : string -> string.

Definition ALL_PUBLICATIONS_FILTER : string :=
  "(((w.publicatienaam==%22Agenda%22))or((w.publicatienaam==%22Handelingen%22))or((w.publicatienaam==%22Kamerstuk%22))or(((w.publicatienaam==%22Kamervragen%20(Aanhangsel)%22)or(w.publicatienaam==%22Kamervragen%20zonder%20antwoord%22)))or((w.publicatienaam==%22Niet-dossierstuk%22)))".

Definition DOCUMENT_TYPE_FRAGMENTS : list (string * string) :=
  [("handelingen", "((w.publicatienaam==%22Handelingen%22))");
   ("motie", "((w.subrubriek==%22motie%22))");
   ("kamervragen", "(((w.publicatienaam==%22Kamervragen%20(Aanhangsel)%22)or(w.publicatienaam==%22Kamervragen%20zonder%20antwoord%22)))");
   ("kamerstuk", "((w.publicatienaam==%22Kamerstuk%22))");
   ("agenda", "((w.publicatienaam==%22Agenda%22))")].

(** [sep.join(parts)] *)
Fixpoint join (sep : string) (parts : list string) : string :=
  match parts with
  | [] => ""
  | [p] => p
  | p :: rest => p ++ sep ++ join sep rest
  end.

(** The fragments whose key occurs in one of the normalised types. *)
Definition selected_fragments (normalized : list string) : list string :=
  map snd
      (filter (fun kf => existsb (fun doc_type => str_contains (fst kf) doc_type)
                                 normalized)
              DOCUMENT_TYPE_FRAGMENTS).

Definition _determine_publication_filter (document_types : list string)
  : option string :=
  let normalized := map lower document_types in
  if match normalized with [] => true | _ => false end
     || existsb (String.eqb "alle parlementaire documenten") normalized
  then Some ALL_PUBLICATIONS_FILTER
  else
    match selected_fragments normalized with
    | [] => None
    | [fragment] => Some fragment
    | fragments => Some ("(" ++ join "or" fragments ++ ")")
    end.

End PublicationFilter.

(** [AVAILABLE_DOCUMENT_TYPES], [services/timeline.py] lines 21-28. *)
Definition AVAILABLE_DOCUMENT_TYPES : list string :=
  ["Alle parlementaire documenten"; "Handelingen"; "Motie"; "Kamervragen";
   "Kamerstukken"; "Agenda's"].

(** ** A class with [__post_init__]

    [SearchQuery], [data_models/scraper_models.py] lines 13-22: the
    constructor that the dataclass generates stores the keyword arguments
    and then runs [__post_init__] on the instance. *)

Section SearchQueryModel.
Context {lib : DatetimeLib} {hooks : Hooks}.

(** [str.strip()] *)
Variable strip : string -> string.





End SearchQueryModel.

(** ** Classes as the repository declares them

    Under [from __future__ import annotations] every annotation of a class
    is text.  The defaults of the classes of [data_models/timeline.py] are
    constants and the factories [list] and [dict]. *)

Definition is_text (t : pytype) : bool :=
  match t with TPlain _ => true | _ => false end.

Definition text_annotated (c : pyclass) : bool :=
  forallb (fun f => is_text (ftype f)) (fields c).

Definition simple_defaults (c : pyclass) : bool :=
  forallb (fun f => match fdefault_of f with
                    | DefaultFactory (FClass _) => false
                    | _ => true
                    end) (fields c).

(** What [to_dict] writes for the value [snd fv] of the field [fst fv]. *)
Definition encoded_value {lib : DatetimeLib} {hooks : Hooks} (c : pyclass)
           (fv : field * pyval) : pyval :=
  _serialize_value c (fname (fst fv)) (snd fv) (ftype (fst fv)).

(** Timelines as the service holds them: the scalars are values of the
    generic tree (a date is kept as the text that was stored), the chunks
    and the documents are instances. *)
Definition chunk_record (v : pyval) : Prop :=
  exists chunk_identifier content,
    v = VObj Declared.ContentChunk [chunk_identifier; content]
    /\ plain chunk_identifier = true /\ plain content = true.

Definition document_record (v : pyval) : Prop :=
  exists id title created_at publisher summary publisher_link chunks informatieobject,
    v = VObj Declared.TimelineDocument
          [id; title; created_at; publisher; summary; publisher_link;
           VList chunks; informatieobject]
    /\ forallb plain [id; title; created_at; publisher; summary; publisher_link;
                      informatieobject] = true
    /\ Forall chunk_record chunks.

Definition timeline_record (v : pyval) : Prop :=
  exists identifier name documents beschrijving gegenereerd_op,
    v = VObj Declared.Timeline
          [identifier; name; VList documents; beschrijving; gegenereerd_op]
    /\ forallb plain [identifier; name; beschrijving; gegenereerd_op] = true
    /\ Forall document_record documents.

(** ** Examples for the callers *)

Module ServiceExamples.

(** A timeline as the service holds it: the date of the document is the
    text that the processor wrote. *)
Definition chunk : pyval :=
  VObj Declared.ContentChunk [VStr "c1"; VStr "Eerste alinea"].

Definition document : pyval :=
  VObj Declared.TimelineDocument
    [VStr "d1"; VStr "Kamerbrief"; VStr "2024-01-01 00:00:00";
     VNone; VStr "samenvatting"; VNone;
     VList [chunk];
     VDict [("titel", VStr "Kamerbrief")]].

Definition timeline_values : list pyval :=
  [VStr "t1"; VStr "Tijdlijn"; VList [document]; VNone; VNone].

(** A processed document, before it has an [id]. *)
Definition processed : list (string * pyval) :=
  [("doc_identifier", VStr "kst-1"); ("title", VStr "Kamerbrief");
   ("content_text", VList [VStr "Eerste alinea"; VNone])].

(** A mapping as [from_dict] finds it in the index. *)
Definition stored_chunk : pyval :=
  VDict [("chunk_identifier", VStr "c1"); ("content", VStr "Eerste alinea")].

(** A dataclass that does not derive from [BaseModel]. *)
Definition Stamp : pyclass :=
  PyClass "Stamp" false
    [Field "label" (TPlain "str") MISSING;
     Field "at" TDatetime MISSING]
    [] [] "Europe/Amsterdam" "Europe/Amsterdam".

(** Stand-ins for the digest and for [repr]; the properties hold for any. *)
Definition digest (s : string) : string := "md5:" ++ s.
Definition show (raw : list (string * pyval)) : string := "{}".

(** An index held in memory: [get] answers with the body last indexed
    under the identifier, and raises when there is none. *)
Definition store : Type := list (string * pyval).

Definition store_index (s : store) (index : string) (id body : pyval) : store :=
  match id with
  | VStr k => dict_set s k body
  | _ => s
  end.

Definition store_get (s : store) (index id : string) : option pyval :=
  match dict_get s id with
  | Some body =>
      Some (VDict [("_index", VStr index); ("_id", VStr id);
                   ("found", VBool true); ("_source", body)])
  | None => None
  end.

(** [str.lower] on ASCII text. *)
Definition lower_char (a : ascii) : ascii :=
  let n := nat_of_ascii a in
  if ((65 <=? n) && (n <=? 90))%nat then ascii_of_nat (n + 32) else a.

Fixpoint lower (s : string) : string :=
  match s with
  | EmptyString => EmptyString
  | String a s' => String (lower_char a) (lower s')
  end.





End ServiceExamples.

(** ** Records that round-trip

    [well_typed cls name typ v]: the value [v], held in field [name] of an
    instance of [cls] declared with type [typ], has the shape the type
    announces, and every date/time value in it sits in a field that is
    written in ISO-8601, carries a zone, and is read back by the library
    from its ISO-8601 text as an equal value. *)

Section WellTyped.
Context {lib : DatetimeLib}.




End WellTyped.

(** * Properties of the codec *)

Section CodecProperties.
Context {lib : DatetimeLib} {hooks : Hooks}.

(** ** The equations of [_deserialize_value], in the order of the source *)

Lemma deserialize_hook cls name value typ hook :
  _deserialize_field cls name value typ = Some hook ->
  _deserialize_value cls name value typ = Ok hook.
Proof.
  intros H. destruct typ; simpl; rewrite H; reflexivity.
Qed.

Lemma deserialize_None cls name typ :
  _deserialize_field cls name VNone typ = None ->
  _deserialize_value cls name VNone typ =
    match typ with
    | TClass c =>
        match construct c [] with
        | Some inst => Ok inst
        | None => Ok VNone
        end
    | _ => Ok VNone
    end.
Proof.
  intros H. destruct typ; simpl; rewrite H; reflexivity.
Qed.

Lemma deserialize_plain cls name value r :
  _deserialize_value cls name value (TPlain r) = deserialize_leaf cls name value (TPlain r).
Proof.
  unfold deserialize_leaf. simpl.
  destruct (_deserialize_field cls name value (TPlain r)); [reflexivity|].
  destruct value; reflexivity.
Qed.

(** Against a type without structure, and so against an annotation kept
    as text, every value decodes to itself. *)
Lemma plain_type_passes_through cls name value r :
  _deserialize_field cls name value (TPlain r) = None ->
  _deserialize_value cls name value (TPlain r) = Ok value.
Proof.
  intros H. rewrite deserialize_plain. unfold deserialize_leaf. rewrite H.
  destruct value; reflexivity.
Qed.

Lemma deserialize_datetime cls name value :
  _deserialize_field cls name value TDatetime = None ->
  is_None value = false ->
  _deserialize_value cls name value TDatetime = parse_datetime cls name value.
Proof.
  intros H Hv. simpl. rewrite H, Hv. reflexivity.
Qed.

Lemma sole_member_map {A : Type} (f : pytype -> A) (args : list pytype) :
  sole_member (map (fun a => (a, f a)) args) =
    match non_None_args args with
    | [a] => Some (f a)
    | _ => None
    end.
Proof.
  unfold sole_member, non_None_args.
  assert (E : filter (fun p : pytype * A => negb (is_NoneType (fst p)))
                     (map (fun a => (a, f a)) args)
              = map (fun a => (a, f a)) (filter (fun a => negb (is_NoneType a)) args)).
  { induction args as [|a args IH]; simpl; [reflexivity|].
    destruct (negb (is_NoneType a)); simpl; rewrite IH; reflexivity. }
  rewrite E.
  destruct (filter (fun a => negb (is_NoneType a)) args) as [|a [|b rest]];
    reflexivity.
Qed.

Lemma deserialize_union cls name value args :
  _deserialize_field cls name value (TUnion args) = None ->
  is_None value = false ->
  _deserialize_value cls name value (TUnion args) =
    match non_None_args args with
    | [a] => _deserialize_value cls name value a
    | _ =>
        if existsb is_datetime args then parse_datetime cls name value
        else Ok value
    end.
Proof.
  intros H Hv. simpl. rewrite H, Hv.
  rewrite (sole_member_map (fun a => _deserialize_value cls name value a)).
  destruct (non_None_args args) as [|a [|b rest]]; reflexivity.
Qed.

Lemma deserialize_list_ext (f g : string -> pyval -> result pyval) name l :
  (forall v, f name v = g name v) ->
  deserialize_list f name l = deserialize_list g name l.
Proof.
  intros E. induction l as [|v l IH]; simpl; [reflexivity|].
  rewrite E, IH. reflexivity.
Qed.

Lemma deserialize_items_ext (f g : string -> pyval -> result pyval) name items out :
  (forall v, f name v = g name v) ->
  deserialize_items f name items out = deserialize_items g name items out.
Proof.
  intros E. revert out.
  induction items as [|[k v] items IH]; intros out; simpl; [reflexivity|].
  rewrite E. destruct (g name v); [apply IH | reflexivity].
Qed.

Lemma deserialize_List cls name value args :
  _deserialize_field cls name value (TList args) = None ->
  is_None value = false ->
  _deserialize_value cls name value (TList args) =
    (l <- py_iter value ;;
     xs <- deserialize_list
             (fun n v => _deserialize_value cls n v (inner_type args)) name l ;;
     Ok (VList xs)).
Proof.
  intros H Hv. simpl. rewrite H, Hv.
  destruct (py_iter value) as [l|e]; [|reflexivity].
  destruct args as [|inner rest]; simpl; [|reflexivity].
  rewrite (deserialize_list_ext
             (fun n v => deserialize_leaf cls n v (TPlain "Any"))
             (fun n v => _deserialize_value cls n v (TPlain "Any")) name l);
    [reflexivity|].
  intros v. symmetry. apply deserialize_plain.
Qed.


Lemma deserialize_Dict cls name value args :
  _deserialize_field cls name value (TDict args) = None ->
  is_None value = false ->
  _deserialize_value cls name value (TDict args) =
    (items <- py_items value ;;
     out <- deserialize_items
              (fun n v => _deserialize_value cls n v (value_type args)) name items [] ;;
     Ok (VDict out)).
Proof.
  intros H Hv. simpl. rewrite H, Hv.
  destruct (py_items value) as [items|e]; [|reflexivity].
  assert (P : deserialize_items
                (fun n v => deserialize_leaf cls n v (TPlain "Any")) name items []
              = deserialize_items
                  (fun n v => _deserialize_value cls n v (TPlain "Any")) name items []).
  { apply deserialize_items_ext. intros v. symmetry. apply deserialize_plain. }
  destruct args as [|k [|vt [|x rest]]]; simpl; try rewrite P; reflexivity.
Qed.

Lemma deserialize_Class cls name value c :
  _deserialize_field cls name value (TClass c) = None ->
  is_None value = false ->
  _deserialize_value cls name value (TClass c) =
    if is_base_model c then from_dict c value
    else if is_Mapping value then
      (items <- py_items value ;; call_constructor c items)
    else Ok value.
Proof.
  intros H Hv. simpl. rewrite H, Hv. reflexivity.
Qed.

Lemma from_dict_eq cls data :
  from_dict cls data =
    (kwargs <- from_dict_loop (fun n v t => _deserialize_value cls n v t)
                 data (fields cls) [] ;;
     call_constructor cls kwargs).
Proof.
  destruct cls; reflexivity.
Qed.

(** ** The parsing rules of a date/time field *)

Lemma first_success_app l1 l2 value :
  first_success (l1 ++ l2) value =
    match first_success l1 value with
    | Some dt => Some dt
    | None => first_success l2 value
    end.
Proof.
  induction l1 as [|p l1 IH]; simpl; [reflexivity|].
  destruct (p value); [reflexivity | apply IH].
Qed.

Lemma try_formats_first_success cls value fmts :
  try_formats cls value fmts =
    option_map (attach_input_tz cls)
      (first_success (map (fun fmt v => try_strptime v fmt) fmts) value).
Proof.
  induction fmts as [|fmt rest IH]; simpl; [reflexivity|].
  destruct (try_strptime value fmt); [reflexivity | apply IH].
Qed.

(** The parsing branch of the source follows the order of [parse_attempts]. *)
Lemma parse_datetime_order cls name value :
  parse_datetime cls name value =
    match first_success (parse_attempts cls name) value with
    | Some dt => Ok (VDatetime (attach_input_tz cls dt))
    | None => Raise (ValueError name value)
    end.
Proof.
  unfold parse_datetime, parse_attempts, fallback_formats.
  rewrite !try_formats_first_success, !first_success_app.
  destruct (first_success (map (fun fmt v => try_strptime v fmt)
                               (input_formats cls name)) value) as [dt|];
    [reflexivity|].
  simpl option_map. cbv iota.
  destruct (dict_get (DATE_FORMAT_MAP cls) name) as [fmt_out|];
    [destruct (truthy fmt_out);
     [simpl first_success at 1; destruct (try_strptime value fmt_out);
      [reflexivity|] |] |];
    simpl; destruct (try_fromisoformat value); try reflexivity;
    destruct (try_strptime value "%d-%m-%Y %H:%M:%S"); try reflexivity;
    destruct (try_strptime value "%Y-%m-%d %H:%M:%S"); reflexivity.
Qed.

Lemma attach_input_tz_aware cls dt :
  tzinfo_of (attach_input_tz cls dt) <> None.
Proof.
  unfold attach_input_tz. destruct (tzinfo_of dt) eqn:E.
  - rewrite E. discriminate.
  - simpl. discriminate.
Qed.

(** Every date/time that the parsing rules return carries a zone. *)
Lemma parse_datetime_aware cls name value v :
  parse_datetime cls name value = Ok v ->
  exists dt, v = VDatetime dt /\ tzinfo_of dt <> None.
Proof.
  rewrite parse_datetime_order.
  destruct (first_success (parse_attempts cls name) value) as [dt|]; [|discriminate].
  intros [= <-]. eexists. split; [reflexivity | apply attach_input_tz_aware].
Qed.

(** A value that is not [None], decoded against a date/time type without a
    hook, goes through the parsing rules. *)
Lemma deserialize_datetime_typed cls name value typ :
  datetime_typed typ = true ->
  is_None value = false ->
  (forall t, _deserialize_field cls name value t = None) ->
  _deserialize_value cls name value typ = parse_datetime cls name value.
Proof.
  intros Ht Hv Hh. destruct typ; try discriminate Ht.
  - apply deserialize_datetime; auto.
  - rewrite deserialize_union by auto.
    simpl in Ht.
    assert (Hin : In TDatetime (non_None_args args)).
    { apply existsb_exists in Ht. destruct Ht as [t [Hin Hd]].
      destruct t; try discriminate Hd.
      unfold non_None_args. apply filter_In. split; [exact Hin | reflexivity]. }
    destruct (non_None_args args) as [|a [|b rest]].
    + destruct Hin.
    + destruct Hin as [-> | []]. apply deserialize_datetime; auto.
    + rewrite Ht. reflexivity.
Qed.

(** The order of the parsing rules, where [typ] is a type object.  For a
    date/time field (declared [datetime], or a union with [datetime] among
    its members) and a raw string, decoding tries the
    parsers in the order (a) the configured input formats in list order,
    (b) the configured output format if present, (c) ISO-8601, (d) the two
    fixed fallback formats, and returns the first success (with the input
    zone attached when the parsed value is naive); when all fail it raises
    the [ValueError] naming the field.  With input formats
    [["%d-%m-%Y"; "%Y-%m-%d"]] the string "01-02-2024" is therefore read by
    the first format, as the example below the theorem computes. *)
Theorem datetime_fallback_order cls name raw typ :
  datetime_typed typ = true ->
  (forall t, _deserialize_field cls name (VStr raw) t = None) ->
  _deserialize_value cls name (VStr raw) typ =
    match first_success (parse_attempts cls name) (VStr raw) with
    | Some dt => Ok (VDatetime (attach_input_tz cls dt))
    | None => Raise (ValueError name (VStr raw))
    end.
Proof.
  intros Ht Hh.
  rewrite deserialize_datetime_typed by auto.
  apply parse_datetime_order.
Qed.

Lemma construct_is_instance c kwargs inst :
  construct c kwargs = Some inst -> exists vals, inst = VObj c vals.
Proof.
  destruct c as [n b fs m1 m2 z1 z2]. simpl.
  destruct (known_keywords fs kwargs); [|discriminate].
  destruct (init_fields _ kwargs fs) as [vs|]; [|discriminate].
  intros [= <-]. eexists. reflexivity.
Qed.

(** X29. Null coalescing, where [typ] is a type object.  Decoding [None]
    against a bare dataclass type yields the instance
    the class builds without arguments when there is one, and [None] when
    that construction fails; decoding [None] against a plain or a plain
    optional type yields [None]. *)
Theorem null_coalescing cls name c r :
  (forall t, _deserialize_field cls name VNone t = None) ->
  (forall inst, construct c [] = Some inst ->
     _deserialize_value cls name VNone (TClass c) = Ok inst)
  /\ (construct c [] = None ->
      _deserialize_value cls name VNone (TClass c) = Ok VNone)
  /\ _deserialize_value cls name VNone (Optional (TPlain r)) = Ok VNone
  /\ _deserialize_value cls name VNone (TPlain r) = Ok VNone.
Proof.
  intros Hh. repeat split.
  - intros inst Hc. rewrite deserialize_None by auto. rewrite Hc. reflexivity.
  - intros Hc. rewrite deserialize_None by auto. rewrite Hc. reflexivity.
  - rewrite deserialize_None by auto. reflexivity.
  - rewrite deserialize_None by auto. reflexivity.
Qed.

(** C9. Against a union whose only member besides [NoneType] is a dataclass
    [R] that can be built without arguments, [None] decodes to [None] and
    not to the default instance that the bare type [R] would give: the test
    for [None] comes before the union is unwrapped. *)
Theorem optional_record_stays_null cls name args R inst :
  non_None_args args = [TClass R] ->
  construct R [] = Some inst ->
  (forall t, _deserialize_field cls name VNone t = None) ->
  _deserialize_value cls name VNone (TUnion args) = Ok VNone
  /\ _deserialize_value cls name VNone (TClass R) = Ok inst
  /\ inst <> VNone.
Proof.
  intros _ Hc Hh. repeat split.
  - rewrite deserialize_None by auto. reflexivity.
  - rewrite deserialize_None by auto. rewrite Hc. reflexivity.
  - destruct (construct_is_instance _ _ _ Hc) as [vals ->]. discriminate.
Qed.

Lemma serialize_Datetime self name dt typ :
  _serialize_field self name (VDatetime dt) typ = None ->
  _serialize_value self name (VDatetime dt) typ = serialize_datetime self name dt.
Proof.
  intros H. simpl. rewrite H. reflexivity.
Qed.

(** C5. Encoding a naive date/time value attaches the output zone of the
    record type, converts to that zone and renders; the input zone plays no
    part.  Decoding a string whose first successful parse is naive attaches
    the input zone, whatever the output zone is. *)
Theorem timezone_attachment self cls name typ :
  (forall dt,
      tzinfo_of dt = None ->
      _serialize_field self name (VDatetime dt) typ = None ->
      _serialize_value self name (VDatetime dt) typ =
        format_datetime self name
          (astimezone (replace_tzinfo dt (ZoneInfo (OUTPUT_TZ_NAME self)))
                      (ZoneInfo (OUTPUT_TZ_NAME self))))
  /\ (forall raw dt,
         datetime_typed typ = true ->
         (forall t, _deserialize_field cls name (VStr raw) t = None) ->
         first_success (parse_attempts cls name) (VStr raw) = Some dt ->
         tzinfo_of dt = None ->
         _deserialize_value cls name (VStr raw) typ =
           Ok (VDatetime (replace_tzinfo dt (ZoneInfo (INPUT_NAIVE_TZ_NAME cls))))).
Proof.
  split.
  - intros dt Hn Hh. rewrite serialize_Datetime by exact Hh.
    unfold serialize_datetime, in_output_zone. rewrite Hn. reflexivity.
  - intros raw dt Ht Hh Hp Hn.
    rewrite deserialize_datetime_typed by auto.
    rewrite parse_datetime_order, Hp.
    unfold attach_input_tz. rewrite Hn. reflexivity.
Qed.

(** ** Dictionaries *)

Lemma dict_get_set_same {A : Type} (d : list (string * A)) k v :
  dict_get (dict_set d k v) k = Some v.
Proof.
  induction d as [|[k' v'] d IH]; simpl.
  - rewrite String.eqb_refl. reflexivity.
  - destruct (String.eqb k' k) eqn:E; simpl; rewrite E; [reflexivity | exact IH].
Qed.

Lemma dict_get_set_other {A : Type} (d : list (string * A)) k k' v :
  String.eqb k k' = false ->
  dict_get (dict_set d k v) k' = dict_get d k'.
Proof.
  intros Hk. induction d as [|[k0 v0] d IH]; simpl.
  - rewrite Hk. reflexivity.
  - destruct (String.eqb k0 k) eqn:E; simpl.
    + apply String.eqb_eq in E. subst k0. rewrite Hk. reflexivity.
    + destruct (String.eqb k0 k'); [reflexivity | exact IH].
Qed.

Lemma dict_get_app {A : Type} (d1 d2 : list (string * A)) k :
  dict_get (d1 ++ d2) k =
    match dict_get d1 k with
    | Some v => Some v
    | None => dict_get d2 k
    end.
Proof.
  induction d1 as [|[k' v'] d1 IH]; simpl; [reflexivity|].
  destruct (String.eqb k' k); [reflexivity | exact IH].
Qed.

Lemma dict_set_fresh {A : Type} (d : list (string * A)) k v :
  dict_get d k = None ->
  dict_set d k v = (d ++ [(k, v)])%list.
Proof.
  induction d as [|[k' v'] d IH]; simpl; [reflexivity|].
  destruct (String.eqb k' k); [discriminate|].
  intros H. rewrite IH by exact H. reflexivity.
Qed.

Lemma dict_get_known_items cls items k :
  existsb (fun f => String.eqb (fname f) k) (fields cls) = true ->
  dict_get (known_items cls items) k = dict_get items k.
Proof.
  intros Hk. unfold known_items.
  induction items as [|[k' v] items IH]; simpl; [reflexivity|].
  destruct (existsb (fun f => String.eqb (fname f) k') (fields cls)) eqn:E; simpl.
  - destruct (String.eqb k' k); [reflexivity | exact IH].
  - destruct (String.eqb k' k) eqn:Ek; [|exact IH].
    apply String.eqb_eq in Ek. subst k'. rewrite Hk in E. discriminate.
Qed.

(** ** The loop of [from_dict] *)

Section FromDictLoopFacts.
Variable deser : string -> pyval -> pytype -> result pyval.

Lemma from_dict_loop_app data pre post kwargs :
  from_dict_loop deser data (pre ++ post) kwargs =
    (kw <- from_dict_loop deser data pre kwargs ;;
     from_dict_loop deser data post kw).
Proof.
  revert kwargs. induction pre as [|f pre IH]; intros kwargs; simpl; [reflexivity|].
  destruct (py_contains data (fname f)) as [[|]|e]; [| |reflexivity].
  - destruct (py_getitem data (fname f)) as [raw|e]; [|reflexivity].
    destruct (deser (fname f) raw (ftype f)); [apply IH | reflexivity].
  - destruct (has_default f); apply IH.
Qed.

(** The loop reads the mapping only under the names of the fields. *)
Lemma from_dict_loop_agree items items' fs kwargs :
  (forall f, In f fs -> dict_get items (fname f) = dict_get items' (fname f)) ->
  from_dict_loop deser (VDict items) fs kwargs
  = from_dict_loop deser (VDict items') fs kwargs.
Proof.
  revert kwargs. induction fs as [|f fs IH]; intros kwargs H; simpl; [reflexivity|].
  unfold dict_contains. rewrite <- (H f (or_introl eq_refl)).
  assert (IH' : forall kw, from_dict_loop deser (VDict items) fs kw
                           = from_dict_loop deser (VDict items') fs kw).
  { intros kw. apply IH. intros g Hg. apply H. right. exact Hg. }
  destruct (dict_get items (fname f)) as [raw|].
  - destruct (deser (fname f) raw (ftype f)); [apply IH' | reflexivity].
  - destruct (has_default f); apply IH'.
Qed.

(** An exception raised while a field is decoded ends the loop with an
    exception. *)
Lemma from_dict_loop_raises items fs kwargs f raw e :
  In f fs ->
  dict_get items (fname f) = Some raw ->
  deser (fname f) raw (ftype f) = Raise e ->
  exists e', from_dict_loop deser (VDict items) fs kwargs = Raise e'.
Proof.
  intros Hin Hget Hde. revert kwargs.
  induction fs as [|g fs IH]; intros kwargs; [destruct Hin|].
  simpl. unfold dict_contains.
  destruct Hin as [-> | Hin].
  - rewrite Hget, Hde. eexists. reflexivity.
  - destruct (dict_get items (fname g)) as [raw'|].
    + destruct (deser (fname g) raw' (ftype g)); [apply IH; exact Hin|].
      eexists. reflexivity.
    + destruct (has_default g); apply IH; exact Hin.
Qed.

(** It is the exception of the first field that fails. *)
Lemma from_dict_loop_first_raise items pre f post kwargs kw raw e :
  from_dict_loop deser (VDict items) pre kwargs = Ok kw ->
  dict_get items (fname f) = Some raw ->
  deser (fname f) raw (ftype f) = Raise e ->
  from_dict_loop deser (VDict items) (pre ++ f :: post) kwargs = Raise e.
Proof.
  intros Hpre Hget Hde. rewrite from_dict_loop_app, Hpre. simpl.
  unfold dict_contains. rewrite Hget, Hde. reflexivity.
Qed.

(** A name that the mapping lacks and that holds [None] keeps it. *)
Lemma from_dict_loop_keeps_None data fs kwargs kwargs' name :
  py_contains data name = Ok false ->
  dict_get kwargs name = Some VNone ->
  from_dict_loop deser data fs kwargs = Ok kwargs' ->
  dict_get kwargs' name = Some VNone.
Proof.
  intros Hc. revert kwargs.
  induction fs as [|g fs IH]; intros kwargs Hk; simpl.
  - intros [= <-]. exact Hk.
  - destruct (String.eqb (fname g) name) eqn:E.
    + apply String.eqb_eq in E. rewrite E, Hc.
      destruct (has_default g); [apply IH; exact Hk|].
      apply IH. apply dict_get_set_same.
    + destruct (py_contains data (fname g)) as [[|]|e]; [| |discriminate].
      * destruct (py_getitem data (fname g)) as [raw|e]; [|discriminate].
        destruct (deser (fname g) raw (ftype g)); [|discriminate].
        apply IH. rewrite dict_get_set_other by exact E. exact Hk.
      * destruct (has_default g); [apply IH; exact Hk|].
        apply IH. rewrite dict_get_set_other by exact E. exact Hk.
Qed.

(** A field without a default that the mapping lacks receives [None]. *)
Lemma from_dict_loop_sets_None data fs kwargs kwargs' f :
  In f fs ->
  has_default f = false ->
  py_contains data (fname f) = Ok false ->
  from_dict_loop deser data fs kwargs = Ok kwargs' ->
  dict_get kwargs' (fname f) = Some VNone.
Proof.
  intros Hin Hd Hc. revert kwargs.
  induction fs as [|g fs IH]; intros kwargs; [destruct Hin|].
  simpl. destruct Hin as [-> | Hin].
  - rewrite Hc, Hd.
    apply from_dict_loop_keeps_None; [exact Hc | apply dict_get_set_same].
  - destruct (py_contains data (fname g)) as [[|]|e]; [| |discriminate].
    + destruct (py_getitem data (fname g)) as [raw|e]; [|discriminate].
      destruct (deser (fname g) raw (ftype g)); [|discriminate].
      apply IH. exact Hin.
    + destruct (has_default g); apply IH; exact Hin.
Qed.

(** Fields of other names leave a name alone. *)
Lemma from_dict_loop_keeps_other data fs kwargs kwargs' name :
  existsb (String.eqb name) (map fname fs) = false ->
  from_dict_loop deser data fs kwargs = Ok kwargs' ->
  dict_get kwargs' name = dict_get kwargs name.
Proof.
  revert kwargs. induction fs as [|g fs IH]; intros kwargs Hn; simpl.
  - intros [= <-]. reflexivity.
  - simpl in Hn. apply orb_false_iff in Hn. destruct Hn as [Hg Hn].
    assert (E : String.eqb (fname g) name = false)
      by (rewrite String.eqb_sym; exact Hg).
    destruct (py_contains data (fname g)) as [[|]|e]; [| |discriminate].
    + destruct (py_getitem data (fname g)) as [raw|e]; [|discriminate].
      destruct (deser (fname g) raw (ftype g)); [|discriminate].
      intros H. rewrite (IH _ Hn H). apply dict_get_set_other. exact E.
    + destruct (has_default g).
      * apply IH. exact Hn.
      * intros H. rewrite (IH _ Hn H). apply dict_get_set_other. exact E.
Qed.

(** A field that the mapping holds receives the decoding of its value. *)
Lemma from_dict_loop_sets_decoded items fs kwargs kwargs' f raw :
  In f fs ->
  distinct (map fname fs) = true ->
  dict_get items (fname f) = Some raw ->
  from_dict_loop deser (VDict items) fs kwargs = Ok kwargs' ->
  exists x, deser (fname f) raw (ftype f) = Ok x
            /\ dict_get kwargs' (fname f) = Some x.
Proof.
  intros Hin Hd Hget. revert kwargs.
  induction fs as [|g fs IH]; intros kwargs; [destruct Hin|].
  simpl in Hd. apply andb_true_iff in Hd. destruct Hd as [Hg Hd].
  apply negb_true_iff in Hg.
  simpl. unfold dict_contains. destruct Hin as [-> | Hin].
  - rewrite Hget. destruct (deser (fname f) raw (ftype f)) as [x|e]; [|discriminate].
    intros H. exists x. split; [reflexivity|].
    rewrite (from_dict_loop_keeps_other _ _ _ _ _ Hg H).
    apply dict_get_set_same.
  - destruct (dict_get items (fname g)) as [raw'|].
    + destruct (deser (fname g) raw' (ftype g)); [|discriminate].
      apply IH; assumption.
    + destruct (has_default g); apply IH; assumption.
Qed.

End FromDictLoopFacts.

(** ** Construction *)

Lemma init_fields_field_value new kwargs fs vals name v :
  init_fields new kwargs fs = Some vals ->
  dict_get kwargs name = Some v ->
  existsb (String.eqb name) (map fname fs) = true ->
  field_value fs vals name = Some v.
Proof.
  revert vals. induction fs as [|f fs IH]; intros vals; simpl; [discriminate|].
  intros Hi Hk Hn.
  destruct (String.eqb (fname f) name) eqn:E.
  - pose proof (proj1 (String.eqb_eq _ _) E) as E'. rewrite E', Hk in Hi.
    destruct (init_fields new kwargs fs) as [vs|]; [|discriminate].
    injection Hi as <-. cbn [field_value].
    try rewrite E; reflexivity.
  - rewrite String.eqb_sym, E in Hn. simpl in Hn.
    destruct (match dict_get kwargs (fname f) with
              | Some v0 => Some v0
              | None => default_value new (fdefault_of f)
              end) as [v0|]; [|discriminate].
    destruct (init_fields new kwargs fs) as [vs|] eqn:Evs; [|discriminate].
    injection Hi as <-. cbn [field_value]. apply (IH vs eq_refl Hk Hn).
Qed.

(** The instance built from keyword arguments holds each argument under
    the name of its field. *)
Lemma call_constructor_getattr cls kwargs inst f v :
  call_constructor cls kwargs = Ok inst ->
  In f (fields cls) ->
  dict_get kwargs (fname f) = Some v ->
  getattr inst (fname f) = Some v.
Proof.
  unfold call_constructor. destruct cls as [n b fs m1 m2 z1 z2]. simpl.
  destruct (known_keywords fs kwargs); [|discriminate].
  destruct (init_fields _ kwargs fs) as [vals|] eqn:Ei; [|discriminate].
  intros [= <-] Hin Hk. simpl.
  apply (init_fields_field_value _ _ _ _ _ _ Ei Hk).
  apply existsb_exists. exists (fname f). split.
  - apply in_map. exact Hin.
  - apply String.eqb_refl.
Qed.

(** ** Decoding a record *)

(** C7. Keys of the input mapping that name no declared field are ignored:
    decoding the mapping and decoding it with those keys removed give the
    same result, the same instance or the same exception. *)
Theorem unknown_keys_ignored cls items :
  from_dict cls (VDict items) = from_dict cls (VDict (known_items cls items)).
Proof.
  rewrite !from_dict_eq.
  rewrite (from_dict_loop_agree _ items (known_items cls items)); [reflexivity|].
  intros f Hin. symmetry. apply dict_get_known_items.
  apply existsb_exists. exists f. split; [exact Hin | apply String.eqb_refl].
Qed.

(** X30. Parse failure, where [typ] is a type object.  When the raw value of a
    date/time field is not [None] and no
    parsing rule accepts it, decoding the field raises the [ValueError] that
    carries the field name and the raw value; [from_dict] on a mapping that
    holds this value raises an exception and returns no instance, and the
    exception is this [ValueError] when the fields declared before this one
    decode without an exception. *)
Theorem datetime_parse_failure cls name typ dflt value items :
  In (Field name typ dflt) (fields cls) ->
  datetime_typed typ = true ->
  dict_get items name = Some value ->
  is_None value = false ->
  (forall t, _deserialize_field cls name value t = None) ->
  first_success (parse_attempts cls name) value = None ->
  _deserialize_value cls name value typ = Raise (ValueError name value)
  /\ (exists e, from_dict cls (VDict items) = Raise e)
  /\ (forall pre post kwargs,
         fields cls = (pre ++ Field name typ dflt :: post)%list ->
         from_dict_loop (fun n v t => _deserialize_value cls n v t)
                        (VDict items) pre [] = Ok kwargs ->
         from_dict cls (VDict items) = Raise (ValueError name value)).
Proof.
  intros Hin Ht Hget Hv Hh Hp.
  assert (Hde : _deserialize_value cls name value typ = Raise (ValueError name value)).
  { rewrite deserialize_datetime_typed by auto.
    rewrite parse_datetime_order, Hp. reflexivity. }
  split; [exact Hde|]. split.
  - rewrite from_dict_eq.
    destruct (from_dict_loop_raises
                (fun n v t => _deserialize_value cls n v t)
                items (fields cls) [] (Field name typ dflt) value _ Hin Hget Hde)
      as [e' He'].
    rewrite He'. eexists. reflexivity.
  - intros pre post kwargs Hf Hpre. rewrite from_dict_eq, Hf.
    rewrite (from_dict_loop_first_raise
               (fun n v t => _deserialize_value cls n v t)
               items pre (Field name typ dflt) post [] kwargs value _ Hpre Hget Hde).
    reflexivity.
Qed.

(** C3, as the code has it.  [from_dict] builds the keyword arguments
    [kwargs] and returns [cls( **kwargs)].  For a declared field without
    default that the input mapping lacks it decodes nothing: it passes
    [None] for the field to the constructor.  For a field that the mapping
    holds with the value [None] it passes the decoding of [None] against the
    declared type.  The statement is on the keyword arguments, so it holds
    whatever the constructor then does with them. *)
Theorem missing_field_is_None cls name typ items kwargs :
  In (Field name typ MISSING) (fields cls) ->
  from_dict_loop (fun n v t => _deserialize_value cls n v t)
                 (VDict items) (fields cls) [] = Ok kwargs ->
  from_dict cls (VDict items) = call_constructor cls kwargs
  /\ (dict_get items name = None -> dict_get kwargs name = Some VNone)
  /\ (distinct (map fname (fields cls)) = true ->
      dict_get items name = Some VNone ->
      exists x, _deserialize_value cls name VNone typ = Ok x
                /\ dict_get kwargs name = Some x).
Proof.
  intros Hin El. split; [|split].
  - rewrite from_dict_eq, El. reflexivity.
  - intros Hget.
    apply (from_dict_loop_sets_None _ _ _ _ _ _ Hin eq_refl) in El; [exact El|].
    simpl. unfold dict_contains. rewrite Hget. reflexivity.
  - intros Hd Hget.
    destruct (from_dict_loop_sets_decoded _ _ _ _ _ _ _ Hin Hd Hget El)
      as [x [Hx Hk]].
    exists x. split; [exact Hx | exact Hk].
Qed.


(** ** Encoding containers *)

Lemma distinct_cons k l :
  distinct (k :: l) = true ->
  existsb (String.eqb k) l = false /\ distinct l = true.
Proof.
  simpl. intros H. apply andb_true_iff in H. destruct H as [H1 H2].
  apply negb_true_iff in H1. split; assumption.
Qed.

Lemma existsb_eqb_In k l :
  existsb (String.eqb k) l = false -> forall k', In k' l -> String.eqb k k' = false.
Proof.
  intros H k' Hin. destruct (String.eqb k k') eqn:E; [|reflexivity].
  assert (existsb (String.eqb k) l = true)
    by (apply existsb_exists; exists k'; split; assumption).
  congruence.
Qed.

Lemma fresh_nil {A : Type} (keys : list string) : fresh (@nil (string * A)) keys.
Proof. intros k _. reflexivity. Qed.

Lemma fresh_step {A : Type} (out : list (string * A)) k x keys :
  fresh out (k :: keys) ->
  existsb (String.eqb k) keys = false ->
  dict_set out k x = (out ++ [(k, x)])%list /\ fresh (out ++ [(k, x)])%list keys.
Proof.
  intros Hf Hk. split.
  - apply dict_set_fresh. apply Hf. left. reflexivity.
  - intros k' Hin. rewrite dict_get_app, (Hf k' (or_intror Hin)). simpl.
    rewrite (existsb_eqb_In _ _ Hk k' Hin). reflexivity.
Qed.

Lemma serialize_items_append ser name items out :
  distinct (map fst items) = true ->
  fresh out (map fst items) ->
  serialize_items ser name items out =
    (out ++ map (fun kv => (fst kv, ser name (snd kv) (TPlain "None"))) items)%list.
Proof.
  revert out. induction items as [|[k v] items IH]; intros out Hd Hf; simpl.
  - rewrite app_nil_r. reflexivity.
  - simpl in Hd. apply distinct_cons in Hd. destruct Hd as [Hk Hd].
    destruct (fresh_step out k (ser name v (TPlain "None")) _ Hf Hk) as [-> Hf'].
    rewrite IH by assumption. rewrite <- app_assoc. reflexivity.
Qed.

Lemma serialize_fields_append ser fs vals out :
  distinct (map fname fs) = true ->
  fresh out (map fname fs) ->
  List.length vals = List.length fs ->
  serialize_fields ser fs vals out =
    (out ++ map (fun fv => (fname (fst fv), ser (fname (fst fv)) (snd fv) (ftype (fst fv))))
                (combine fs vals))%list.
Proof.
  revert vals out. induction fs as [|f fs IH]; intros vals out Hd Hf Hl.
  - destruct vals; [|discriminate]. simpl. rewrite app_nil_r. reflexivity.
  - destruct vals as [|v vals]; [discriminate|]. simpl.
    simpl in Hd. apply distinct_cons in Hd. destruct Hd as [Hk Hd].
    destruct (fresh_step out (fname f) (ser (fname f) v (ftype f)) _ Hf Hk)
      as [-> Hf'].
    rewrite IH; [| assumption | assumption | simpl in Hl; congruence].
    rewrite <- app_assoc. reflexivity.
Qed.

Lemma serialize_List self name l typ :
  _serialize_field self name (VList l) typ = None ->
  _serialize_value self name (VList l) typ =
    VList (map (fun v => _serialize_value self name v (TPlain "None")) l).
Proof.
  intros H. simpl. rewrite H. reflexivity.
Qed.

Lemma serialize_Dict self name items typ :
  _serialize_field self name (VDict items) typ = None ->
  distinct (map fst items) = true ->
  _serialize_value self name (VDict items) typ =
    VDict (map (fun kv => (fst kv, _serialize_value self name (snd kv) (TPlain "None")))
               items).
Proof.
  intros H Hd. simpl. rewrite H.
  rewrite serialize_items_append; [reflexivity | exact Hd | apply fresh_nil].
Qed.

(** The decoding of one element of a container declared with [datetime]
    elements. *)
Lemma deserialize_datetime_element cls name value :
  _deserialize_field cls name value TDatetime = None ->
  _deserialize_value cls name value TDatetime =
    if is_None value then Ok VNone else parse_datetime cls name value.
Proof.
  intros H. destruct (is_None value) eqn:E.
  - destruct value; try discriminate E. apply deserialize_None. exact H.
  - apply deserialize_datetime; assumption.
Qed.

Lemma deserialize_list_Forall2 (f : string -> pyval -> result pyval) name raws xs :
  Forall2 (fun raw x => f name raw = Ok x) raws xs ->
  deserialize_list f name raws = Ok xs.
Proof.
  induction 1 as [|raw x raws xs Hx _ IH]; [reflexivity|].
  cbn [deserialize_list]. rewrite Hx, IH. reflexivity.
Qed.

Lemma deserialize_list_first_raise (f : string -> pyval -> result pyval)
      name pre raw post xs e :
  Forall2 (fun raw x => f name raw = Ok x) pre xs ->
  f name raw = Raise e ->
  deserialize_list f name (pre ++ raw :: post) = Raise e.
Proof.
  intros Hpre He. induction Hpre as [|r x pre xs Hx _ IH].
  - cbn [app deserialize_list]. rewrite He. reflexivity.
  - cbn [app deserialize_list]. rewrite Hx, IH. reflexivity.
Qed.

Lemma deserialize_items_Forall2 (f : string -> pyval -> result pyval) name items :
  forall xs out,
  distinct (map fst items) = true ->
  fresh out (map fst items) ->
  Forall2 (fun kv kx : string * pyval =>
             fst kx = fst kv /\ f name (snd kv) = Ok (snd kx)) items xs ->
  deserialize_items f name items out = Ok (out ++ xs)%list.
Proof.
  induction items as [|[k v] items IH]; intros xs out Hd Hf H.
  - inversion H; subst. simpl. rewrite app_nil_r. reflexivity.
  - inversion H as [|? [k' x] ? xs' [Hk Hx] Hrest]; subst.
    cbn [fst snd] in Hk, Hx. subst k'.
    cbn [map fst] in Hd, Hf. apply distinct_cons in Hd. destruct Hd as [Hn Hd].
    cbn [deserialize_items]. rewrite Hx.
    destruct (fresh_step out k x _ Hf Hn) as [-> Hf'].
    rewrite (IH xs' _ Hd Hf' Hrest). rewrite <- app_assoc. reflexivity.
Qed.

Lemma try_formats_skips cls raw pre fmt post dt :
  Forall (fun g => strptime raw g = None) pre ->
  strptime raw fmt = Some dt ->
  try_formats cls (VStr raw) (pre ++ fmt :: post) = Some (attach_input_tz cls dt).
Proof.
  intros Hpre Hfmt. induction Hpre as [|g pre Hg _ IH].
  - cbn [app try_formats try_strptime]. rewrite Hfmt. reflexivity.
  - cbn [app try_formats try_strptime]. rewrite Hg. exact IH.
Qed.

(** C10. The name of the owning field travels with every element of a list
    or dict.  On encode, a date/time element is rendered as a date/time held
    directly in that field, hence with the output format configured under
    that name and in the output zone.  On decode against a list or dict
    declared with [datetime] elements, every element is decoded as a value
    held directly in that field: the result holds, in order and under the
    same keys, what decoding each element under the field's name gives, the
    first element that fails raises its exception, and an element is read
    by the first of the input formats configured under the field's name that
    accepts it. *)
Theorem container_elements_use_field_name self cls name typ :
  (forall v t, _serialize_field self name v t = None) ->
  (forall v t, _deserialize_field cls name v t = None) ->
  (forall dts,
      _serialize_value self name (VList (map VDatetime dts)) typ
      = VList (map (serialize_datetime self name) dts))
  /\ (forall items,
         distinct (map fst items) = true ->
         _serialize_value self name
           (VDict (map (fun kv => (fst kv, VDatetime (snd kv))) items)) typ
         = VDict (map (fun kv => (fst kv, serialize_datetime self name (snd kv))) items))
  /\ (forall fmt dt,
         dict_get (DATE_FORMAT_MAP self) name = Some fmt -> truthy fmt = true ->
         serialize_datetime self name dt = VStr (strftime (in_output_zone self dt) fmt))
  /\ (forall raws xs rest,
         Forall2 (fun raw x => _deserialize_value cls name raw TDatetime = Ok x)
                 raws xs ->
         _deserialize_value cls name (VList raws) (TList (TDatetime :: rest))
         = Ok (VList xs))
  /\ (forall pre raw post xs e rest,
         Forall2 (fun raw x => _deserialize_value cls name raw TDatetime = Ok x)
                 pre xs ->
         _deserialize_value cls name raw TDatetime = Raise e ->
         _deserialize_value cls name (VList (pre ++ raw :: post)%list)
                            (TList (TDatetime :: rest))
         = Raise e)
  /\ (forall items xs key_type,
         distinct (map fst items) = true ->
         Forall2 (fun kv kx : string * pyval =>
                    fst kx = fst kv
                    /\ _deserialize_value cls name (snd kv) TDatetime = Ok (snd kx))
                 items xs ->
         _deserialize_value cls name (VDict items) (TDict [key_type; TDatetime])
         = Ok (VDict xs))
  /\ (forall raw pre fmt post dt,
         dict_get (DATE_INPUT_FORMATS cls) name = Some (pre ++ fmt :: post)%list ->
         Forall (fun g => strptime raw g = None) pre ->
         strptime raw fmt = Some dt ->
         _deserialize_value cls name (VStr raw) TDatetime
         = Ok (VDatetime (attach_input_tz cls dt))).
Proof.
  intros Hs Hd. repeat split.
  - intros dts. rewrite serialize_List by apply Hs.
    rewrite map_map. f_equal. apply map_ext. intros dt.
    apply serialize_Datetime. apply Hs.
  - intros items Hk. rewrite serialize_Dict; [| apply Hs | rewrite map_map; exact Hk].
    rewrite map_map. f_equal. apply map_ext. intros [k dt]. simpl fst. simpl snd.
    f_equal. apply serialize_Datetime. apply Hs.
  - intros fmt dt Hf Ht. unfold serialize_datetime, format_datetime.
    rewrite Hf, Ht. reflexivity.
  - intros raws xs rest H. rewrite deserialize_List; [| apply Hd | reflexivity].
    cbn [py_iter inner_type].
    rewrite (deserialize_list_Forall2
               (fun n v => _deserialize_value cls n v TDatetime) name raws xs H).
    reflexivity.
  - intros pre raw post xs e rest Hpre He.
    rewrite deserialize_List; [| apply Hd | reflexivity].
    cbn [py_iter inner_type].
    rewrite (deserialize_list_first_raise
               (fun n v => _deserialize_value cls n v TDatetime)
               name pre raw post xs e Hpre He).
    reflexivity.
  - intros items xs key_type Hk H.
    rewrite deserialize_Dict; [| apply Hd | reflexivity].
    cbn [py_items value_type].
    rewrite (deserialize_items_Forall2
               (fun n v => _deserialize_value cls n v TDatetime)
               name items xs [] Hk (fresh_nil _) H).
    reflexivity.
  - intros raw pre fmt post dt Hf Hpre Hfmt.
    rewrite deserialize_datetime; [| apply Hd | reflexivity].
    unfold parse_datetime, input_formats. rewrite Hf.
    rewrite (try_formats_skips cls raw pre fmt post dt Hpre Hfmt). reflexivity.
Qed.

End CodecProperties.

(** * Induction over values, types and classes *)

Section PyvalInduction.
Variable P : pyval -> Prop.
Hypothesis P_None : P VNone.
Hypothesis P_Bool : forall b, P (VBool b).
Hypothesis P_Int : forall n, P (VInt n).
Hypothesis P_Str : forall s, P (VStr s).
Hypothesis P_Datetime : forall dt, P (VDatetime dt).
Hypothesis P_List : forall l, Forall P l -> P (VList l).
Hypothesis P_Tuple : forall l, Forall P l -> P (VTuple l).
Hypothesis P_Dict : forall items, Forall (fun kv => P (snd kv)) items -> P (VDict items).
Hypothesis P_Obj : forall c vals, Forall P vals -> P (VObj c vals).

Fixpoint pyval_induction (v : pyval) : P v :=
  match v with
  | VNone => P_None
  | VBool b => P_Bool b
  | VInt n => P_Int n
  | VStr s => P_Str s
  | VDatetime dt => P_Datetime dt
  | VList l =>
      P_List l
        ((fix all (l : list pyval) : Forall P l :=
            match l with
            | [] => Forall_nil P
            | x :: l' => Forall_cons x (pyval_induction x) (all l')
            end) l)
  | VTuple l =>
      P_Tuple l
        ((fix all (l : list pyval) : Forall P l :=
            match l with
            | [] => Forall_nil P
            | x :: l' => Forall_cons x (pyval_induction x) (all l')
            end) l)
  | VDict items =>
      P_Dict items
        ((fix all (items : list (string * pyval))
            : Forall (fun kv => P (snd kv)) items :=
            match items with
            | [] => Forall_nil _
            | (k, x) :: items' =>
                Forall_cons (k, x) (pyval_induction x) (all items')
            end) items)
  | VObj c vals =>
      P_Obj c vals
        ((fix all (l : list pyval) : Forall P l :=
            match l with
            | [] => Forall_nil P
            | x :: l' => Forall_cons x (pyval_induction x) (all l')
            end) vals)
  end.
End PyvalInduction.

Section PytypeInduction.
Variable P : pytype -> Prop.
Variable Q : pyclass -> Prop.
Hypothesis P_Plain : forall r, P (TPlain r).
Hypothesis P_NoneType : P TNoneType.
Hypothesis P_Datetime : P TDatetime.
Hypothesis P_Union : forall args, Forall P args -> P (TUnion args).
Hypothesis P_List : forall args, Forall P args -> P (TList args).
Hypothesis P_Tuple : forall args, Forall P args -> P (TTuple args).
Hypothesis P_Dict : forall args, Forall P args -> P (TDict args).
Hypothesis P_Class : forall c, Q c -> P (TClass c).
Hypothesis Q_PyClass :
  forall c, Forall (fun f => P (ftype f)) (fields c) -> Q c.

Fixpoint pytype_induction (t : pytype) : P t :=
  let all :=
    fix all (l : list pytype) : Forall P l :=
      match l with
      | [] => Forall_nil P
      | x :: l' => Forall_cons x (pytype_induction x) (all l')
      end in
  match t with
  | TPlain r => P_Plain r
  | TNoneType => P_NoneType
  | TDatetime => P_Datetime
  | TUnion args => P_Union args (all args)
  | TList args => P_List args (all args)
  | TTuple args => P_Tuple args (all args)
  | TDict args => P_Dict args (all args)
  | TClass c => P_Class c (pyclass_induction c)
  end
with pyclass_induction (c : pyclass) : Q c :=
  match c with
  | PyClass n b fs m1 m2 z1 z2 =>
      Q_PyClass (PyClass n b fs m1 m2 z1 z2)
        ((fix all (l : list field) : Forall (fun f => P (ftype f)) l :=
            match l with
            | [] => Forall_nil _
            | Field fn ft fd :: l' =>
                Forall_cons (Field fn ft fd) (pytype_induction ft) (all l')
            end) fs)
  end.
End PytypeInduction.


(** * The round trip *)

Section RoundTrip.
Context {lib : DatetimeLib} {hooks : Hooks}.

(** No class overrides a hook. *)
Hypothesis no_serialize_hook : forall c n v t, _serialize_field c n v t = None.
Hypothesis no_deserialize_hook : forall c n v t, _deserialize_field c n v t = None.

Lemma plain_Dict items :
  plain (VDict items) =
    distinct (map fst items) && forallb (fun kv => plain (snd kv)) items.
Proof.
  simpl. f_equal.
  induction items as [|[k v] items IH]; simpl; [reflexivity|].
  rewrite IH. reflexivity.
Qed.

(** Encoding leaves a value of the generic tree as it is. *)
Lemma serialize_plain v :
  plain v = true ->
  forall self name typ, _serialize_value self name v typ = v.
Proof.
  induction v as [ | b | n | s | dt | l IH | l IH | items IH | c vals IH ]
    using pyval_induction;
    intros Hp self name typ; try discriminate Hp;
    try (simpl; rewrite no_serialize_hook; reflexivity).
  - simpl. rewrite no_serialize_hook. f_equal.
    simpl in Hp. induction l as [|x l IHl]; simpl; [reflexivity|].
    simpl in Hp. apply andb_true_iff in Hp. destruct Hp as [Hx Hl].
    inversion IH as [|? ? IHx IHrest]; subst.
    rewrite (IHx Hx), (IHl IHrest Hl). reflexivity.
  - rewrite plain_Dict in Hp. apply andb_true_iff in Hp. destruct Hp as [Hd Hp].
    rewrite serialize_Dict by auto. f_equal.
    clear Hd. induction items as [|[k x] items IHi]; simpl; [reflexivity|].
    simpl in Hp. apply andb_true_iff in Hp. destruct Hp as [Hx Hl].
    inversion IH as [|? ? IHx IHrest]; subst. simpl in IHx.
    rewrite (IHx Hx), (IHi IHrest Hl). reflexivity.
Qed.

Lemma dict_get_In_distinct {A : Type} (items : list (string * A)) k v :
  distinct (map fst items) = true ->
  In (k, v) items ->
  dict_get items k = Some v.
Proof.
  induction items as [|[k' v'] items IH]; intros Hd Hin; [destruct Hin|].
  simpl in Hd. apply distinct_cons in Hd. destruct Hd as [Hk Hd].
  simpl. destruct Hin as [[= -> ->] | Hin].
  - rewrite String.eqb_refl. reflexivity.
  - assert (E : String.eqb k' k = false).
    { apply (existsb_eqb_In _ _ Hk). apply (in_map fst _ _ Hin). }
    rewrite E. apply IH; assumption.
Qed.

Lemma items_leb_intro {A : Type} (eqb : A -> A -> bool) i1 i2 :
  (forall k x, In (k, x) i1 ->
     exists v, dict_get i2 k = Some v /\ eqb x v = true) ->
  items_leb A eqb i1 i2 = true.
Proof.
  induction i1 as [|[k x] i1 IH]; intros H; simpl; [reflexivity|].
  destruct (H k x (or_introl eq_refl)) as [v [-> ->]]. simpl.
  apply IH. intros k' x' Hin. apply H. right. exact Hin.
Qed.

Lemma list_eqb_refl {A : Type} (eqb : A -> A -> bool) l :
  Forall (fun v => eqb v v = true) l ->
  list_eqb A eqb l l = true.
Proof.
  induction 1 as [|x l Hx _ IH]; simpl; [reflexivity|].
  rewrite Hx, IH. reflexivity.
Qed.

(** A value of the generic tree is equal to itself. *)
Lemma py_eqb_plain_refl v :
  plain v = true -> py_eqb v v = true.
Proof.
  induction v as [ | b | n | s | dt | l IH | l IH | items IH | c vals IH ]
    using pyval_induction;
    intros Hp; try discriminate Hp.
  - reflexivity.
  - simpl. destruct b; reflexivity.
  - simpl. apply Z.eqb_refl.
  - simpl. apply String.eqb_refl.
  - simpl. apply list_eqb_refl.
    simpl in Hp. rewrite forallb_forall in Hp. rewrite Forall_forall in *.
    intros x Hx. apply IH; auto.
  - rewrite plain_Dict in Hp. apply andb_true_iff in Hp. destruct Hp as [Hd Hp].
    simpl. rewrite Nat.eqb_refl. simpl.
    apply items_leb_intro. intros k x Hin. exists x. split.
    + apply dict_get_In_distinct; assumption.
    + rewrite forallb_forall in Hp. rewrite Forall_forall in IH.
      apply (IH (k, x) Hin). apply (Hp (k, x) Hin).
Qed.

Lemma serialize_not_None self name v typ :
  is_None v = false ->
  is_None (_serialize_value self name v typ) = false.
Proof.
  intros Hv. destruct v; try discriminate Hv; simpl;
    rewrite no_serialize_hook; try reflexivity.
  - unfold serialize_datetime, format_datetime.
    destruct (dict_get (DATE_FORMAT_MAP self) name) as [fmt|]; [|reflexivity].
    destruct (truthy fmt); reflexivity.
  - destruct (is_base_model c); reflexivity.
Qed.

Lemma round_trip_None cls name typ :
  null_stays_null typ -> round_trips cls name typ VNone.
Proof.
  intros Hn t. exists VNone. split; [|reflexivity].
  simpl _serialize_value. rewrite no_serialize_hook.
  rewrite deserialize_None by apply no_deserialize_hook.
  destruct typ; try reflexivity. simpl in Hn. rewrite Hn. reflexivity.
Qed.

Lemma round_trip_plain cls name r v :
  plain v = true -> round_trips cls name (TPlain r) v.
Proof.
  intros Hp t. exists v. split; [|apply py_eqb_plain_refl; exact Hp].
  rewrite serialize_plain by exact Hp.
  rewrite deserialize_plain. unfold deserialize_leaf.
  rewrite no_deserialize_hook. destruct v; reflexivity.
Qed.

Lemma round_trip_datetime cls name dt :
  lossless cls name dt -> round_trips cls name TDatetime (VDatetime dt).
Proof.
  intros [s [dt' [Hs [Hp He]]]] t. exists (VDatetime dt'). split; [|exact He].
  rewrite serialize_Datetime by apply no_serialize_hook.
  rewrite Hs. rewrite deserialize_datetime;
    [exact Hp | apply no_deserialize_hook | reflexivity].
Qed.

Lemma round_trip_list_elements cls name inner l :
  Forall (round_trips cls name inner) l ->
  exists xs,
    deserialize_list (fun n v => _deserialize_value cls n v inner) name
      (map (fun v => _serialize_value cls name v (TPlain "None")) l) = Ok xs
    /\ list_eqb pyval py_eqb xs l = true.
Proof.
  induction 1 as [|v l Hv _ [xs [Hxs Heq]]]; simpl.
  - exists []. split; reflexivity.
  - destruct (Hv (TPlain "None")) as [x [Hx Hxv]]. rewrite Hx, Hxs.
    exists (x :: xs). split; [reflexivity|]. simpl. rewrite Hxv, Heq. reflexivity.
Qed.

Lemma round_trip_items cls name val_type items out :
  distinct (map fst items) = true ->
  fresh out (map fst items) ->
  Forall (fun kv => round_trips cls name val_type (snd kv)) items ->
  exists xs,
    deserialize_items (fun n v => _deserialize_value cls n v val_type) name
      (map (fun kv => (fst kv, _serialize_value cls name (snd kv) (TPlain "None")))
           items) out
    = Ok (out ++ xs)%list
    /\ Forall2 (fun kx kv => fst kx = fst kv /\ py_eqb (snd kx) (snd kv) = true)
               xs items.
Proof.
  intros Hd Hf H. revert out Hd Hf.
  induction H as [|[k v] items Hv _ IH]; intros out Hd Hf; simpl.
  - exists []. rewrite app_nil_r. split; [reflexivity | constructor].
  - simpl in Hd. apply distinct_cons in Hd. destruct Hd as [Hk Hd].
    destruct (Hv (TPlain "None")) as [x [Hx Hxv]]. simpl in Hx, Hxv. rewrite Hx.
    destruct (fresh_step out k x _ Hf Hk) as [-> Hf'].
    destruct (IH _ Hd Hf') as [xs [Hxs HF]]. rewrite Hxs.
    exists ((k, x) :: xs). split.
    + rewrite <- app_assoc. reflexivity.
    + constructor; [split; [reflexivity | exact Hxv] | exact HF].
Qed.

Lemma Forall2_length_eq {A B : Type} (R : A -> B -> Prop) l1 l2 :
  Forall2 R l1 l2 -> List.length l1 = List.length l2.
Proof.
  induction 1; simpl; congruence.
Qed.

Lemma items_equal xs items :
  distinct (map fst items) = true ->
  Forall2 (fun kx kv : string * pyval =>
             fst kx = fst kv /\ py_eqb (snd kx) (snd kv) = true) xs items ->
  py_eqb (VDict xs) (VDict items) = true.
Proof.
  intros Hd HF. simpl.
  rewrite (Forall2_length_eq _ _ _ HF), Nat.eqb_refl. simpl.
  apply items_leb_intro. intros k x Hin.
  assert (G : exists v, In (k, v) items /\ py_eqb x v = true).
  { clear Hd. induction HF as [|[k1 x1] [k2 v2] xs items [Hk Hx] _ IH];
      [destruct Hin|].
    simpl in Hk, Hx. destruct Hin as [[= -> ->] | Hin].
    - exists v2. split; [left; rewrite Hk; reflexivity | exact Hx].
    - destruct (IH Hin) as [v [Hv Hxv]]. exists v. split; [right|]; assumption. }
  destruct G as [v [Hv Hxv]]. exists v. split; [|exact Hxv].
  apply dict_get_In_distinct; assumption.
Qed.

(** The loop of [from_dict] on the output of [to_dict]. *)
Lemma from_dict_loop_round_trip c fs vals pre kwargs :
  distinct (map fname fs) = true ->
  fresh pre (map fname fs) ->
  fresh kwargs (map fname fs) ->
  Forall2 (fun f v => round_trips c (fname f) (ftype f) v) fs vals ->
  exists xs,
    from_dict_loop (fun n v t => _deserialize_value c n v t)
      (VDict (pre ++ map (encoded_field c) (combine fs vals))%list) fs kwargs
    = Ok (kwargs ++ combine (map fname fs) xs)%list
    /\ list_eqb pyval py_eqb xs vals = true
    /\ List.length xs = List.length fs.
Proof.
  intros Hd Hp Hk H. revert pre kwargs Hd Hp Hk.
  induction H as [|f v fs vals Hv _ IH]; intros pre kwargs Hd Hp Hk.
  - exists []. simpl. rewrite app_nil_r. repeat split; reflexivity.
  - simpl in Hd. apply distinct_cons in Hd. destruct Hd as [Hn Hd].
    destruct (Hv (ftype f)) as [x [Hx Hxv]].
    cbn [combine map from_dict_loop py_contains py_getitem].
    unfold dict_contains.
    assert (G : dict_get (pre ++ encoded_field c (f, v)
                              :: map (encoded_field c) (combine fs vals))%list (fname f)
                = Some (_serialize_value c (fname f) v (ftype f))).
    { rewrite dict_get_app, (Hp (fname f) (or_introl eq_refl)).
      unfold encoded_field at 1. cbn [dict_get fst snd].
      rewrite String.eqb_refl. reflexivity. }
    rewrite G, Hx.
    destruct (fresh_step kwargs (fname f) x _ Hk Hn) as [-> Hk'].
    destruct (fresh_step pre (fname f) (_serialize_value c (fname f) v (ftype f))
                         _ Hp Hn) as [_ Hp'].
    destruct (IH _ _ Hd Hp' Hk') as [xs [Hxs [Heq Hlen]]].
    exists (x :: xs).
    replace (pre ++ encoded_field c (f, v)
                 :: map (encoded_field c) (combine fs vals))%list
      with ((pre ++ [(fname f, _serialize_value c (fname f) v (ftype f))])
              ++ map (encoded_field c) (combine fs vals))%list
      by (rewrite <- app_assoc; reflexivity).
    rewrite Hxs. repeat split.
    + rewrite <- app_assoc. reflexivity.
    + simpl. rewrite Hxv, Heq. reflexivity.
    + simpl. rewrite Hlen. reflexivity.
Qed.

Lemma init_fields_of_kwargs new fs xs pre :
  distinct (map fname fs) = true ->
  fresh pre (map fname fs) ->
  List.length xs = List.length fs ->
  init_fields new (pre ++ combine (map fname fs) xs)%list fs = Some xs.
Proof.
  revert xs pre. induction fs as [|f fs IH]; intros xs pre Hd Hp Hl.
  - destruct xs; [reflexivity | discriminate].
  - destruct xs as [|x xs]; [discriminate|].
    simpl in Hd. apply distinct_cons in Hd. destruct Hd as [Hn Hd].
    cbn [map combine init_fields].
    rewrite dict_get_app, (Hp (fname f) (or_introl eq_refl)).
    cbn [dict_get]. rewrite String.eqb_refl.
    destruct (fresh_step pre (fname f) x _ Hp Hn) as [_ Hp'].
    replace (pre ++ (fname f, x) :: combine (map fname fs) xs)%list
      with ((pre ++ [(fname f, x)]) ++ combine (map fname fs) xs)%list
      by (rewrite <- app_assoc; reflexivity).
    rewrite IH; [reflexivity | assumption | assumption | simpl in Hl; congruence].
Qed.

Lemma known_keywords_combine fs names (xs : list pyval) :
  (forall k, In k names -> existsb (fun f => String.eqb (fname f) k) fs = true) ->
  known_keywords fs (combine names xs) = true.
Proof.
  revert xs. induction names as [|k names IH]; intros xs H; [reflexivity|].
  destruct xs as [|x xs]; [reflexivity|].
  unfold known_keywords. cbn [combine forallb fst].
  rewrite (H k (or_introl eq_refl)). simpl.
  apply IH. intros k' Hin. apply H. right. exact Hin.
Qed.

Lemma call_constructor_of_kwargs c xs :
  distinct (map fname (fields c)) = true ->
  List.length xs = List.length (fields c) ->
  call_constructor c (combine (map fname (fields c)) xs) = Ok (VObj c xs).
Proof.
  intros Hd Hl. unfold call_constructor.
  destruct c as [n b fs m1 m2 z1 z2]. cbn [fields] in *. cbn [construct].
  rewrite known_keywords_combine.
  - rewrite (init_fields_of_kwargs _ fs xs [] Hd (fresh_nil _) Hl). reflexivity.
  - intros k Hin. apply in_map_iff in Hin. destruct Hin as [f [<- Hf]].
    apply existsb_exists. exists f. split; [exact Hf | apply String.eqb_refl].
Qed.

(** A model record whose field values round-trip, round-trips. *)
Lemma round_trip_record c vals :
  distinct (map fname (fields c)) = true ->
  Forall2 (fun f v => round_trips c (fname f) (ftype f) v) (fields c) vals ->
  exists vals',
    from_dict c (to_dict c vals) = Ok (VObj c vals')
    /\ list_eqb pyval py_eqb vals' vals = true.
Proof.
  intros Hd H.
  pose proof (Forall2_length_eq _ _ _ H) as Hl.
  unfold to_dict.
  rewrite (serialize_fields_append _ (fields c) vals [] Hd (fresh_nil _) (eq_sym Hl)).
  destruct (from_dict_loop_round_trip c (fields c) vals [] [] Hd
              (fresh_nil _) (fresh_nil _) H) as [xs [Hxs [Heq Hlen]]].
  exists xs. split; [|exact Heq].
  rewrite from_dict_eq. unfold encoded_field in Hxs. simpl app in *.
  rewrite Hxs. apply call_constructor_of_kwargs; assumption.
Qed.

Lemma Forall2_Forall_impl {A B : Type} (R S : A -> B -> Prop) l1 l2 :
  Forall (fun a => forall b, R a b -> S a b) l1 ->
  Forall2 R l1 l2 ->
  Forall2 S l1 l2.
Proof.
  intros HF H. induction H as [|a b l1 l2 Hab _ IH]; [constructor|].
  inversion HF as [|? ? Ha Hrest]; subst.
  constructor; [apply Ha; exact Hab | apply IH; exact Hrest].
Qed.

(** A conforming value round-trips, by induction on its declared type. *)
Lemma conforms_round_trips typ :
  forall cls name v, conforms cls name typ v -> round_trips cls name typ v.
Proof.
  induction typ as [ r | | | args IH | args IH | args IH | args IH | c IH | c IH ]
    using pytype_induction
    with (Q := fun c =>
                 forall vals,
                   Forall2 (fun f v => conforms c (fname f) (ftype f) v)
                           (fields c) vals ->
                   Forall2 (fun f v => round_trips c (fname f) (ftype f) v)
                           (fields c) vals).
  - (* a type without structure *)
    intros cls name v H. inversion H; subst.
    + apply round_trip_None; assumption.
    + apply round_trip_plain; assumption.
  - intros cls name v H. inversion H; subst. apply round_trip_None; assumption.
  - (* datetime *)
    intros cls name v H. inversion H; subst.
    + apply round_trip_None; assumption.
    + apply round_trip_datetime; assumption.
  - (* Optional *)
    intros cls name v H. inversion H as [ ? ? ? Hn | | | ? ? ? a ? Ha Hc | | | | ]; subst.
    + apply round_trip_None; assumption.
    + assert (Hin : In a args).
      { assert (In a (non_None_args args)) by (rewrite Ha; left; reflexivity).
        unfold non_None_args in *. apply filter_In in H0. tauto. }
      rewrite Forall_forall in IH. specialize (IH a Hin cls name v Hc).
      destruct (is_None v) eqn:Ev.
      * destruct v; try discriminate Ev. apply round_trip_None. exact I.
      * intros t. destruct (IH t) as [v' [Hv' He]]. exists v'. split; [|exact He].
        rewrite deserialize_union;
          [| apply no_deserialize_hook | apply serialize_not_None; exact Ev].
        rewrite Ha. exact Hv'.
  - (* List *)
    intros cls name v H. inversion H as [ ? ? ? Hn | | | | ? ? inner rest l Hl | ? ? l Hl | | ]; subst.
    + apply round_trip_None; assumption.
    + inversion IH as [|? ? IHinner _]; subst.
      assert (HF : Forall (round_trips cls name inner) l).
      { apply (Forall_impl _ (IHinner cls name) Hl). }
      destruct (round_trip_list_elements cls name inner l HF) as [xs [Hxs Heq]].
      intros t. exists (VList xs). split; [|exact Heq].
      rewrite serialize_List by apply no_serialize_hook.
      rewrite deserialize_List; [| apply no_deserialize_hook | reflexivity].
      cbn [py_iter inner_type]. rewrite Hxs. reflexivity.
    + assert (HF : Forall (round_trips cls name (TPlain "Any")) l).
      { rewrite forallb_forall in Hl. apply Forall_forall. intros x Hx.
        apply round_trip_plain. apply Hl. exact Hx. }
      destruct (round_trip_list_elements cls name _ l HF) as [xs [Hxs Heq]].
      intros t. exists (VList xs). split; [|exact Heq].
      rewrite serialize_List by apply no_serialize_hook.
      rewrite deserialize_List; [| apply no_deserialize_hook | reflexivity].
      cbn [py_iter inner_type]. rewrite Hxs. reflexivity.
  - intros cls name v H. inversion H; subst. apply round_trip_None; assumption.
  - (* Dict *)
    intros cls name v H.
    inversion H as [ ? ? ? Hn | | | | | | ? ? kt vt items Hd Hi | ]; subst.
    + apply round_trip_None; assumption.
    + inversion IH as [|? ? _ IH']; subst.
      inversion IH' as [|? ? IHvt _]; subst.
      assert (HF : Forall (fun kv => round_trips cls name vt (snd kv)) items).
      { apply (Forall_impl _ (fun kv => IHvt cls name (snd kv)) Hi). }
      destruct (round_trip_items cls name vt items [] Hd (fresh_nil _) HF)
        as [xs [Hxs HF2]].
      intros t. exists (VDict xs). split; [|apply items_equal; assumption].
      rewrite serialize_Dict; [| apply no_serialize_hook | exact Hd].
      rewrite deserialize_Dict; [| apply no_deserialize_hook | reflexivity].
      cbn [py_items value_type]. rewrite Hxs. reflexivity.
  - (* a model record *)
    intros cls name v H.
    inversion H as [ ? ? ? Hn | | | | | | | ? ? ? vals Hb Hd Hf ]; subst.
    + apply round_trip_None; assumption.
    + destruct (round_trip_record c vals Hd (IH vals Hf)) as [vals' [Hv Heq]].
      intros t. exists (VObj c vals'). split.
      * rewrite deserialize_Class;
          [| apply no_deserialize_hook | apply serialize_not_None; reflexivity].
        rewrite Hb. rewrite <- Hv. f_equal.
        simpl. rewrite no_serialize_hook, Hb. reflexivity.
      * simpl. rewrite String.eqb_refl, Heq. reflexivity.
  - intros vals HF2.
    apply (Forall2_Forall_impl
             (fun f v => conforms c (fname f) (ftype f) v)
             (fun f v => round_trips c (fname f) (ftype f) v) _ _
             (Forall_impl _ (fun f Hf v => Hf c (fname f) v) IH) HF2).
Qed.




End RoundTrip.

(** * Further properties of the codec *)

(** ** The shape of an encoding *)

Lemma combine_field_names {A : Type} (g : field * A -> string * pyval)
      (fs : list field) (vals : list A) :
  (forall fv, fst (g fv) = fname (fst fv)) ->
  List.length vals = List.length fs ->
  map fst (map g (combine fs vals)) = map fname fs.
Proof.
  intros Hg. revert vals.
  induction fs as [|f fs IH]; intros [|v vals] Hl; simpl in *;
    try discriminate; [reflexivity|].
  rewrite Hg. simpl. f_equal. apply IH. lia.
Qed.

Lemma existsb_keys_dict_set {A : Type} (d : list (string * A)) k0 k v :
  String.eqb k0 k = false ->
  existsb (String.eqb k0) (map fst (dict_set d k v))
  = existsb (String.eqb k0) (map fst d).
Proof.
  intros Hk. induction d as [|[k' v'] d IH]; simpl.
  - rewrite Hk. reflexivity.
  - destruct (String.eqb k' k); simpl; [reflexivity|].
    rewrite IH. reflexivity.
Qed.

(** An assignment keeps the keys of a dict distinct. *)
Lemma dict_set_distinct {A : Type} (d : list (string * A)) k v :
  distinct (map fst d) = true ->
  distinct (map fst (dict_set d k v)) = true.
Proof.
  induction d as [|[k' v'] d IH]; simpl; [reflexivity|].
  intros H. apply andb_true_iff in H. destruct H as [Hn Hd].
  destruct (String.eqb k' k) eqn:E; simpl.
  - rewrite Hn, Hd. reflexivity.
  - rewrite (existsb_keys_dict_set d k' k v E), Hn, (IH Hd). reflexivity.
Qed.

Lemma dict_set_forallb {A : Type} (P : A -> bool) (d : list (string * A)) k v :
  forallb (fun kv => P (snd kv)) d = true ->
  P v = true ->
  forallb (fun kv => P (snd kv)) (dict_set d k v) = true.
Proof.
  intros Hd Hv. induction d as [|[k' v'] d IH]; simpl in *.
  - rewrite Hv. reflexivity.
  - apply andb_true_iff in Hd. destruct Hd as [H1 H2].
    destruct (String.eqb k' k); simpl.
    + rewrite Hv, H2. reflexivity.
    + rewrite H1, (IH H2). reflexivity.
Qed.

Lemma dict_set_plain d k v :
  plain (VDict d) = true -> plain v = true -> plain (VDict (dict_set d k v)) = true.
Proof.
  rewrite !plain_Dict. intros H Hv.
  apply andb_true_iff in H. destruct H as [H1 H2].
  rewrite (dict_set_distinct d k v H1).
  rewrite (dict_set_forallb plain d k v H2 Hv). reflexivity.
Qed.

Lemma serialize_fields_plain (ser : string -> pyval -> pytype -> pyval) fs vals out :
  Forall (fun v => forall n t, plain (ser n v t) = true) vals ->
  plain (VDict out) = true ->
  plain (VDict (serialize_fields ser fs vals out)) = true.
Proof.
  revert fs out. induction vals as [|v vals IH]; intros fs out Hv Ho;
    [exact Ho|].
  destruct fs as [|f fs]; [exact Ho|]. cbn [serialize_fields].
  inversion Hv as [|? ? Hx Hrest]; subst.
  apply IH; [exact Hrest|]. apply dict_set_plain; [exact Ho | apply Hx].
Qed.

Lemma serialize_items_plain (ser : string -> pyval -> pytype -> pyval) name items out :
  Forall (fun kv => forall n t, plain (ser n (snd kv) t) = true) items ->
  plain (VDict out) = true ->
  plain (VDict (serialize_items ser name items out)) = true.
Proof.
  revert out. induction items as [|[k v] items IH]; intros out Hv Ho;
    [exact Ho|].
  cbn [serialize_items].
  inversion Hv as [|? ? Hx Hrest]; subst.
  apply IH; [exact Hrest|]. apply dict_set_plain; [exact Ho | apply Hx].
Qed.

Section EncodingShape.
Context {lib : DatetimeLib} {hooks : Hooks}.

Hypothesis no_serialize_hook : forall c n v t, _serialize_field c n v t = None.

(** The encoding of any value is a value of the generic tree. *)
Lemma serialize_value_plain v :
  forall self name typ, plain (_serialize_value self name v typ) = true.
Proof.
  induction v as [ | b | n | s | dt | l IH | l IH | items IH | c vals IH ]
    using pyval_induction;
    intros self name typ; cbn [_serialize_value]; rewrite no_serialize_hook;
    try reflexivity.
  - unfold serialize_datetime, format_datetime.
    destruct (dict_get (DATE_FORMAT_MAP self) name) as [fmt|]; [|reflexivity].
    destruct (truthy fmt); reflexivity.
  - cbn [plain]. induction IH as [|x l Hx _ IHl]; simpl; [reflexivity|].
    rewrite Hx, IHl. reflexivity.
  - cbn [plain]. induction IH as [|x l Hx _ IHl]; simpl; [reflexivity|].
    rewrite Hx, IHl. reflexivity.
  - apply serialize_items_plain; [|reflexivity].
    eapply Forall_impl; [|exact IH]. intros kv H n t. apply H.
  - destruct (is_base_model c); apply serialize_fields_plain; try reflexivity;
      (eapply Forall_impl; [|exact IH]); intros v H n t; apply H.
Qed.

(** X2. With no encode hook, the encoding of any value (an instance, a
    date/time, a tuple, a container of them) is a value of the generic
    tree: [None], booleans, integers, strings, lists, and dicts with
    distinct keys. *)
Theorem encoding_is_generic_tree self name v typ :
  plain (_serialize_value self name v typ) = true.
Proof. apply serialize_value_plain. Qed.

(** X3. With no encode hook, encoding is idempotent: encoding an encoding
    again, in any field of any class, changes nothing. *)
Theorem encoding_is_idempotent self name v typ self' name' typ' :
  _serialize_value self' name' (_serialize_value self name v typ) typ'
  = _serialize_value self name v typ.
Proof.
  apply (serialize_plain no_serialize_hook). apply serialize_value_plain.
Qed.

End EncodingShape.

Section ToDictKeys.
Context {lib : DatetimeLib} {hooks : Hooks}.

(** X1. [to_dict] of an instance writes one item per declared field, keyed
    by the field names in the order of declaration, whatever the hooks
    return; the item of a field is the encoding of its value under the
    field's own name and type. *)
Theorem to_dict_keys_are_field_names c vals :
  distinct (map fname (fields c)) = true ->
  List.length vals = List.length (fields c) ->
  exists items,
    to_dict c vals = VDict items
    /\ map fst items = map fname (fields c)
    /\ forall f v, In (f, v) (combine (fields c) vals) ->
         dict_get items (fname f) = Some (_serialize_value c (fname f) v (ftype f)).
Proof.
  intros Hd Hl. unfold to_dict.
  rewrite (serialize_fields_append _ (fields c) vals [] Hd (fresh_nil _) Hl).
  cbn [app]. eexists. split; [reflexivity|]. split.
  - apply combine_field_names; [reflexivity | exact Hl].
  - intros f v Hin. apply dict_get_In_distinct.
    + rewrite combine_field_names; [exact Hd | reflexivity | exact Hl].
    + apply (in_map (fun fv : field * pyval =>
                       (fname (fst fv),
                        _serialize_value c (fname (fst fv)) (snd fv) (ftype (fst fv))))
               _ _ Hin).
Qed.

End ToDictKeys.
(** ** The instance built by [from_dict] *)

Lemma init_fields_length new kwargs fs vals :
  init_fields new kwargs fs = Some vals -> List.length vals = List.length fs.
Proof.
  revert vals. induction fs as [|f fs IH]; intros vals; simpl.
  - intros [= <-]. reflexivity.
  - destruct (match dict_get kwargs (fname f) with
              | Some v => Some v
              | None => default_value new (fdefault_of f)
              end) as [v|]; [|discriminate].
    destruct (init_fields new kwargs fs) as [vs|]; [|discriminate].
    intros [= <-]. simpl. f_equal. apply IH. reflexivity.
Qed.

Lemma call_constructor_instance c kwargs inst :
  call_constructor c kwargs = Ok inst ->
  exists vals, inst = VObj c vals /\ List.length vals = List.length (fields c).
Proof.
  unfold call_constructor. destruct c as [n b fs m1 m2 z1 z2]. cbn [construct fields].
  destruct (known_keywords fs kwargs); [|discriminate].
  destruct (init_fields _ kwargs fs) as [vals|] eqn:Ei; [|discriminate].
  intros [= <-]. exists vals. split; [reflexivity|].
  apply (init_fields_length _ _ _ _ Ei).
Qed.

(** A field that no keyword names receives its default. *)
Lemma init_fields_default new kwargs fs vals f :
  init_fields new kwargs fs = Some vals ->
  In f fs ->
  distinct (map fname fs) = true ->
  dict_get kwargs (fname f) = None ->
  field_value fs vals (fname f) = default_value new (fdefault_of f)
  /\ field_value fs vals (fname f) <> None.
Proof.
  revert vals. induction fs as [|f0 fs IH]; intros vals Hi Hin Hd Hk; [destruct Hin|].
  apply distinct_cons in Hd. destruct Hd as [Hn Hd].
  cbn [init_fields] in Hi.
  destruct Hin as [-> | Hin].
  - rewrite Hk in Hi.
    destruct (default_value new (fdefault_of f)) as [v|]; [|discriminate].
    destruct (init_fields new kwargs fs) as [vs|]; [|discriminate].
    injection Hi as <-. cbn [field_value]. rewrite String.eqb_refl.
    split; [reflexivity | discriminate].
  - destruct (match dict_get kwargs (fname f0) with
              | Some v => Some v
              | None => default_value new (fdefault_of f0)
              end) as [v0|]; [|discriminate].
    destruct (init_fields new kwargs fs) as [vs|] eqn:Evs; [|discriminate].
    injection Hi as <-. cbn [field_value].
    rewrite (existsb_eqb_In _ _ Hn (fname f) (in_map fname _ _ Hin)).
    apply (IH vs eq_refl Hin Hd Hk).
Qed.

Section FromDictDefaults.
Context {lib : DatetimeLib} {hooks : Hooks}.
Variable deser : string -> pyval -> pytype -> result pyval.

(** The loop of [from_dict] passes over an absent field that has a
    default. *)
Lemma from_dict_loop_skips_default data fs kwargs kwargs' f :
  In f fs ->
  distinct (map fname fs) = true ->
  has_default f = true ->
  py_contains data (fname f) = Ok false ->
  from_dict_loop deser data fs kwargs = Ok kwargs' ->
  dict_get kwargs' (fname f) = dict_get kwargs (fname f).
Proof.
  revert kwargs. induction fs as [|f0 fs IH]; intros kwargs Hin Hd Hdef Hc Hl;
    [destruct Hin|].
  apply distinct_cons in Hd. destruct Hd as [Hn Hd].
  cbn [from_dict_loop] in Hl.
  destruct Hin as [-> | Hin].
  - rewrite Hc, Hdef in Hl.
    apply (from_dict_loop_keeps_other deser data fs kwargs kwargs' (fname f) Hn Hl).
  - pose proof (existsb_eqb_In _ _ Hn (fname f) (in_map fname _ _ Hin)) as Hne.
    destruct (py_contains data (fname f0)) as [[|]|e]; [| |discriminate].
    + destruct (py_getitem data (fname f0)) as [raw|e]; [|discriminate].
      destruct (deser (fname f0) raw (ftype f0)) as [x|e]; [|discriminate].
      rewrite (IH _ Hin Hd Hdef Hc Hl). apply dict_get_set_other. exact Hne.
    + destruct (has_default f0).
      * apply (IH _ Hin Hd Hdef Hc Hl).
      * rewrite (IH _ Hin Hd Hdef Hc Hl). apply dict_get_set_other. exact Hne.
Qed.

End FromDictDefaults.

Section FromDictResult.
Context {lib : DatetimeLib} {hooks : Hooks}.

Lemma from_dict_instance cls data inst :
  from_dict cls data = Ok inst ->
  exists vals, inst = VObj cls vals /\ List.length vals = List.length (fields cls).
Proof.
  rewrite from_dict_eq.
  destruct (from_dict_loop _ data (fields cls) []) as [kwargs|e]; [|discriminate].
  apply call_constructor_instance.
Qed.

(** X5. A declared field that has a default value or a default factory and
    is absent from the input mapping is left to the constructor: the
    instance holds the default value, or what the factory returns, and no
    hook and no decoding is applied to it. *)
Theorem missing_field_takes_default cls f items inst :
  In f (fields cls) ->
  distinct (map fname (fields cls)) = true ->
  has_default f = true ->
  dict_get items (fname f) = None ->
  from_dict cls (VDict items) = Ok inst ->
  getattr inst (fname f)
  = default_value (fun c' => construct c' []) (fdefault_of f)
  /\ getattr inst (fname f) <> None.
Proof.
  intros Hin Hd Hdef Hk. rewrite from_dict_eq.
  destruct (from_dict_loop _ (VDict items) (fields cls) []) as [kwargs|e] eqn:El;
    [|discriminate].
  assert (Hc : py_contains (VDict items) (fname f) = Ok false).
  { simpl. unfold dict_contains. rewrite Hk. reflexivity. }
  pose proof (from_dict_loop_skips_default _ _ _ _ _ _ Hin Hd Hdef Hc El) as Hkw.
  simpl in Hkw.
  unfold call_constructor. destruct cls as [n b fs m1 m2 z1 z2].
  cbn [construct fields] in *.
  destruct (known_keywords fs kwargs); [|discriminate].
  destruct (init_fields _ kwargs fs) as [vals|] eqn:Ei; [|discriminate].
  intros [= <-]. cbn [getattr fields].
  apply (init_fields_default _ _ _ _ _ Ei Hin Hd Hkw).
Qed.

(** X6. With the hook not overridden, what is decoded against [datetime]
    or [Optional[datetime]] is either [None], and then the raw value was
    [None], or a date/time that carries a zone: decoding never returns a
    naive date/time. *)
Theorem decoded_datetime_is_aware cls name value typ x :
  datetime_typed typ = true ->
  (forall t, _deserialize_field cls name value t = None) ->
  _deserialize_value cls name value typ = Ok x ->
  (value = VNone /\ x = VNone)
  \/ (exists dt, x = VDatetime dt /\ tzinfo_of dt <> None).
Proof.
  intros Ht Hh. destruct (is_None value) eqn:En.
  - destruct value; try discriminate En.
    rewrite (deserialize_None _ _ _ (Hh typ)).
    destruct typ; try discriminate Ht; intros [= <-]; left; split; reflexivity.
  - rewrite (deserialize_datetime_typed _ _ _ _ Ht En Hh). intros Hp. right.
    apply (parse_datetime_aware _ _ _ _ Hp).
Qed.

(** X7. A nested dataclass that is not a [BaseModel] is built by
    [typ( **value)]: a key of the mapping that names no field raises
    [TypeError], and the values are stored as they come, without decoding,
    whatever the field types are. *)
Theorem plain_dataclass_takes_raw_values cls name c items :
  is_base_model c = false ->
  _deserialize_field cls name (VDict items) (TClass c) = None ->
  (known_keywords (fields c) items = false ->
   _deserialize_value cls name (VDict items) (TClass c) = Raise TypeError)
  /\ (forall inst f raw,
         _deserialize_value cls name (VDict items) (TClass c) = Ok inst ->
         In f (fields c) ->
         dict_get items (fname f) = Some raw ->
         getattr inst (fname f) = Some raw).
Proof.
  intros Hb Hh. rewrite (deserialize_Class _ _ _ _ Hh eq_refl), Hb.
  cbn [is_Mapping py_items]. split.
  - intros Hk. unfold call_constructor. destruct c as [n b fs m1 m2 z1 z2].
    cbn [construct fields] in *. rewrite Hk. reflexivity.
  - intros inst f raw Hc Hin Hk.
    apply (call_constructor_getattr _ _ _ _ _ Hc Hin Hk).
Qed.

Lemma deserialize_list_chars cls name r s :
  (forall v, _deserialize_field cls name v (TPlain r) = None) ->
  deserialize_list (fun n v => _deserialize_value cls n v (TPlain r)) name (str_chars s)
  = Ok (str_chars s).
Proof.
  intros Hh. induction s as [|a s IH]; simpl; [reflexivity|].
  rewrite Hh. cbn [is_None]. simpl in IH. rewrite IH. reflexivity.
Qed.

(** X8. No shape is checked where a list is declared: a string given for a
    field declared as a list of plain elements is iterated, and the field
    receives the list of its characters. *)
Theorem string_for_list_is_split cls name s args r :
  (forall v t, _deserialize_field cls name v t = None) ->
  inner_type args = TPlain r ->
  _deserialize_value cls name (VStr s) (TList args) = Ok (VList (str_chars s)).
Proof.
  intros Hh Hi.
  rewrite (deserialize_List cls name (VStr s) args (Hh _ _) eq_refl).
  cbn [py_iter]. rewrite Hi.
  rewrite (deserialize_list_chars cls name r s (fun v => Hh v _)). reflexivity.
Qed.

End FromDictResult.
(** ** Lists of nested records *)

Section NestedRecords.
Context {lib : DatetimeLib} {hooks : Hooks}.

Hypothesis no_serialize_hook : forall c n v t, _serialize_field c n v t = None.
Hypothesis no_deserialize_hook : forall c n v t, _deserialize_field c n v t = None.

Lemma serialize_record self name c vals typ :
  is_base_model c = true ->
  _serialize_value self name (VObj c vals) typ = to_dict c vals.
Proof.
  intros Hb. cbn [_serialize_value]. rewrite no_serialize_hook, Hb. reflexivity.
Qed.

Lemma serialize_records self name c valss typ :
  is_base_model c = true ->
  _serialize_value self name (VList (map (VObj c) valss)) typ
  = VList (map (to_dict c) valss).
Proof.
  intros Hb. rewrite serialize_List by apply no_serialize_hook.
  rewrite map_map. f_equal. apply map_ext. intros vals.
  apply serialize_record. exact Hb.
Qed.

(** X9. With no hook overridden, a list of nested model records held in a
    field is encoded as the list, in the same order, of the records' own
    [to_dict]; where the records conform to their class, decoding that list
    against [List[c]] gives as many instances, equal one by one to the
    records. *)
Theorem list_of_records_round_trip self name c valss typ rest :
  is_base_model c = true ->
  distinct (map fname (fields c)) = true ->
  Forall (fun vals => Forall2 (fun f v => conforms c (fname f) (ftype f) v)
                              (fields c) vals) valss ->
  _serialize_value self name (VList (map (VObj c) valss)) typ
  = VList (map (to_dict c) valss)
  /\ exists xs,
       _deserialize_value self name (VList (map (to_dict c) valss))
                          (TList (TClass c :: rest)) = Ok (VList xs)
       /\ list_eqb pyval py_eqb xs (map (VObj c) valss) = true.
Proof.
  intros Hb Hd Hall. split; [apply serialize_records; exact Hb|].
  assert (Hc : conforms self name (TList (TClass c :: rest))
                        (VList (map (VObj c) valss))).
  { apply conforms_list. apply Forall_map.
    eapply Forall_impl; [|exact Hall]. intros vals Hv.
    apply conforms_record; assumption. }
  destruct (conforms_round_trips no_serialize_hook no_deserialize_hook
              _ _ _ _ Hc typ) as [v' [Hv' Heq]].
  rewrite (serialize_records self name c valss typ Hb) in Hv'.
  destruct v'; try discriminate Heq.
  eexists. split; [exact Hv' | exact Heq].
Qed.

End NestedRecords.

(** ** Classes whose annotations are text *)

Lemma known_keywords_dict_set fs (kwargs : list (string * pyval)) k v :
  known_keywords fs kwargs = true ->
  existsb (fun f => String.eqb (fname f) k) fs = true ->
  known_keywords fs (dict_set kwargs k v) = true.
Proof.
  unfold known_keywords. intros Hk He.
  induction kwargs as [|[k' v'] kwargs IH]; simpl in *.
  - rewrite He. reflexivity.
  - apply andb_true_iff in Hk. destruct Hk as [H1 H2].
    destruct (String.eqb k' k); simpl.
    + rewrite H1, H2. reflexivity.
    + rewrite H1, (IH H2). reflexivity.
Qed.

Lemma existsb_field_name fs f :
  In f fs -> existsb (fun f' => String.eqb (fname f') (fname f)) fs = true.
Proof.
  intros Hin. apply existsb_exists. exists f. split; [exact Hin | apply String.eqb_refl].
Qed.

Lemma init_fields_total new kwargs fs :
  (forall f, In f fs ->
     dict_get kwargs (fname f) <> None \/ default_value new (fdefault_of f) <> None) ->
  exists vals, init_fields new kwargs fs = Some vals.
Proof.
  induction fs as [|f fs IH]; intros H; [exists []; reflexivity|].
  destruct IH as [vs Hvs]; [intros f' Hin; apply H; right; exact Hin|].
  cbn [init_fields]. rewrite Hvs.
  destruct (H f (or_introl eq_refl)) as [Hk | Hk].
  - destruct (dict_get kwargs (fname f)) as [v|]; [|contradiction].
    exists (v :: vs). reflexivity.
  - destruct (dict_get kwargs (fname f)) as [v|]; [exists (v :: vs); reflexivity|].
    destruct (default_value new (fdefault_of f)) as [v|]; [|contradiction].
    exists (v :: vs). reflexivity.
Qed.

Section LoopKeys.
Variable deser : string -> pyval -> pytype -> result pyval.

(** The loop of [from_dict] binds names of declared fields only. *)
Lemma from_dict_loop_known data fs0 fs kwargs kwargs' :
  (forall f, In f fs -> In f fs0) ->
  known_keywords fs0 kwargs = true ->
  from_dict_loop deser data fs kwargs = Ok kwargs' ->
  known_keywords fs0 kwargs' = true.
Proof.
  revert kwargs. induction fs as [|f fs IH]; intros kwargs Hsub Hk Hl.
  - injection Hl as <-. exact Hk.
  - cbn [from_dict_loop] in Hl.
    assert (Hsub' : forall f', In f' fs -> In f' fs0)
      by (intros f' Hin; apply Hsub; right; exact Hin).
    assert (Hf : existsb (fun f' => String.eqb (fname f') (fname f)) fs0 = true)
      by (apply existsb_field_name, Hsub; left; reflexivity).
    destruct (py_contains data (fname f)) as [[|]|e]; [| |discriminate].
    + destruct (py_getitem data (fname f)) as [raw|e]; [|discriminate].
      destruct (deser (fname f) raw (ftype f)) as [x|e]; [|discriminate].
      apply (IH _ Hsub' (known_keywords_dict_set _ _ _ _ Hk Hf) Hl).
    + destruct (has_default f).
      * apply (IH _ Hsub' Hk Hl).
      * apply (IH _ Hsub' (known_keywords_dict_set _ _ _ _ Hk Hf) Hl).
Qed.

(** The loop on the items that [to_dict] wrote. *)
Lemma from_dict_loop_exact (enc : field * pyval -> pyval) fs :
  forall vals xs pre kwargs,
  distinct (map fname fs) = true ->
  fresh pre (map fname fs) ->
  fresh kwargs (map fname fs) ->
  List.length vals = List.length fs ->
  Forall2 (fun fv x => deser (fname (fst fv)) (enc fv) (ftype (fst fv)) = Ok x)
          (combine fs vals) xs ->
  from_dict_loop deser
    (VDict (pre ++ map (fun fv => (fname (fst fv), enc fv)) (combine fs vals))%list)
    fs kwargs
  = Ok (kwargs ++ combine (map fname fs) xs)%list.
Proof.
  induction fs as [|f fs IH]; intros vals xs pre kwargs Hd Hp Hk Hl H.
  - simpl. rewrite app_nil_r. reflexivity.
  - destruct vals as [|v vals]; [discriminate|].
    cbn [combine] in H. inversion H as [|? x ? xs' Hx Hrest]; subst.
    apply distinct_cons in Hd. destruct Hd as [Hn Hd].
    cbn [combine map from_dict_loop py_contains py_getitem fst snd].
    unfold dict_contains.
    rewrite dict_get_app, (Hp (fname f) (or_introl eq_refl)).
    cbn [dict_get fst snd]. rewrite String.eqb_refl.
    cbn [fst snd] in Hx. rewrite Hx.
    destruct (fresh_step kwargs (fname f) x _ Hk Hn) as [-> Hk'].
    destruct (fresh_step pre (fname f) (enc (f, v)) _ Hp Hn) as [_ Hp'].
    replace (pre ++ (fname f, enc (f, v))
                 :: map (fun fv => (fname (fst fv), enc fv)) (combine fs vals))%list
      with ((pre ++ [(fname f, enc (f, v))])
              ++ map (fun fv => (fname (fst fv), enc fv)) (combine fs vals))%list
      by (rewrite <- app_assoc; reflexivity).
    rewrite (IH vals xs' _ _ Hd Hp' Hk'); [|simpl in Hl; lia | exact Hrest].
    rewrite <- app_assoc. reflexivity.
Qed.

End LoopKeys.
Section TextAnnotatedTotal.
Context {lib : DatetimeLib} {hooks : Hooks}.

Lemma text_field_decodes c fs f raw :
  forallb (fun f => is_text (ftype f)) fs = true ->
  In f fs ->
  exists x, _deserialize_value c (fname f) raw (ftype f) = Ok x.
Proof.
  intros Ht Hin. pose proof (proj1 (forallb_forall _ _) Ht f Hin) as Hf.
  cbv beta in Hf. destruct (ftype f) as [r| | | | | | |]; try discriminate Hf.
  rewrite deserialize_plain. unfold deserialize_leaf.
  destruct (_deserialize_field c (fname f) raw (TPlain r)) as [hook|];
    [exists hook; reflexivity|].
  destruct (is_None raw); eexists; reflexivity.
Qed.

Lemma from_dict_loop_total c items fs kwargs :
  forallb (fun f => is_text (ftype f)) fs = true ->
  exists kw,
    from_dict_loop (fun n v t => _deserialize_value c n v t) (VDict items) fs kwargs
    = Ok kw.
Proof.
  revert kwargs. induction fs as [|f fs IH]; intros kwargs Ht;
    [exists kwargs; reflexivity|].
  pose proof (text_field_decodes c (f :: fs) f) as Hf.
  pose proof Ht as Ht0.
  cbn [forallb] in Ht. apply andb_true_iff in Ht. destruct Ht as [Ht1 Ht].
  cbn [from_dict_loop py_contains py_getitem]. unfold dict_contains.
  destruct (dict_get items (fname f)) as [raw|].
  - destruct (Hf raw Ht0 (or_introl eq_refl)) as [x ->]. apply IH. exact Ht.
  - destruct (has_default f); apply IH; exact Ht.
Qed.

Lemma from_dict_loop_binds_required c items fs kwargs kw f :
  In f fs ->
  distinct (map fname fs) = true ->
  has_default f = false ->
  from_dict_loop (fun n v t => _deserialize_value c n v t) (VDict items) fs kwargs
  = Ok kw ->
  dict_get kw (fname f) <> None.
Proof.
  intros Hin Hd Hdef Hl.
  destruct (dict_get items (fname f)) as [raw|] eqn:Ek.
  - destruct (from_dict_loop_sets_decoded _ _ _ _ _ _ _ Hin Hd Ek Hl) as [x [_ Hx]].
    rewrite Hx. discriminate.
  - assert (Hc : py_contains (VDict items) (fname f) = Ok false)
      by (simpl; unfold dict_contains; rewrite Ek; reflexivity).
    rewrite (from_dict_loop_sets_None _ _ _ _ _ _ Hin Hdef Hc Hl). discriminate.
Qed.

(** Whatever the hooks return, the keyword arguments are built and the
    constructor accepts them. *)
Lemma text_annotated_kwargs c items :
  text_annotated c = true ->
  simple_defaults c = true ->
  distinct (map fname (fields c)) = true ->
  exists kw vals,
    from_dict_loop (fun n v t => _deserialize_value c n v t) (VDict items)
                   (fields c) [] = Ok kw
    /\ init_fields (fun c' => construct c' []) kw (fields c) = Some vals
    /\ call_constructor c kw = Ok (VObj c vals).
Proof.
  intros Ht Hs Hd.
  destruct (from_dict_loop_total c items (fields c) [] Ht) as [kw Hkw].
  assert (Hknown : known_keywords (fields c) kw = true)
    by (apply (from_dict_loop_known _ _ (fields c) (fields c) [] kw
                 (fun f H => H) eq_refl Hkw)).
  assert (Hinit : exists vals,
             init_fields (fun c' => construct c' []) kw (fields c) = Some vals).
  { apply init_fields_total. intros f Hin.
    destruct (has_default f) eqn:Edef.
    - right. pose proof (proj1 (forallb_forall _ _) Hs f Hin) as Hsf.
      cbv beta in Hsf. unfold has_default in Edef.
      destruct (fdefault_of f) as [|s|[| |c']]; try discriminate; discriminate.
    - left. apply (from_dict_loop_binds_required _ _ _ _ _ _ Hin Hd Edef Hkw). }
  destruct Hinit as [vals Hvals].
  exists kw, vals. split; [exact Hkw|]. split; [exact Hvals|].
  unfold call_constructor. destruct c as [n b fs m1 m2 z1 z2].
  cbn [construct fields] in *. rewrite Hknown, Hvals. reflexivity.
Qed.

Lemma text_annotated_from_dict_total c items :
  text_annotated c = true ->
  simple_defaults c = true ->
  distinct (map fname (fields c)) = true ->
  exists vals,
    from_dict c (VDict items) = Ok (VObj c vals)
    /\ List.length vals = List.length (fields c).
Proof.
  intros Ht Hs Hd.
  destruct (text_annotated_kwargs c items Ht Hs Hd) as [kw [vals [Hkw [Hi Hc]]]].
  exists vals. rewrite from_dict_eq, Hkw. split; [exact Hc|].
  apply (init_fields_length _ _ _ _ Hi).
Qed.

End TextAnnotatedTotal.

Section TextAnnotated.
Context {lib : DatetimeLib} {hooks : Hooks}.

Hypothesis no_deserialize_hook : forall c n v t, _deserialize_field c n v t = None.

Lemma text_field_passes_through c fs f raw :
  forallb (fun f => is_text (ftype f)) fs = true ->
  In f fs ->
  _deserialize_value c (fname f) raw (ftype f) = Ok raw.
Proof.
  intros Ht Hin. pose proof (proj1 (forallb_forall _ _) Ht f Hin) as Hf.
  cbv beta in Hf. destruct (ftype f) as [r| | | | | | |]; try discriminate Hf.
  apply plain_type_passes_through. apply no_deserialize_hook.
Qed.

(** The instance that [from_dict] builds from a mapping. *)
Lemma text_annotated_from_dict c items :
  text_annotated c = true ->
  simple_defaults c = true ->
  distinct (map fname (fields c)) = true ->
  exists vals,
    from_dict c (VDict items) = Ok (VObj c vals)
    /\ forall f, In f (fields c) ->
         getattr (VObj c vals) (fname f)
         = match dict_get items (fname f) with
           | Some raw => Some raw
           | None =>
               if has_default f
               then default_value (fun c' => construct c' []) (fdefault_of f)
               else Some VNone
           end.
Proof.
  intros Ht Hs Hd.
  destruct (text_annotated_kwargs c items Ht Hs Hd) as [kw [vals [Hkw [Hvals Hc]]]].
  exists vals. rewrite from_dict_eq, Hkw. split; [exact Hc|].
  intros f Hin. destruct (dict_get items (fname f)) as [raw|] eqn:Ek.
  - destruct (from_dict_loop_sets_decoded _ _ _ _ _ _ _ Hin Hd Ek Hkw) as [x [Hx Hg]].
    rewrite (text_field_passes_through c (fields c) f raw Ht Hin) in Hx.
    injection Hx as <-. apply (call_constructor_getattr _ _ _ _ _ Hc Hin Hg).
  - assert (Hp : py_contains (VDict items) (fname f) = Ok false)
      by (simpl; unfold dict_contains; rewrite Ek; reflexivity).
    destruct (has_default f) eqn:Edef.
    + pose proof (from_dict_loop_skips_default _ _ _ _ _ _ Hin Hd Edef Hp Hkw) as Hg.
      simpl in Hg. cbn [getattr].
      apply (init_fields_default _ _ _ _ _ Hvals Hin Hd Hg).
    + apply (call_constructor_getattr _ _ _ _ _ Hc Hin).
      apply (from_dict_loop_sets_None _ _ _ _ _ _ Hin Edef Hp Hkw).
Qed.

(** X10. For a class whose annotations are text, as are those of every
    class of the repository, the loop of [from_dict] over the declared
    fields never raises on a mapping, and, with the hook not overridden, it
    decodes nothing: the keyword arguments it passes to the constructor hold
    under each field the raw value of the mapping unchanged (a date stays
    the text it was, a nested record stays a mapping), [None] where the key
    is absent and the field has no default, and nothing where the key is
    absent and the field has a default. *)
Theorem text_annotated_fields_are_not_decoded c items :
  text_annotated c = true ->
  distinct (map fname (fields c)) = true ->
  exists kwargs,
    from_dict_loop (fun n v t => _deserialize_value c n v t) (VDict items)
                   (fields c) [] = Ok kwargs
    /\ from_dict c (VDict items) = call_constructor c kwargs
    /\ forall f, In f (fields c) ->
         dict_get kwargs (fname f)
         = match dict_get items (fname f) with
           | Some raw => Some raw
           | None => if has_default f then None else Some VNone
           end.
Proof.
  intros Ht Hd.
  destruct (from_dict_loop_total c items (fields c) [] Ht) as [kw Hkw].
  exists kw. split; [exact Hkw|]. split; [rewrite from_dict_eq, Hkw; reflexivity|].
  intros f Hin. destruct (dict_get items (fname f)) as [raw|] eqn:Ek.
  - destruct (from_dict_loop_sets_decoded _ _ _ _ _ _ _ Hin Hd Ek Hkw) as [x [Hx Hg]].
    rewrite (text_field_passes_through c (fields c) f raw Ht Hin) in Hx.
    injection Hx as <-. exact Hg.
  - assert (Hp : py_contains (VDict items) (fname f) = Ok false)
      by (simpl; unfold dict_contains; rewrite Ek; reflexivity).
    destruct (has_default f) eqn:Edef.
    + apply (from_dict_loop_skips_default _ _ _ _ _ _ Hin Hd Edef Hp Hkw).
    + apply (from_dict_loop_sets_None _ _ _ _ _ _ Hin Edef Hp Hkw).
Qed.

Lemma from_dict_to_dict_exact c vals xs :
  distinct (map fname (fields c)) = true ->
  List.length vals = List.length (fields c) ->
  Forall2 (fun fv x =>
             _deserialize_value c (fname (fst fv)) (encoded_value c fv) (ftype (fst fv))
             = Ok x) (combine (fields c) vals) xs ->
  from_dict c (to_dict c vals) = Ok (VObj c xs).
Proof.
  intros Hd Hl H. rewrite from_dict_eq. unfold to_dict.
  rewrite (serialize_fields_append _ (fields c) vals [] Hd (fresh_nil _) Hl).
  pose proof (from_dict_loop_exact (fun n v t => _deserialize_value c n v t)
                (encoded_value c) (fields c) vals xs [] []
                Hd (fresh_nil _) (fresh_nil _) Hl H) as E.
  unfold encoded_value in E. rewrite E.
  cbn [app]. apply call_constructor_of_kwargs; [exact Hd|].
  rewrite <- (Forall2_length_eq _ _ _ H), length_combine, Hl. apply Nat.min_id.
Qed.

Lemma text_fields_decode_encoded c fs0 fs vals :
  forallb (fun f => is_text (ftype f)) fs0 = true ->
  (forall f, In f fs -> In f fs0) ->
  Forall2 (fun fv x =>
             _deserialize_value c (fname (fst fv)) (encoded_value c fv) (ftype (fst fv))
             = Ok x) (combine fs vals) (map (encoded_value c) (combine fs vals)).
Proof.
  intros Ht. revert vals. induction fs as [|f fs IH]; intros vals Hsub;
    [constructor|].
  destruct vals as [|v vals]; [constructor|].
  cbn [combine map]. constructor.
  - cbn [fst]. apply (text_field_passes_through c fs0 f _ Ht).
    apply Hsub. left. reflexivity.
  - apply IH. intros f' Hin. apply Hsub. right. exact Hin.
Qed.

Lemma from_dict_to_dict_text c vals :
  text_annotated c = true ->
  distinct (map fname (fields c)) = true ->
  List.length vals = List.length (fields c) ->
  from_dict c (to_dict c vals)
  = Ok (VObj c (map (encoded_value c) (combine (fields c) vals))).
Proof.
  intros Ht Hd Hl. apply from_dict_to_dict_exact; [exact Hd | exact Hl|].
  apply (text_fields_decode_encoded c (fields c) (fields c) vals Ht (fun f H => H)).
Qed.

(** X11. For a class whose annotations are text, [from_dict] of the
    [to_dict] of an instance returns the instance of the encoded field
    values: with the decode hook not overridden nothing is decoded, so a
    date comes back as the text written for it and a nested record as its
    mapping. *)
Theorem text_annotated_round_trip c vals :
  text_annotated c = true ->
  distinct (map fname (fields c)) = true ->
  List.length vals = List.length (fields c) ->
  from_dict c (to_dict c vals)
  = Ok (VObj c (map (encoded_value c) (combine (fields c) vals))).
Proof. apply from_dict_to_dict_text. Qed.

End TextAnnotated.
(** * The callers of the codec *)

(** ** Attributes of an instance *)

Lemma field_value_set_same fs vals name v old :
  field_value fs vals name = Some old ->
  field_value fs (set_field_value fs vals name v) name = Some v.
Proof.
  revert vals. induction fs as [|f fs IH]; intros [|x vals]; simpl; try discriminate.
  destruct (String.eqb (fname f) name) eqn:E; cbn [field_value]; rewrite ?E;
    [reflexivity|].
  apply IH.
Qed.

Lemma field_value_set_other fs vals name name' v :
  String.eqb name name' = false ->
  field_value fs (set_field_value fs vals name v) name' = field_value fs vals name'.
Proof.
  intros Hn. revert vals. induction fs as [|f fs IH]; intros [|x vals]; simpl;
    try reflexivity.
  destruct (String.eqb (fname f) name) eqn:E; simpl.
  - apply String.eqb_eq in E. rewrite E, Hn. reflexivity.
  - destruct (String.eqb (fname f) name'); [reflexivity | apply IH].
Qed.

Lemma set_field_value_same fs vals name v :
  field_value fs vals name = Some v ->
  set_field_value fs vals name v = vals.
Proof.
  revert vals. induction fs as [|f fs IH]; intros [|x vals]; simpl; try reflexivity.
  destruct (String.eqb (fname f) name); [intros [= ->]; reflexivity|].
  intros H. rewrite (IH _ H). reflexivity.
Qed.

Lemma set_field_value_absent fs vals name v :
  field_value fs vals name = None ->
  set_field_value fs vals name v = vals.
Proof.
  revert vals. induction fs as [|f fs IH]; intros [|x vals]; simpl; try reflexivity.
  destruct (String.eqb (fname f) name); [discriminate|].
  intros H. rewrite (IH _ H). reflexivity.
Qed.

Lemma getattr_setattr obj name v old :
  getattr obj name = Some old -> getattr (setattr obj name v) name = Some v.
Proof. destruct obj; try discriminate. apply field_value_set_same. Qed.

Lemma getattr_setattr_other obj name name' v :
  String.eqb name name' = false ->
  getattr (setattr obj name v) name' = getattr obj name'.
Proof. intros Hn. destruct obj; try reflexivity. apply field_value_set_other, Hn. Qed.

Lemma setattr_same obj name v :
  getattr obj name = Some v -> setattr obj name v = obj.
Proof.
  destruct obj; try discriminate. intros H. simpl.
  rewrite (set_field_value_same _ _ _ _ H). reflexivity.
Qed.

Lemma setattr_absent obj name v :
  getattr obj name = None -> setattr obj name v = obj.
Proof.
  destruct obj; try reflexivity. intros H. simpl.
  rewrite (set_field_value_absent _ _ _ _ H). reflexivity.
Qed.

Lemma isinstance_setattr obj name v c :
  isinstance (setattr obj name v) c = isinstance obj c.
Proof. destruct obj; reflexivity. Qed.

Lemma py_iter_or_list l : py_iter (py_or (VList l) (VList [])) = Ok l.
Proof. destruct l; reflexivity. Qed.

Section TimelineServiceProperties.
Context {lib : DatetimeLib} {hooks : Hooks}.
Variable md5_hexdigest : string -> string.
Variable repr : list (string * pyval) -> string.

(** ** [Timeline.doc_by_id] *)

Lemma first_with_id_app pre rest doc_id :
  Forall (fun d' => exists i', getattr d' "id" = Some i'
                               /\ py_eqb i' doc_id = false) pre ->
  first_with_id (pre ++ rest) doc_id = first_with_id rest doc_id.
Proof.
  induction 1 as [|d pre [i [Hi Hne]] _ IH]; [reflexivity|].
  cbn [app first_with_id]. unfold py_getattr. rewrite Hi, Hne. exact IH.
Qed.

Lemma first_with_id_sound docs doc_id d :
  first_with_id docs doc_id = Ok d ->
  d = VNone
  \/ (In d docs /\ exists i, getattr d "id" = Some i /\ py_eqb i doc_id = true).
Proof.
  induction docs as [|d0 docs IH]; cbn [first_with_id].
  - intros [= <-]. left. reflexivity.
  - unfold py_getattr. destruct (getattr d0 "id") as [i|] eqn:Ei; [|discriminate].
    destruct (py_eqb i doc_id) eqn:Eq.
    + intros [= <-]. right. split; [left; reflexivity|]. exists i. split; assumption.
    + intros H. destruct (IH H) as [-> | [Hin Hx]]; [left; reflexivity|].
      right. split; [right; exact Hin | exact Hx].
Qed.

(** X12. [doc_by_id] returns the first document, in the order of the
    list, whose [id] equals the identifier asked for, and [None] when every
    document has another [id]; what it returns is [None] or a document of
    the list with that [id]. *)
Theorem doc_by_id_returns_first_match self docs doc_id :
  getattr self "documents" = Some (VList docs) ->
  (forall pre d post i,
      docs = (pre ++ d :: post)%list ->
      Forall (fun d' => exists i', getattr d' "id" = Some i'
                                   /\ py_eqb i' (VStr doc_id) = false) pre ->
      getattr d "id" = Some i ->
      py_eqb i (VStr doc_id) = true ->
      doc_by_id self doc_id = Ok d)
  /\ (Forall (fun d' => exists i', getattr d' "id" = Some i'
                                   /\ py_eqb i' (VStr doc_id) = false) docs ->
      doc_by_id self doc_id = Ok VNone)
  /\ (forall d,
         doc_by_id self doc_id = Ok d ->
         d = VNone
         \/ (In d docs
             /\ exists i, getattr d "id" = Some i /\ py_eqb i (VStr doc_id) = true)).
Proof.
  intros Hdocs. unfold doc_by_id, py_getattr. rewrite Hdocs. cbn [py_iter].
  split; [|split].
  - intros pre d post i -> Hpre Hi Heq.
    rewrite (first_with_id_app _ _ _ Hpre). cbn [first_with_id].
    unfold py_getattr. rewrite Hi, Heq. reflexivity.
  - intros Hall. rewrite <- (app_nil_r docs).
    rewrite (first_with_id_app _ _ _ Hall). reflexivity.
  - intros d. apply first_with_id_sound.
Qed.

(** X13. The lookup reads the attribute [id] of each document up to the
    first match: a document that is not an instance (a mapping, as
    [from_dict] leaves the documents of a stored timeline) before any match
    raises [AttributeError]. *)
Theorem doc_by_id_needs_instances self pre d post doc_id :
  getattr self "documents" = Some (VList (pre ++ d :: post)%list) ->
  Forall (fun d' => exists i', getattr d' "id" = Some i'
                               /\ py_eqb i' (VStr doc_id) = false) pre ->
  getattr d "id" = None ->
  doc_by_id self doc_id = Raise AttributeError.
Proof.
  intros Hdocs Hpre Hd. unfold doc_by_id, py_getattr. rewrite Hdocs. cbn [py_iter].
  rewrite (first_with_id_app _ _ _ Hpre). cbn [first_with_id].
  unfold py_getattr. rewrite Hd. reflexivity.
Qed.

(** ** Chunks *)

Lemma declared_ContentChunk_from_dict items :
  exists vals, from_dict Declared.ContentChunk (VDict items)
               = Ok (VObj Declared.ContentChunk vals).
Proof.
  destruct (text_annotated_from_dict_total Declared.ContentChunk items
              eq_refl eq_refl eq_refl) as [vals [H _]].
  exists vals. exact H.
Qed.

Lemma normalize_chunk_ok chunk :
  exists x,
    _normalize_chunk md5_hexdigest chunk = Ok x
    /\ (x = VNone \/ isinstance x Declared.ContentChunk = true).
Proof.
  destruct chunk as [ | b | n | s | dt | l | l | items | c vals ];
    try (exists VNone; split; [reflexivity | left; reflexivity]).
  - eexists. split; [reflexivity | right; reflexivity].
  - destruct (declared_ContentChunk_from_dict items) as [vals H].
    exists (VObj Declared.ContentChunk vals). split; [exact H | right; reflexivity].
  - cbn [_normalize_chunk].
    destruct (isinstance (VObj c vals) Declared.ContentChunk) eqn:E.
    + eexists. split; [reflexivity | right; exact E].
    + exists VNone. split; [reflexivity | left; reflexivity].
Qed.

Lemma normalize_chunk_list_ok l :
  exists xs,
    normalize_chunk_list md5_hexdigest l = Ok xs
    /\ Forall (fun x => isinstance x Declared.ContentChunk = true) xs
    /\ (List.length xs <= List.length l)%nat.
Proof.
  induction l as [|chunk l [xs [Hxs [Hall Hlen]]]].
  - exists []. repeat split; [constructor | apply Nat.le_refl].
  - destruct (normalize_chunk_ok chunk) as [x [Hx Hcase]].
    cbn [normalize_chunk_list]. rewrite Hx, Hxs.
    destruct Hcase as [-> | Hinst].
    + exists xs. cbn [is_None]. repeat split; [exact Hall | simpl; lia].
    + destruct x; try discriminate Hinst. cbn [is_None].
      eexists. repeat split; [constructor; assumption | simpl; lia].
Qed.

Lemma normalize_chunk_list_fixed xs :
  Forall (fun x => isinstance x Declared.ContentChunk = true) xs ->
  normalize_chunk_list md5_hexdigest xs = Ok xs.
Proof.
  induction 1 as [|x xs Hx _ IH]; [reflexivity|].
  cbn [normalize_chunk_list]. destruct x; try discriminate Hx.
  cbn [_normalize_chunk]. rewrite Hx, IH. reflexivity.
Qed.

Lemma normalize_chunks_shape chunks r :
  _normalize_chunks md5_hexdigest chunks = Ok r ->
  exists xs, r = VList xs
             /\ Forall (fun x => isinstance x Declared.ContentChunk = true) xs.
Proof.
  unfold _normalize_chunks.
  destruct (py_iter (py_or chunks (VList []))) as [l|e]; [|discriminate].
  destruct (normalize_chunk_list_ok l) as [xs [Hxs [Hall _]]]. rewrite Hxs.
  intros [= <-]. exists xs. split; [reflexivity | exact Hall].
Qed.

Lemma normalize_chunks_fixed xs :
  Forall (fun x => isinstance x Declared.ContentChunk = true) xs ->
  _normalize_chunks md5_hexdigest (VList xs) = Ok (VList xs).
Proof.
  intros H. unfold _normalize_chunks.
  rewrite py_iter_or_list, (normalize_chunk_list_fixed xs H). reflexivity.
Qed.

(** X14. Whatever the hooks return, [_normalize_chunks] of a list never
    raises: it returns a list of [ContentChunk] instances, no longer than
    the input ([None] and payloads that are neither an instance, a mapping
    nor a string are dropped), and of an absent list ([None]) the empty
    list. *)
Theorem normalize_chunks_gives_chunks l :
  (exists xs,
      _normalize_chunks md5_hexdigest (VList l) = Ok (VList xs)
      /\ Forall (fun x => isinstance x Declared.ContentChunk = true) xs
      /\ (List.length xs <= List.length l)%nat)
  /\ _normalize_chunks md5_hexdigest VNone = Ok (VList []).
Proof.
  split; [|reflexivity].
  destruct (normalize_chunk_list_ok l) as [xs [Hxs H]].
  exists xs. split; [|exact H].
  unfold _normalize_chunks. rewrite py_iter_or_list, Hxs. reflexivity.
Qed.

(** X15. [_normalize_chunks] is idempotent: what it returns, for any
    payload, it returns unchanged when applied again. *)
Theorem normalize_chunks_idempotent chunks r :
  _normalize_chunks md5_hexdigest chunks = Ok r ->
  _normalize_chunks md5_hexdigest r = Ok r.
Proof.
  intros H. destruct (normalize_chunks_shape _ _ H) as [xs [-> Hall]].
  apply normalize_chunks_fixed. exact Hall.
Qed.

End TimelineServiceProperties.
Lemma py_or_list l : py_or (VList l) (VList []) = VList l.
Proof. destruct l; reflexivity. Qed.

Section NormalizeProperties.
Context {lib : DatetimeLib} {hooks : Hooks}.
Variable md5_hexdigest : string -> string.
Variable repr : list (string * pyval) -> string.

(** ** Documents and timelines *)

Lemma normalize_document_shape document d :
  _normalize_document md5_hexdigest repr document = Ok d ->
  isinstance d Declared.TimelineDocument = true
  /\ exists xs, getattr d "content_text" = Some (VList xs)
                /\ Forall (fun x => isinstance x Declared.ContentChunk = true) xs.
Proof.
  unfold _normalize_document. intros H.
  match type of H with
  | match ?s with _ => _ end = _ => destruct s as [model|e] eqn:Em; [|discriminate]
  end.
  assert (Hi : isinstance model Declared.TimelineDocument = true).
  { destruct document as [ | b | n | s | dt | l | l | items | c vals ];
      try discriminate Em.
    - match type of Em with
      | match ?s with _ => _ end = _ => destruct s as [payload|e]; [|discriminate]
      end.
      destruct (from_dict_instance _ _ _ Em) as [vals [-> _]]. reflexivity.
    - destruct (isinstance (VObj c vals) Declared.TimelineDocument) eqn:E;
        [|discriminate].
      injection Em as <-. exact E. }
  unfold py_getattr in H.
  destruct (getattr model "content_text") as [ct|] eqn:Ect; [|discriminate].
  destruct (_normalize_chunks md5_hexdigest (py_or ct (VList []))) as [r|e] eqn:Er;
    [|discriminate].
  injection H as <-.
  destruct (normalize_chunks_shape _ _ _ Er) as [xs [-> Hall]].
  rewrite isinstance_setattr. split; [exact Hi|].
  exists xs. split; [|exact Hall]. apply (getattr_setattr _ _ _ _ Ect).
Qed.

Lemma normalize_document_fixed d xs :
  isinstance d Declared.TimelineDocument = true ->
  getattr d "content_text" = Some (VList xs) ->
  Forall (fun x => isinstance x Declared.ContentChunk = true) xs ->
  _normalize_document md5_hexdigest repr d = Ok d.
Proof.
  intros Hi Hct Hall. destruct d as [ | | | | | | | | c vals ]; try discriminate Hi.
  unfold _normalize_document. rewrite Hi. unfold py_getattr. rewrite Hct.
  rewrite py_or_list, (normalize_chunks_fixed md5_hexdigest xs Hall).
  rewrite (setattr_same _ _ _ Hct). reflexivity.
Qed.

Lemma normalize_document_twice document d :
  _normalize_document md5_hexdigest repr document = Ok d ->
  _normalize_document md5_hexdigest repr d = Ok d.
Proof.
  intros H. destruct (normalize_document_shape _ _ H) as [Hi [xs [Hct Hall]]].
  apply (normalize_document_fixed d xs Hi Hct Hall).
Qed.

Lemma normalize_document_list_twice docs ds :
  normalize_document_list md5_hexdigest repr docs = Ok ds ->
  normalize_document_list md5_hexdigest repr ds = Ok ds.
Proof.
  revert ds. induction docs as [|doc docs IH]; intros ds; cbn [normalize_document_list].
  - intros [= <-]. reflexivity.
  - destruct (_normalize_document md5_hexdigest repr doc) as [d|e] eqn:Ed;
      [|discriminate].
    destruct (normalize_document_list md5_hexdigest repr docs) as [ds'|e];
      [|discriminate].
    intros [= <-]. cbn [normalize_document_list].
    rewrite (normalize_document_twice _ _ Ed), (IH ds' eq_refl). reflexivity.
Qed.

Lemma normalize_timeline_twice timeline t :
  _normalize_timeline md5_hexdigest repr timeline = Ok t ->
  _normalize_timeline md5_hexdigest repr t = Ok t.
Proof.
  unfold _normalize_timeline at 1. intros H.
  match type of H with
  | match ?s with _ => _ end = _ => destruct s as [model|e] eqn:Em; [|discriminate]
  end.
  assert (Hi : exists c vals, model = VObj c vals
                              /\ isinstance model Declared.Timeline = true).
  { destruct timeline as [ | b | n | s | dt | l | l | items | c vals ];
      try discriminate Em.
    - destruct (from_dict_instance _ _ _ Em) as [vals [-> _]].
      exists Declared.Timeline, vals. split; reflexivity.
    - destruct (isinstance (VObj c vals) Declared.Timeline) eqn:E; [|discriminate].
      injection Em as <-. exists c, vals. split; [reflexivity | exact E]. }
  destruct Hi as [c [vals [-> Hi]]].
  destruct (py_iter match getattr (VObj c vals) "documents" with
                    | Some documents => documents
                    | None => VList []
                    end) as [docs|e] eqn:Eit; [|discriminate].
  destruct (normalize_document_list md5_hexdigest repr docs) as [ds|e] eqn:Eds;
    [|discriminate].
  injection H as <-.
  pose proof (normalize_document_list_twice _ _ Eds) as Hds.
  destruct (getattr (VObj c vals) "documents") as [old|] eqn:Eg.
  - pose proof (getattr_setattr _ _ (VList ds) _ Eg) as Hg.
    unfold _normalize_timeline. cbn [setattr]. cbn [setattr] in Hg.
    cbn [isinstance] in *. rewrite Hi, Hg. cbn [py_iter]. rewrite Hds.
    f_equal. apply (setattr_same _ _ _ Hg).
  - cbn [py_iter] in Eit. injection Eit as <-.
    cbn [normalize_document_list] in Eds. injection Eds as <-.
    rewrite (set_field_value_absent (fields c) vals "documents" (VList []) Eg).
    unfold _normalize_timeline. rewrite Hi, Eg. cbn [py_iter normalize_document_list].
    rewrite (setattr_absent _ _ _ Eg). reflexivity.
Qed.

(** X16. Normalising is idempotent: a document or a timeline that
    [_normalize_document] or [_normalize_timeline] returned, for any
    payload, is returned unchanged when normalised again; a normalised
    document is a [TimelineDocument] whose [content_text] holds
    [ContentChunk] instances only. *)
Theorem normalize_is_idempotent :
  (forall document d,
      _normalize_document md5_hexdigest repr document = Ok d ->
      _normalize_document md5_hexdigest repr d = Ok d
      /\ isinstance d Declared.TimelineDocument = true
      /\ exists xs, getattr d "content_text" = Some (VList xs)
                    /\ Forall (fun x => isinstance x Declared.ContentChunk = true) xs)
  /\ (forall timeline t,
         _normalize_timeline md5_hexdigest repr timeline = Ok t ->
         _normalize_timeline md5_hexdigest repr t = Ok t).
Proof.
  split.
  - intros document d H. split; [apply (normalize_document_twice _ _ H)|].
    apply (normalize_document_shape _ _ H).
  - apply normalize_timeline_twice.
Qed.

Hypothesis no_deserialize_hook : forall c n v t, _deserialize_field c n v t = None.

(** X17. The documents of a timeline are iterated without a guard, the
    chunks of a document under [or []]: a stored timeline whose [documents]
    is [null] makes [_normalize_timeline] raise [TypeError], one without the
    key is normalised to a timeline with no documents, and a stored
    document whose [content_text] is [null] is normalised to a document
    with no chunks. *)
Theorem null_documents_raise items :
  (dict_get items "documents" = Some VNone ->
   _normalize_timeline md5_hexdigest repr (VDict items) = Raise TypeError)
  /\ (dict_get items "documents" = None ->
      exists t, _normalize_timeline md5_hexdigest repr (VDict items) = Ok t
                /\ getattr t "documents" = Some (VList []))
  /\ (dict_get items "content_text" = Some VNone ->
      dict_get items "doc_identifier" = None ->
      exists d, _normalize_document md5_hexdigest repr (VDict items) = Ok d
                /\ getattr d "content_text" = Some (VList [])).
Proof.
  split; [|split].
  - intros Hk. unfold _normalize_timeline.
    destruct (text_annotated_from_dict no_deserialize_hook Declared.Timeline items
                eq_refl eq_refl eq_refl) as [vals [Hf Hg]].
    rewrite Hf.
    assert (H : getattr (VObj Declared.Timeline vals) "documents" = Some VNone).
    { pose proof (Hg (Field "documents" (TPlain "'List[TimelineDocument]'")
                        (DefaultFactory FList))
                     (or_intror (or_intror (or_introl eq_refl)))) as H.
      cbn [fname] in H. rewrite Hk in H. exact H. }
    rewrite H. reflexivity.
  - intros Hk. unfold _normalize_timeline.
    destruct (text_annotated_from_dict no_deserialize_hook Declared.Timeline items
                eq_refl eq_refl eq_refl) as [vals [Hf Hg]].
    rewrite Hf.
    assert (H : getattr (VObj Declared.Timeline vals) "documents" = Some (VList [])).
    { pose proof (Hg (Field "documents" (TPlain "'List[TimelineDocument]'")
                        (DefaultFactory FList))
                     (or_intror (or_intror (or_introl eq_refl)))) as H.
      cbn [fname] in H. rewrite Hk in H. exact H. }
    rewrite H. cbn [py_iter normalize_document_list].
    eexists. split; [reflexivity|].
    apply (getattr_setattr _ _ _ _ H).
  - intros Hk Hn. unfold _normalize_document.
    unfold dict_contains at 1. rewrite Hn. cbn [andb].
    destruct (text_annotated_from_dict no_deserialize_hook Declared.TimelineDocument
                items eq_refl eq_refl eq_refl) as [vals [Hf Hg]].
    rewrite Hf.
    assert (H : getattr (VObj Declared.TimelineDocument vals) "content_text"
                = Some VNone).
    { pose proof (Hg (Field "content_text" (TPlain "'List[ContentChunk]'")
                        (DefaultFactory FList))
                     (or_intror (or_intror (or_intror (or_intror (or_intror
                        (or_intror (or_introl eq_refl)))))))) as H.
      cbn [fname] in H. rewrite Hk in H. exact H. }
    unfold py_getattr. rewrite H.
    eexists. split; [reflexivity|]. apply (getattr_setattr _ _ _ _ H).
Qed.

End NormalizeProperties.
Section StoredTimelines.
Context {lib : DatetimeLib} {hooks : Hooks}.
Variable md5_hexdigest : string -> string.
Variable repr : list (string * pyval) -> string.

Hypothesis no_serialize_hook : forall c n v t, _serialize_field c n v t = None.
Hypothesis no_deserialize_hook : forall c n v t, _deserialize_field c n v t = None.

Ltac split_plain H :=
  cbn [forallb] in H;
  repeat (let H1 := fresh "Hp" in
          apply andb_true_iff in H; destruct H as [H1 H]).

Lemma to_dict_chunk a b :
  plain a = true -> plain b = true ->
  to_dict Declared.ContentChunk [a; b]
  = VDict [("chunk_identifier", a); ("content", b)].
Proof.
  intros Ha Hb. unfold to_dict.
  rewrite (serialize_fields_append _ (fields Declared.ContentChunk) [a; b] []
             eq_refl (fresh_nil _) eq_refl).
  simpl. rewrite !(serialize_plain no_serialize_hook) by assumption. reflexivity.
Qed.

Lemma normalize_stored_chunk x self name t :
  chunk_record x ->
  _normalize_chunk md5_hexdigest (_serialize_value self name x t) = Ok x.
Proof.
  intros [a [b [-> [Ha Hb]]]].
  rewrite (serialize_record no_serialize_hook self name Declared.ContentChunk
             [a; b] t eq_refl).
  change (_normalize_chunk md5_hexdigest (to_dict Declared.ContentChunk [a; b]))
    with (from_dict Declared.ContentChunk (to_dict Declared.ContentChunk [a; b])).
  rewrite (from_dict_to_dict_text no_deserialize_hook Declared.ContentChunk [a; b]
             eq_refl eq_refl eq_refl).
  simpl. unfold encoded_value. simpl.
  rewrite !(serialize_plain no_serialize_hook) by assumption. reflexivity.
Qed.

Lemma normalize_stored_chunks chunks self name :
  Forall chunk_record chunks ->
  normalize_chunk_list md5_hexdigest
    (map (fun v => _serialize_value self name v (TPlain "None")) chunks)
  = Ok chunks.
Proof.
  induction 1 as [|x chunks Hx _ IH]; [reflexivity|].
  cbn [map normalize_chunk_list].
  rewrite (normalize_stored_chunk x self name _ Hx), IH.
  destruct Hx as [a [b [-> _]]]. reflexivity.
Qed.

Lemma normalize_stored_document d self name t :
  document_record d ->
  _normalize_document md5_hexdigest repr (_serialize_value self name d t) = Ok d.
Proof.
  intros [id [title [created_at [publisher [summary [link [chunks [info
            [-> [Hp Hchunks]]]]]]]]]].
  split_plain Hp.
  rewrite (serialize_record no_serialize_hook self name Declared.TimelineDocument
             [id; title; created_at; publisher; summary; link; VList chunks; info]
             t eq_refl).
  set (vals := [id; title; created_at; publisher; summary; link; VList chunks; info]).
  assert (E : to_dict Declared.TimelineDocument vals
              = VDict [("id", id); ("title", title); ("created_at", created_at);
                       ("publisher", publisher); ("summary", summary);
                       ("publisher_link", link);
                       ("content_text",
                        VList (map (fun v => _serialize_value Declared.TimelineDocument
                                               "content_text" v (TPlain "None")) chunks));
                       ("informatieobject", info)]).
  { unfold to_dict, vals.
    rewrite (serialize_fields_append _ (fields Declared.TimelineDocument)
               [id; title; created_at; publisher; summary; link; VList chunks; info]
               [] eq_refl (fresh_nil _) eq_refl).
    cbn [app combine map fst snd fname ftype fields Declared.TimelineDocument base_model].
    rewrite (serialize_List _ _ _ _ (no_serialize_hook _ _ _ _)).
    rewrite !(serialize_plain no_serialize_hook) by assumption. reflexivity. }
  rewrite E. unfold _normalize_document.
  match goal with
  | |- context [dict_contains ?d "doc_identifier"] =>
      change (dict_contains d "doc_identifier") with false
  end.
  cbn [andb]. rewrite <- E.
  rewrite (from_dict_to_dict_text no_deserialize_hook Declared.TimelineDocument vals
             eq_refl eq_refl eq_refl).
  unfold vals.
  cbn [combine map fields Declared.TimelineDocument base_model].
  unfold encoded_value. cbn [fst snd fname ftype].
  rewrite (serialize_List _ _ _ _ (no_serialize_hook _ _ _ _)).
  rewrite !(serialize_plain no_serialize_hook) by assumption.
  match goal with
  | |- context [py_getattr ?m "content_text"] =>
      change (py_getattr m "content_text")
        with (Ok (VList (map (fun v => _serialize_value Declared.TimelineDocument
                                         "content_text" v (TPlain "None")) chunks)))
  end.
  cbv beta iota. rewrite py_or_list. unfold _normalize_chunks.
  rewrite py_iter_or_list, (normalize_stored_chunks chunks _ _ Hchunks).
  reflexivity.
Qed.

Lemma normalize_stored_documents docs self name :
  Forall document_record docs ->
  normalize_document_list md5_hexdigest repr
    (map (fun v => _serialize_value self name v (TPlain "None")) docs)
  = Ok docs.
Proof.
  induction 1 as [|d docs Hd _ IH]; [reflexivity|].
  cbn [map normalize_document_list].
  rewrite (normalize_stored_document d self name _ Hd), IH. reflexivity.
Qed.

Lemma normalize_stored_timeline_any identifier name docs beschrijving g :
  plain identifier = true -> plain name = true -> plain beschrijving = true ->
  Forall document_record docs ->
  from_dict Declared.Timeline
    (to_dict Declared.Timeline [identifier; name; VList docs; beschrijving; g])
  = Ok (VObj Declared.Timeline
          (map (encoded_value Declared.Timeline)
               (combine (fields Declared.Timeline)
                        [identifier; name; VList docs; beschrijving; g])))
  /\ _normalize_timeline md5_hexdigest repr
       (VObj Declared.Timeline
          (map (encoded_value Declared.Timeline)
               (combine (fields Declared.Timeline)
                        [identifier; name; VList docs; beschrijving; g])))
     = Ok (VObj Declared.Timeline
             [identifier; name; VList docs; beschrijving;
              _serialize_value Declared.Timeline "gegenereerd_op" g
                               (TPlain "'Optional[datetime]'")]).
Proof.
  intros Hi Hn Hb Hdocs.
  split;
    [apply (from_dict_to_dict_text no_deserialize_hook Declared.Timeline
              [identifier; name; VList docs; beschrijving; g]
              eq_refl eq_refl eq_refl)|].
  cbn [combine map fields Declared.Timeline base_model].
  unfold encoded_value. cbn [fst snd fname ftype].
  rewrite (serialize_List _ _ _ _ (no_serialize_hook _ _ _ _)).
  rewrite (serialize_plain no_serialize_hook identifier Hi).
  rewrite (serialize_plain no_serialize_hook name Hn).
  rewrite (serialize_plain no_serialize_hook beschrijving Hb).
  unfold _normalize_timeline.
  match goal with
  | |- context [isinstance ?m Declared.Timeline] =>
      change (isinstance m Declared.Timeline) with true
  end.
  cbv beta iota.
  match goal with
  | |- context [getattr ?m "documents"] =>
      change (getattr m "documents")
        with (Some (VList (map (fun v => _serialize_value Declared.Timeline
                                           "documents" v (TPlain "None")) docs)))
  end.
  cbv beta iota. cbn [py_iter].
  rewrite (normalize_stored_documents docs _ _ Hdocs). reflexivity.
Qed.

Lemma normalize_stored_timeline vals :
  timeline_record (VObj Declared.Timeline vals) ->
  from_dict Declared.Timeline (to_dict Declared.Timeline vals)
  = Ok (VObj Declared.Timeline
          (map (encoded_value Declared.Timeline)
               (combine (fields Declared.Timeline) vals)))
  /\ _normalize_timeline md5_hexdigest repr
       (VObj Declared.Timeline
          (map (encoded_value Declared.Timeline)
               (combine (fields Declared.Timeline) vals)))
     = Ok (VObj Declared.Timeline vals).
Proof.
  intros [identifier [name [docs [beschrijving [gegenereerd_op [E [Hp Hdocs]]]]]]].
  injection E as ->. split_plain Hp.
  destruct (normalize_stored_timeline_any identifier name docs beschrijving
              gegenereerd_op) as [Hf Hn]; try assumption.
  split; [exact Hf|]. rewrite Hn.
  rewrite (serialize_plain no_serialize_hook gegenereerd_op) by assumption.
  reflexivity.
Qed.

Lemma normalize_timeline_dict items :
  _normalize_timeline md5_hexdigest repr (VDict items)
  = (model <- from_dict Declared.Timeline (VDict items) ;;
     _normalize_timeline md5_hexdigest repr model).
Proof.
  unfold _normalize_timeline at 1.
  destruct (from_dict Declared.Timeline (VDict items)) as [model|e] eqn:E;
    [|reflexivity].
  destruct (from_dict_instance _ _ _ E) as [vals [-> _]]. reflexivity.
Qed.

(** X18. Storing and normalising restores a timeline: for a timeline as
    the service holds it (documents and chunks are instances, the other
    values are values of the generic tree), with no hook overridden,
    [_normalize_timeline] applied to its [to_dict], or to the instance that
    [from_dict] builds from its [to_dict], returns the very timeline. *)
Theorem normalize_restores_stored_timeline vals :
  timeline_record (VObj Declared.Timeline vals) ->
  _normalize_timeline md5_hexdigest repr (to_dict Declared.Timeline vals)
  = Ok (VObj Declared.Timeline vals)
  /\ (model <- from_dict Declared.Timeline (to_dict Declared.Timeline vals) ;;
      _normalize_timeline md5_hexdigest repr model)
     = Ok (VObj Declared.Timeline vals).
Proof.
  intros H. destruct (normalize_stored_timeline vals H) as [Hf Hn].
  assert (G : (model <- from_dict Declared.Timeline (to_dict Declared.Timeline vals) ;;
               _normalize_timeline md5_hexdigest repr model)
              = Ok (VObj Declared.Timeline vals))
    by (rewrite Hf; exact Hn).
  split; [|exact G].
  rewrite <- G. exact (normalize_timeline_dict _).
Qed.

End StoredTimelines.
Section ProcessedDocuments.
Context {lib : DatetimeLib} {hooks : Hooks}.
Variable md5_hexdigest : string -> string.
Variable repr : list (string * pyval) -> string.

Hypothesis no_deserialize_hook : forall c n v t, _deserialize_field c n v t = None.

(** The [id] of the document built from a mapping is the value under the
    key [id], and [None] when the key is absent. *)
Lemma normalized_payload_id items d :
  (model <- from_dict Declared.TimelineDocument (VDict items) ;;
   content_text <- py_getattr model "content_text" ;;
   chunks <- _normalize_chunks md5_hexdigest (py_or content_text (VList [])) ;;
   Ok (setattr model "content_text" chunks)) = Ok d ->
  getattr d "id" = match dict_get items "id" with
                   | Some raw => Some raw
                   | None => Some VNone
                   end.
Proof.
  destruct (text_annotated_from_dict no_deserialize_hook Declared.TimelineDocument
              items eq_refl eq_refl eq_refl) as [vals [Hf Hg]].
  rewrite Hf.
  assert (Hid : getattr (VObj Declared.TimelineDocument vals) "id"
                = match dict_get items "id" with
                  | Some raw => Some raw
                  | None => Some VNone
                  end)
    by exact (Hg (Field "id" (TPlain "'str'") MISSING) (or_introl eq_refl)).
  destruct (py_getattr (VObj Declared.TimelineDocument vals) "content_text")
    as [ct|e]; [|discriminate].
  destruct (_normalize_chunks md5_hexdigest (py_or ct (VList []))) as [chunks|e];
    [|discriminate].
  intros H.
  assert (E : d = setattr (VObj Declared.TimelineDocument vals) "content_text" chunks)
    by congruence.
  rewrite E, getattr_setattr_other by reflexivity. exact Hid.
Qed.

(** X19. A processed document, which has a [doc_identifier] and no [id],
    is renamed before the model is built: the document receives the
    [doc_identifier] as [id] when it is truthy and otherwise the digest of
    its title; a mapping with neither key is taken as it is and the
    document has [None] as [id]. *)
Theorem processed_document_identifier raw d :
  dict_get raw "id" = None ->
  _normalize_document md5_hexdigest repr (VDict raw) = Ok d ->
  (forall i, dict_get raw "doc_identifier" = Some i -> py_truthy i = true ->
             getattr d "id" = Some i)
  /\ (forall i title,
         dict_get raw "doc_identifier" = Some i -> py_truthy i = false ->
         dict_get raw "title" = Some (VStr title) -> truthy title = true ->
         getattr d "id" = Some (VStr (md5_hexdigest title)))
  /\ (dict_get raw "doc_identifier" = None -> getattr d "id" = Some VNone).
Proof.
  intros Hid H. unfold _normalize_document, dict_contains in H. rewrite Hid in H.
  split; [|split].
  - intros i Hdi Ht. rewrite Hdi in H. cbn [andb negb] in H.
    unfold _map_processed_document in H. cbv zeta in H.
    assert (E : py_or (py_get raw "doc_identifier" VNone) (py_get raw "id" VNone) = i)
      by (unfold py_get, py_or; rewrite Hdi, Ht; reflexivity).
    rewrite E, Ht in H. cbv beta iota in H.
    apply normalized_payload_id in H. exact H.
  - intros i title Hdi Hf Htitle Ht. rewrite Hdi in H. cbn [andb negb] in H.
    unfold _map_processed_document in H. cbv zeta in H.
    assert (E : py_or (py_get raw "doc_identifier" VNone) (py_get raw "id" VNone)
                = VNone)
      by (unfold py_get, py_or; rewrite Hdi, Hid, Hf; reflexivity).
    rewrite E in H. cbn [py_truthy] in H.
    assert (E' : py_or (py_or (py_or (py_get raw "title" VNone)
                                     (py_get raw "publisher_link" VNone))
                              (py_get raw "document_link" VNone))
                       (VStr (repr raw)) = VStr title).
    { unfold py_get at 1. rewrite Htitle.
      unfold py_or. cbn [py_truthy]. rewrite Ht. cbn [py_truthy]. rewrite Ht.
      cbn [py_truthy]. rewrite Ht. reflexivity. }
    rewrite E' in H. cbn [md5_of] in H. cbv beta iota in H.
    apply normalized_payload_id in H. exact H.
  - intros Hdi. rewrite Hdi in H. cbn [andb] in H. cbv beta iota in H.
    apply normalized_payload_id in H. rewrite Hid in H. exact H.
Qed.

End ProcessedDocuments.

(** ** [TimelineRepository] *)

Section RepositoryProperties.
Context {lib : DatetimeLib} {hooks : Hooks}.
Variable Client : Type.
Variable os_index : Client -> string -> pyval -> pyval -> Client.
Variable os_get : Client -> string -> string -> option pyval.

(** X20. [get] returns [None] when the client raises and when the answer
    has no [_source] or a falsy one; for a [_source] that is a mapping it
    never raises and returns a [Timeline] instance, whatever the mapping
    holds; the decoding is outside the [try], so a truthy [_source] that
    cannot be searched for keys raises [TypeError] to the caller. *)
Theorem repository_get_results client index identifier :
  (os_get client index identifier = None ->
   repository_get Client os_get client index identifier = Ok VNone)
  /\ (forall items,
         os_get client index identifier = Some (VDict items) ->
         py_truthy (py_get items "_source" VNone) = false ->
         repository_get Client os_get client index identifier = Ok VNone)
  /\ (forall items body,
         os_get client index identifier = Some (VDict items) ->
         dict_get items "_source" = Some (VDict body) ->
         body <> [] ->
         exists vals,
           repository_get Client os_get client index identifier
           = Ok (VObj Declared.Timeline vals))
  /\ (forall items source,
         os_get client index identifier = Some (VDict items) ->
         dict_get items "_source" = Some source ->
         py_truthy source = true ->
         not_iterable source = true ->
         repository_get Client os_get client index identifier = Raise TypeError).
Proof.
  unfold repository_get. split; [|split; [|split]].
  - intros ->. reflexivity.
  - intros items -> Hf. cbn [response_source]. rewrite Hf. reflexivity.
  - intros items body -> Hs Hne. cbn [response_source]. unfold py_get. rewrite Hs.
    destruct body as [|kv body]; [contradiction|]. cbn [py_truthy].
    destruct (text_annotated_from_dict_total Declared.Timeline (kv :: body)
                eq_refl eq_refl eq_refl) as [vals [H _]].
    exists vals. exact H.
  - intros items source -> Hs Ht Hn. cbn [response_source]. unfold py_get.
    rewrite Hs, Ht. destruct source; try discriminate Hn; reflexivity.
Qed.

End RepositoryProperties.

Section StoredAndRestored.
Context {lib : DatetimeLib} {hooks : Hooks}.
Variable md5_hexdigest : string -> string.
Variable repr : list (string * pyval) -> string.
Variable Client : Type.
Variable os_index : Client -> string -> pyval -> pyval -> Client.
Variable os_get : Client -> string -> string -> option pyval.

Hypothesis no_serialize_hook : forall c n v t, _serialize_field c n v t = None.
Hypothesis no_deserialize_hook : forall c n v t, _deserialize_field c n v t = None.

(** The client answers a [get] with the body last indexed under the
    identifier. *)
Hypothesis get_after_index :
  forall client index id body,
  exists items,
    os_get (os_index client index (VStr id) body) index id = Some (VDict items)
    /\ dict_get items "_source" = Some body.

(** X21. With a client that answers a [get] with the body last indexed
    under the identifier, and no hook overridden, take a timeline whose
    identifier is a text, whose documents and chunks are instances and whose
    name and description are values of the generic tree.  [upsert] succeeds, and
    [get] of its identifier followed by [_normalize_timeline] returns the
    timeline with every field as it was, save [gegenereerd_op], which comes
    back as it was encoded: unchanged when it is a value of the generic
    tree ([None], a text), and as its ISO-8601 text in the output zone when
    it is a date/time, as [summarize] sets it. *)
Theorem upsert_then_get_restores client index identifier name docs beschrijving
        gegenereerd_op :
  plain name = true ->
  plain beschrijving = true ->
  Forall document_record docs ->
  exists client' stored_date,
    upsert Client os_index client index
      (VObj Declared.Timeline
         [VStr identifier; name; VList docs; beschrijving; gegenereerd_op])
    = Ok client'
    /\ (stored <- repository_get Client os_get client' index identifier ;;
        _normalize_timeline md5_hexdigest repr stored)
       = Ok (VObj Declared.Timeline
               [VStr identifier; name; VList docs; beschrijving; stored_date])
    /\ (plain gegenereerd_op = true -> stored_date = gegenereerd_op)
    /\ (forall dt,
           gegenereerd_op = VDatetime dt ->
           stored_date = VStr (isoformat (in_output_zone Declared.Timeline dt))).
Proof.
  intros Hn Hb Hdocs.
  destruct (normalize_stored_timeline_any md5_hexdigest repr
              no_serialize_hook no_deserialize_hook
              (VStr identifier) name docs beschrijving gegenereerd_op
              eq_refl Hn Hb Hdocs) as [Hf Hnorm].
  unfold upsert, py_getattr.
  change (getattr (VObj Declared.Timeline
                     [VStr identifier; name; VList docs; beschrijving; gegenereerd_op])
                  "identifier") with (Some (VStr identifier)).
  cbn [_doc_to_source].
  change (is_base_model Declared.Timeline) with true. cbv beta iota.
  eexists. eexists. split; [reflexivity|]. split; [|split].
  - unfold repository_get.
    destruct (get_after_index client index identifier
                (to_dict Declared.Timeline
                   [VStr identifier; name; VList docs; beschrijving; gegenereerd_op]))
      as [items [-> Hs]].
    cbn [response_source]. unfold py_get. rewrite Hs.
    change (py_truthy (to_dict Declared.Timeline
                         [VStr identifier; name; VList docs; beschrijving;
                          gegenereerd_op])) with true.
    cbv beta iota. unfold _source_to_doc. rewrite Hf. exact Hnorm.
  - intros Hp. apply (serialize_plain no_serialize_hook). exact Hp.
  - intros dt ->. cbn [_serialize_value]. rewrite no_serialize_hook. reflexivity.
Qed.

End StoredAndRestored.
(** ** [DocumentRepository] *)

Lemma In_py_range p start stop :
  In p (py_range start stop) <-> start <= p < stop.
Proof.
  unfold py_range. rewrite in_map_iff. split.
  - intros [i [<- Hi]]. apply in_seq in Hi. lia.
  - intros H. exists (Z.to_nat (p - start)). split; [lia|]. apply in_seq. lia.
Qed.

(** X22. The pages requested are 1, 2, ... in ascending order up to the
    number of pages found, and up to [max_pages] when it is not 0; 0 means
    no limit, and a negative [max_pages] requests no page at all. *)
Theorem iterate_pages_bounds total_pages max_pages :
  (forall p, In p (_iterate_pages total_pages max_pages)
             <-> 1 <= p <= total_pages /\ (max_pages = 0 \/ p <= max_pages))
  /\ (forall i, (i < List.length (_iterate_pages total_pages max_pages))%nat ->
                nth i (_iterate_pages total_pages max_pages) 0 = Z.of_nat i + 1)
  /\ (max_pages < 0 -> _iterate_pages total_pages max_pages = []).
Proof.
  unfold _iterate_pages. split; [|split].
  - intros p. rewrite In_py_range.
    destruct (max_pages =? 0) eqn:E; cbn [negb].
    + apply Z.eqb_eq in E. lia.
    + apply Z.eqb_neq in E. lia.
  - intros i. unfold py_range.
    set (n := Z.to_nat _). rewrite length_map, length_seq. intros Hi.
    rewrite (nth_indep _ 0 (1 + Z.of_nat 0))
      by (rewrite length_map, length_seq; exact Hi).
    pose proof (map_nth (fun i => 1 + Z.of_nat i) (seq 0 n) 0%nat i) as M.
    cbv beta in M. rewrite M, seq_nth by exact Hi. lia.
  - intros Hneg. destruct (max_pages =? 0) eqn:E; cbn [negb].
    + apply Z.eqb_eq in E. lia.
    + unfold py_range.
      replace (Z.to_nat (Z.min total_pages max_pages + 1 - 1)) with 0%nat by lia.
      reflexivity.
Qed.

Lemma existsb_same_elements {A : Type} (P : A -> bool) l l' :
  (forall x, In x l <-> In x l') -> existsb P l = existsb P l'.
Proof.
  intros H. apply Bool.eq_iff_eq_true. rewrite !existsb_exists.
  split; intros [x [Hin Hx]]; exists x; (split; [apply H; exact Hin | exact Hx]).
Qed.

Lemma map_same_elements {A B : Type} (f : A -> B) l l' :
  (forall x, In x l <-> In x l') ->
  forall y, In y (map f l) <-> In y (map f l').
Proof.
  intros H y. rewrite !in_map_iff.
  split; intros [x [Hx Hin]]; exists x; (split; [exact Hx | apply H; exact Hin]).
Qed.

Lemma filter_none {A : Type} (f : A -> bool) l :
  (forall x, In x l -> f x = false) -> filter f l = [].
Proof.
  induction l as [|x l IH]; intros H; [reflexivity|]. simpl.
  rewrite (H x (or_introl eq_refl)). apply IH. intros y Hy. apply H. right. exact Hy.
Qed.

Lemma selected_fragments_nil normalized :
  selected_fragments normalized = []
  <-> forall key fragment,
        In (key, fragment) DOCUMENT_TYPE_FRAGMENTS ->
        existsb (fun doc_type => str_contains key doc_type) normalized = false.
Proof.
  unfold selected_fragments. split.
  - intros H key fragment Hin.
    destruct (existsb (fun doc_type => str_contains key doc_type) normalized) eqn:E;
      [|reflexivity].
    exfalso.
    assert (Hf : In (key, fragment)
                    (filter (fun kf => existsb (fun doc_type =>
                                                  str_contains (fst kf) doc_type)
                                               normalized)
                            DOCUMENT_TYPE_FRAGMENTS))
      by (apply filter_In; split; [exact Hin | exact E]).
    apply (in_map snd) in Hf. rewrite H in Hf. exact Hf.
  - intros H. rewrite filter_none; [reflexivity|].
    intros [key fragment] Hin. cbn [fst]. apply (H key fragment Hin).
Qed.

Section PublicationFilterProperties.
Variable lower : string -> string.

(** X23. The publication filter depends on which document types are
    selected, not on their order or on repetitions: two selections with the
    same elements give the same filter, or both fail. *)
Theorem publication_filter_ignores_order document_types document_types' :
  (forall t, In t document_types <-> In t document_types') ->
  _determine_publication_filter lower document_types
  = _determine_publication_filter lower document_types'.
Proof.
  intros H. unfold _determine_publication_filter. cbv zeta.
  pose proof (map_same_elements lower _ _ H) as Hn.
  assert (E1 : match map lower document_types with [] => true | _ => false end
               = match map lower document_types' with [] => true | _ => false end).
  { destruct document_types as [|t l], document_types' as [|t' l']; try reflexivity.
    - exfalso. apply (proj2 (H t')). left. reflexivity.
    - exfalso. apply (proj1 (H t)). left. reflexivity. }
  rewrite E1, (existsb_same_elements _ _ _ Hn).
  assert (E3 : selected_fragments (map lower document_types)
               = selected_fragments (map lower document_types')).
  { unfold selected_fragments. f_equal. apply filter_ext. intros kf.
    apply (existsb_same_elements _ _ _ Hn). }
  rewrite E3. reflexivity.
Qed.

Lemma publication_filter_failure_aux document_types :
  _determine_publication_filter lower document_types = None
  <-> document_types <> []
      /\ existsb (String.eqb "alle parlementaire documenten")
                 (map lower document_types) = false
      /\ forall key fragment,
           In (key, fragment) DOCUMENT_TYPE_FRAGMENTS ->
           existsb (fun doc_type => str_contains key doc_type)
                   (map lower document_types) = false.
Proof.
  unfold _determine_publication_filter. cbv zeta.
  rewrite <- selected_fragments_nil.
  destruct document_types as [|t l].
  - cbn [map orb]. split; [discriminate|]. intros [H _]. contradiction.
  - cbn [map orb].
    destruct (existsb (String.eqb "alle parlementaire documenten")
                      (lower t :: map lower l)).
    + split; [discriminate|]. intros [_ [H _]]. discriminate.
    + destruct (selected_fragments (lower t :: map lower l)) as [|f1 [|f2 fs]].
      * split; [intros _; repeat split; discriminate | reflexivity].
      * split; [discriminate|]. intros [_ [_ H]]. discriminate.
      * split; [discriminate|]. intros [_ [_ H]]. discriminate.
Qed.

(** X24. [DocumentsNotFound] is raised exactly for a selection that is not
    empty, does not hold "alle parlementaire documenten" in any case of
    letters, and in which no type contains one of the five keys of
    [DOCUMENT_TYPE_FRAGMENTS]; the empty selection gives the filter of all
    publications. *)
Theorem publication_filter_failure document_types :
  (_determine_publication_filter lower document_types = None
   <-> document_types <> []
       /\ existsb (String.eqb "alle parlementaire documenten")
                  (map lower document_types) = false
       /\ forall key fragment,
            In (key, fragment) DOCUMENT_TYPE_FRAGMENTS ->
            existsb (fun doc_type => str_contains key doc_type)
                    (map lower document_types) = false)
  /\ _determine_publication_filter lower [] = Some ALL_PUBLICATIONS_FILTER.
Proof.
  split; [apply publication_filter_failure_aux | reflexivity].
Qed.

(** X25. With a [lower] that maps the document types the application
    offers to their lower-case spelling, no selection of offered types
    fails: each of them is "alle parlementaire documenten" or contains a
    key of [DOCUMENT_TYPE_FRAGMENTS]. *)
Theorem offered_types_give_a_filter document_types :
  map lower AVAILABLE_DOCUMENT_TYPES
  = ["alle parlementaire documenten"; "handelingen"; "motie"; "kamervragen";
     "kamerstukken"; "agenda's"] ->
  (forall t, In t document_types -> In t AVAILABLE_DOCUMENT_TYPES) ->
  exists filter, _determine_publication_filter lower document_types = Some filter.
Proof.
  intros Hl Hsub.
  destruct (_determine_publication_filter lower document_types) as [f|] eqn:E;
    [exists f; reflexivity|].
  exfalso. apply (proj1 (publication_filter_failure_aux document_types)) in E.
  destruct E as [Hne [Hall Hkeys]].
  destruct document_types as [|t l]; [contradiction|].
  cbn [map existsb] in Hall, Hkeys.
  injection Hl as H1 H2 H3 H4 H5 H6.
  destruct (Hsub t (or_introl eq_refl)) as [<- | [<- | [<- | [<- | [<- | [<- | []]]]]]].
  - rewrite H1 in Hall. discriminate Hall.
  - specialize (Hkeys "handelingen" _ (or_introl eq_refl)).
    rewrite H2 in Hkeys. discriminate Hkeys.
  - specialize (Hkeys "motie" _ (or_intror (or_introl eq_refl))).
    rewrite H3 in Hkeys. discriminate Hkeys.
  - specialize (Hkeys "kamervragen" _ (or_intror (or_intror (or_introl eq_refl)))).
    rewrite H4 in Hkeys. discriminate Hkeys.
  - specialize (Hkeys "kamerstuk" _
                  (or_intror (or_intror (or_intror (or_introl eq_refl))))).
    rewrite H5 in Hkeys. discriminate Hkeys.
  - specialize (Hkeys "agenda" _
                  (or_intror (or_intror (or_intror (or_intror (or_introl eq_refl)))))).
    rewrite H6 in Hkeys. discriminate Hkeys.
Qed.

End PublicationFilterProperties.

(** ** Lookup after normalising *)

Lemma plain_dict_get items k v :
  plain (VDict items) = true -> dict_get items k = Some v -> plain v = true.
Proof.
  rewrite plain_Dict. intros H. apply andb_true_iff in H. destruct H as [_ H].
  induction items as [|[k' v'] items IH]; simpl in *; [discriminate|].
  apply andb_true_iff in H. destruct H as [Hv H].
  destruct (String.eqb k' k); [intros [= <-]; exact Hv | apply IH; exact H].
Qed.

Lemma str_chars_plain s : forallb plain (str_chars s) = true.
Proof. induction s as [|a s IH]; simpl; [reflexivity | exact IH]. Qed.

Lemma py_iter_plain v l :
  plain v = true -> py_iter v = Ok l -> forallb plain l = true.
Proof.
  destruct v as [ | b | n | s | dt | l0 | l0 | items | c vals ];
    try discriminate; intros Hp [= <-].
  - apply str_chars_plain.
  - exact Hp.
  - clear Hp. induction items as [|[k x] items IH]; simpl; [reflexivity | exact IH].
Qed.

Section LookupAfterNormalize.
Context {lib : DatetimeLib} {hooks : Hooks}.
Variable md5_hexdigest : string -> string.
Variable repr : list (string * pyval) -> string.

Lemma normalized_mapping_has_id items d :
  _normalize_document md5_hexdigest repr (VDict items) = Ok d ->
  exists i, getattr d "id" = Some i.
Proof.
  unfold _normalize_document. intros H.
  match type of H with
  | match ?s with _ => _ end = _ => destruct s as [model|e] eqn:Em; [|discriminate]
  end.
  match type of Em with
  | match ?s with _ => _ end = _ => destruct s as [payload|e]; [|discriminate]
  end.
  destruct (from_dict_instance _ _ _ Em) as [vals [-> Hlen]].
  destruct (py_getattr (VObj Declared.TimelineDocument vals) "content_text")
    as [ct|e]; [|discriminate].
  destruct (_normalize_chunks md5_hexdigest (py_or ct (VList []))) as [chunks|e];
    [|discriminate].
  assert (E : d = setattr (VObj Declared.TimelineDocument vals) "content_text" chunks)
    by congruence.
  rewrite E, getattr_setattr_other by reflexivity.
  destruct vals as [|i vals]; [discriminate Hlen|]. exists i. reflexivity.
Qed.

Lemma normalized_list_has_ids docs ds :
  forallb plain docs = true ->
  normalize_document_list md5_hexdigest repr docs = Ok ds ->
  Forall (fun d => exists i, getattr d "id" = Some i) ds.
Proof.
  revert ds. induction docs as [|doc docs IH]; intros ds Hp;
    cbn [normalize_document_list].
  - intros [= <-]. constructor.
  - cbn [forallb] in Hp. apply andb_true_iff in Hp. destruct Hp as [Hdoc Hp].
    destruct (_normalize_document md5_hexdigest repr doc) as [d|e] eqn:Ed;
      [|discriminate].
    destruct (normalize_document_list md5_hexdigest repr docs) as [ds'|e];
      [|discriminate].
    intros [= <-]. constructor; [|apply IH; [exact Hp | reflexivity]].
    destruct doc as [ | b | n | s | dt | l | l | items | c vals ];
      try discriminate Ed; try discriminate Hdoc.
    apply (normalized_mapping_has_id items d Ed).
Qed.

Lemma first_with_id_total ds doc_id :
  Forall (fun d => exists i, getattr d "id" = Some i) ds ->
  exists r, first_with_id ds doc_id = Ok r.
Proof.
  induction 1 as [|d ds [i Hi] _ [r IH]]; [exists VNone; reflexivity|].
  cbn [first_with_id]. unfold py_getattr. rewrite Hi.
  destruct (py_eqb i doc_id); [exists d; reflexivity | exists r; exact IH].
Qed.

Hypothesis no_deserialize_hook : forall c n v t, _deserialize_field c n v t = None.

(** X26. [_update_single_doc_summary] normalises the timeline before it
    looks a document up.  For a stored timeline, a mapping of values of the
    generic tree, that order makes the lookup safe: when
    [_normalize_timeline] accepts the mapping, [doc_by_id] on its result
    returns, for any identifier, and never raises. *)
Theorem lookup_after_normalize_returns items t doc_id :
  plain (VDict items) = true ->
  _normalize_timeline md5_hexdigest repr (VDict items) = Ok t ->
  exists r, doc_by_id t doc_id = Ok r.
Proof.
  intros Hp. unfold _normalize_timeline.
  destruct (text_annotated_from_dict no_deserialize_hook Declared.Timeline items
              eq_refl eq_refl eq_refl) as [vals [Hf Hg]].
  rewrite Hf.
  assert (Hdocs : exists docsv,
             getattr (VObj Declared.Timeline vals) "documents" = Some docsv
             /\ plain docsv = true).
  { pose proof (Hg (Field "documents" (TPlain "'List[TimelineDocument]'")
                      (DefaultFactory FList))
                   (or_intror (or_intror (or_introl eq_refl)))) as H.
    cbn [fname] in H.
    destruct (dict_get items "documents") as [raw|] eqn:Ek.
    - exists raw. split; [exact H | apply (plain_dict_get items _ _ Hp Ek)].
    - exists (VList []). split; [exact H | reflexivity]. }
  destruct Hdocs as [docsv [Hgd Hpd]]. rewrite Hgd.
  destruct (py_iter docsv) as [docs|e] eqn:Eit; [|discriminate].
  destruct (normalize_document_list md5_hexdigest repr docs) as [ds|e] eqn:Eds;
    [|discriminate].
  intros H.
  assert (E : t = setattr (VObj Declared.Timeline vals) "documents" (VList ds))
    by congruence.
  unfold doc_by_id, py_getattr.
  rewrite E, (getattr_setattr _ _ (VList ds) _ Hgd). cbn [py_iter].
  apply first_with_id_total.
  apply (normalized_list_has_ids docs ds (py_iter_plain _ _ Hpd Eit) Eds).
Qed.

End LookupAfterNormalize.

(** ** [TimelineRepository.find_all] *)

Section FindAll.
Context {lib : DatetimeLib} {hooks : Hooks}.

Lemma hits_to_docs_ok hits :
  Forall (fun hit =>
            exists items,
              hit = VDict items
              /\ forall source, dict_get items "_source" = Some source ->
                                is_Mapping source = true \/ py_truthy source = false)
         hits ->
  exists docs,
    hits_to_docs hits = Ok docs
    /\ Forall (fun d => isinstance d Declared.Timeline = true) docs
    /\ (List.length docs <= List.length hits)%nat.
Proof.
  induction 1 as [|hit hits [items [-> Hs]] _ [docs [Hd [Hall Hlen]]]].
  - exists []. repeat split; [constructor | apply Nat.le_refl].
  - cbn [hits_to_docs py_dict_get py_getitem]. unfold py_get.
    destruct (dict_get items "_source") as [source|] eqn:Es.
    + destruct (py_truthy source) eqn:Et.
      * destruct (Hs source eq_refl) as [Hm | Hf]; [|congruence].
        destruct source as [ | | | | | | | body | ]; try discriminate Hm.
        destruct (text_annotated_from_dict_total Declared.Timeline body
                    eq_refl eq_refl eq_refl) as [vals [Hv _]].
        unfold _source_to_doc. rewrite Hv, Hd.
        eexists. repeat split; [constructor; [reflexivity | exact Hall] | simpl; lia].
      * exists docs. repeat split; [exact Hd | exact Hall | simpl; lia].
    + cbn [py_truthy]. exists docs. repeat split; [exact Hd | exact Hall | simpl; lia].
Qed.

(** X27. [find_all] decodes the hits that have a truthy [_source] and
    passes over the others: on a response whose hits are mappings with a
    [_source] that is a mapping or falsy it never raises and returns
    [Timeline] instances, at most one per hit; a response without [hits]
    gives the empty list. *)
Theorem find_all_gives_timelines response :
  (forall outer hits,
      dict_get response "hits" = Some (VDict outer) ->
      dict_get outer "hits" = Some (VList hits) ->
      Forall (fun hit =>
                exists items,
                  hit = VDict items
                  /\ forall source, dict_get items "_source" = Some source ->
                                    is_Mapping source = true \/ py_truthy source = false)
             hits ->
      exists docs,
        find_all (VDict response) = Ok (VList docs)
        /\ Forall (fun d => isinstance d Declared.Timeline = true) docs
        /\ (List.length docs <= List.length hits)%nat)
  /\ (dict_get response "hits" = None -> find_all (VDict response) = Ok (VList [])).
Proof.
  split.
  - intros outer hits Ho Hh Hall. unfold find_all. cbn [py_dict_get]. unfold py_get.
    rewrite Ho. cbn [py_dict_get]. unfold py_get. rewrite Hh. cbn [py_iter].
    destruct (hits_to_docs_ok hits Hall) as [docs [Hd H]]. rewrite Hd.
    exists docs. split; [reflexivity | exact H].
  - intros Hn. unfold find_all. cbn [py_dict_get]. unfold py_get. rewrite Hn.
    reflexivity.
Qed.

End FindAll.

Section SearchQueryProperties.
Context {lib : DatetimeLib} {hooks : Hooks}.
Variable strip : string -> string.

Hypothesis no_deserialize_hook : forall c n v t, _deserialize_field c n v t = None.



End SearchQueryProperties.

(** * The codec at work

    The examples run the codec with the library fragment [PyDatetime] and
    with the hooks of [BaseModel]. *)

#[export] Existing Instance PyDatetime.lib.
#[export] Existing Instance BaseModel_hooks.

Import Examples.

(** The example of the specification for the parsing order: with the input formats
    [["%d-%m-%Y"; "%Y-%m-%d"]], "01-02-2024" is the first of February. *)
Lemma datetime_fallback_order_witness :
  datetime_typed TDatetime = true
  /\ (forall t, _deserialize_field Event "when" (VStr "01-02-2024") t = None)
  /\ _deserialize_value Event "when" (VStr "01-02-2024") TDatetime
     = Ok (VDatetime (mkDatetime 2024 2 1 0 0 0 0 (Some (ZoneInfo "Europe/Amsterdam")))).
Proof.
  split; [reflexivity|]. split; [intros t; reflexivity|].
  exact (datetime_fallback_order Event "when" "01-02-2024" TDatetime
           eq_refl (fun t => eq_refl)).
Defined.

(** [None] for a field declared [OrganisatieType] becomes the empty
    [OrganisatieType]; for a field declared [RawDocument], which cannot be
    built without arguments, it stays [None]. *)
Lemma null_coalescing_witness :
  (forall t, _deserialize_field Resolved.Organisatie "organisatieType" VNone t = None)
  /\ construct Resolved.OrganisatieType [] = Some OrganisatieType_default
  /\ _deserialize_value Resolved.Organisatie "organisatieType" VNone
       (TClass Resolved.OrganisatieType) = Ok OrganisatieType_default
  /\ construct Resolved.RawDocument [] = None
  /\ _deserialize_value Resolved.Organisatie "organisatieType" VNone
       (TClass Resolved.RawDocument) = Ok VNone
  /\ _deserialize_value Resolved.Organisatie "organisatieType" VNone
       (Optional (TPlain "str")) = Ok VNone.
Proof.
  split; [intros t; reflexivity|]. split; [reflexivity|]. split.
  - exact (proj1 (null_coalescing Resolved.Organisatie "organisatieType"
                    Resolved.OrganisatieType "str" (fun t => eq_refl))
             OrganisatieType_default eq_refl).
  - split; [reflexivity|]. split.
    + exact (proj1 (proj2 (null_coalescing Resolved.Organisatie "organisatieType"
                             Resolved.RawDocument "str" (fun t => eq_refl)))
               eq_refl).
    + exact (proj1 (proj2 (proj2 (null_coalescing Resolved.Organisatie
                                    "organisatieType" Resolved.RawDocument "str"
                                    (fun t => eq_refl))))).
Defined.

Lemma optional_record_stays_null_witness :
  non_None_args [TClass Resolved.OrganisatieType; TNoneType]
  = [TClass Resolved.OrganisatieType]
  /\ construct Resolved.OrganisatieType [] = Some OrganisatieType_default
  /\ (forall t, _deserialize_field Membership "bron" VNone t = None)
  /\ _deserialize_value Membership "bron" VNone
       (Optional (TClass Resolved.OrganisatieType)) = Ok VNone
  /\ _deserialize_value Membership "bron" VNone
       (TClass Resolved.OrganisatieType) = Ok OrganisatieType_default
  /\ OrganisatieType_default <> VNone.
Proof.
  split; [reflexivity|]. split; [reflexivity|]. split; [intros t; reflexivity|].
  exact (optional_record_stays_null Membership "bron"
           [TClass Resolved.OrganisatieType; TNoneType]
           Resolved.OrganisatieType OrganisatieType_default
           eq_refl eq_refl (fun t => eq_refl)).
Defined.

(** The output zone of [Logbook] is UTC and its input zone Amsterdam: a
    naive noon is written as noon, and "12:00:00" is read as noon in
    Amsterdam. *)
Lemma timezone_attachment_witness :
  tzinfo_of noon = None
  /\ _serialize_field Logbook "opened" (VDatetime noon) TDatetime = None
  /\ _serialize_value Logbook "opened" (VDatetime noon) TDatetime
     = VStr "01-01-2024 12:00:00"
  /\ datetime_typed TDatetime = true
  /\ (forall t, _deserialize_field Logbook "opened" (VStr "01-01-2024 12:00:00") t = None)
  /\ first_success (parse_attempts Logbook "opened") (VStr "01-01-2024 12:00:00")
     = Some noon
  /\ _deserialize_value Logbook "opened" (VStr "01-01-2024 12:00:00") TDatetime
     = Ok (VDatetime (noon_in "Europe/Amsterdam")).
Proof.
  split; [reflexivity|]. split; [reflexivity|]. split.
  - exact (proj1 (timezone_attachment Logbook Logbook "opened" TDatetime)
             noon eq_refl eq_refl).
  - split; [reflexivity|]. split; [intros t; reflexivity|]. split; [reflexivity|].
    exact (proj2 (timezone_attachment Logbook Logbook "opened" TDatetime)
             "01-01-2024 12:00:00" noon eq_refl (fun t => eq_refl) eq_refl eq_refl).
Defined.

(** The example of the specification for a parse failure: "not-a-date". *)
Lemma datetime_parse_failure_witness :
  In (Field "when" TDatetime MISSING) (fields Event)
  /\ datetime_typed TDatetime = true
  /\ dict_get [("title", VStr "x"); ("when", VStr "not-a-date")] "when"
     = Some (VStr "not-a-date")
  /\ is_None (VStr "not-a-date") = false
  /\ (forall t, _deserialize_field Event "when" (VStr "not-a-date") t = None)
  /\ first_success (parse_attempts Event "when") (VStr "not-a-date") = None
  /\ _deserialize_value Event "when" (VStr "not-a-date") TDatetime
     = Raise (ValueError "when" (VStr "not-a-date"))
  /\ from_dict Event (VDict [("title", VStr "x"); ("when", VStr "not-a-date")])
     = Raise (ValueError "when" (VStr "not-a-date")).
Proof.
  assert (H := datetime_parse_failure Event "when" TDatetime MISSING
                 (VStr "not-a-date")
                 [("title", VStr "x"); ("when", VStr "not-a-date")]
                 (or_intror (or_introl eq_refl)) eq_refl eq_refl eq_refl
                 (fun t => eq_refl) eq_refl).
  split; [right; left; reflexivity|]. split; [reflexivity|].
  split; [reflexivity|]. split; [reflexivity|]. split; [intros t; reflexivity|].
  split; [reflexivity|]. split; [exact (proj1 H)|].
  exact (proj2 (proj2 H) [Field "title" (TPlain "str") MISSING] []
           [("title", VStr "x")] eq_refl eq_refl).
Defined.

(** ** The classes of the repository as they are declared

    Every module of [data_models] starts with
    [from __future__ import annotations], so [fields(cls)] reports each
    annotation as text and [_deserialize_value] never meets the type objects
    its branches test for.  The three evaluations below are one defect. *)

(** C2.  [created_at] of [TimelineDocument] is annotated [datetime].
    [from_dict] tries no parser on its text and keeps the text, although the
    ISO-8601 parse, step (c), reads it; with the type object in the place of
    the annotation text the same mapping gives the date/time. *)
Lemma declared_date_is_not_parsed :
  from_dict Declared.TimelineDocument
    (VDict [("id", VStr "d1"); ("title", VStr "Kamerbrief");
            ("created_at", VStr "2024-01-01T12:00:00+01:00")])
  = Ok (VObj Declared.TimelineDocument
          [VStr "d1"; VStr "Kamerbrief"; VStr "2024-01-01T12:00:00+01:00";
           VNone; VNone; VNone; VList []; VDict []])
  /\ fromisoformat "2024-01-01T12:00:00+01:00"
     = Some (mkDatetime 2024 1 1 12 0 0 0 (Some (FixedOffset 3600)))
  /\ from_dict Resolved.TimelineDocument
       (VDict [("id", VStr "d1"); ("title", VStr "Kamerbrief");
               ("created_at", VStr "2024-01-01T12:00:00+01:00")])
     = Ok (VObj Resolved.TimelineDocument
             [VStr "d1"; VStr "Kamerbrief";
              VDatetime (mkDatetime 2024 1 1 12 0 0 0 (Some (FixedOffset 3600)));
              VNone; VNone; VNone; VList []; VDict []]).
Proof.
  repeat split; vm_compute; reflexivity.
Qed.

(** C4.  [organisatieType] of [Organisatie] is annotated with the bare
    record type [OrganisatieType], which builds without arguments.
    [from_dict] keeps [None] for it; with the type object in the place of
    the annotation text the same mapping gives the default instance. *)
Lemma declared_record_is_not_coalesced :
  from_dict Declared.Organisatie
    (VDict [("naam", VStr "Tweede Kamer"); ("organisatieType", VNone)])
  = Ok (VObj Declared.Organisatie [VStr "Tweede Kamer"; VNone; VNone])
  /\ construct Declared.OrganisatieType []
     = Some (VObj Declared.OrganisatieType [VNone; VNone])
  /\ from_dict Resolved.Organisatie
       (VDict [("naam", VStr "Tweede Kamer"); ("organisatieType", VNone)])
     = Ok (VObj Resolved.Organisatie
             [VStr "Tweede Kamer"; OrganisatieType_default; VNone]).
Proof.
  repeat split; reflexivity.
Qed.

(** C6.  A text that no parsing rule accepts, under [created_at] of
    [TimelineDocument]: [from_dict] raises nothing and returns an instance
    that holds the text; with the type object in the place of the
    annotation text the same mapping raises the [ValueError] that names the
    field and the text. *)
Lemma declared_date_failure_is_silent :
  from_dict Declared.TimelineDocument
    (VDict [("id", VStr "d1"); ("title", VStr "Kamerbrief");
            ("created_at", VStr "not-a-date")])
  = Ok (VObj Declared.TimelineDocument
          [VStr "d1"; VStr "Kamerbrief"; VStr "not-a-date";
           VNone; VNone; VNone; VList []; VDict []])
  /\ first_success (parse_attempts Declared.TimelineDocument "created_at")
       (VStr "not-a-date") = None
  /\ from_dict Resolved.TimelineDocument
       (VDict [("id", VStr "d1"); ("title", VStr "Kamerbrief");
               ("created_at", VStr "not-a-date")])
     = Raise (ValueError "created_at" (VStr "not-a-date")).
Proof.
  repeat split; vm_compute; reflexivity.
Qed.

(** C3 does not hold as stated: the required field [organisatie] of
    [Membership] is declared with the record type [OrganisatieType], which
    has a default instance.  Decoding [None] against that type gives the
    default instance, and so does a mapping that holds [None] under the key;
    a mapping that lacks the key gives [None]. *)
Lemma missing_field_differs_from_null_field :
  _deserialize_value Membership "organisatie" VNone (TClass Resolved.OrganisatieType)
  = Ok OrganisatieType_default
  /\ from_dict Membership (VDict [("organisatie", VNone)])
     = Ok (VObj Membership [VNone; OrganisatieType_default; VNone])
  /\ from_dict Membership (VDict [])
     = Ok (VObj Membership [VNone; VNone; VNone])
  /\ getattr (VObj Membership [VNone; VNone; VNone]) "organisatie"
     <> getattr (VObj Membership [VNone; OrganisatieType_default; VNone]) "organisatie".
Proof.
  repeat split; try reflexivity. discriminate.
Qed.

(** What [from_dict] passes to the constructor of [Membership] for a
    mapping without the key [organisatie] and for one that holds [None]
    under it. *)
Lemma missing_field_is_None_witness :
  In (Field "organisatie" (TClass Resolved.OrganisatieType) MISSING) (fields Membership)
  /\ from_dict_loop (fun n v t => _deserialize_value Membership n v t)
       (VDict []) (fields Membership) []
     = Ok [("naam", VNone); ("organisatie", VNone); ("bron", VNone)]
  /\ dict_get (@nil (string * pyval)) "organisatie" = None
  /\ dict_get [("naam", VNone); ("organisatie", VNone); ("bron", VNone)]
       "organisatie" = Some VNone
  /\ from_dict_loop (fun n v t => _deserialize_value Membership n v t)
       (VDict [("organisatie", VNone)]) (fields Membership) []
     = Ok [("naam", VNone); ("organisatie", OrganisatieType_default); ("bron", VNone)]
  /\ distinct (map fname (fields Membership)) = true
  /\ dict_get [("organisatie", VNone)] "organisatie" = Some VNone
  /\ exists x,
       _deserialize_value Membership "organisatie" VNone
         (TClass Resolved.OrganisatieType) = Ok x
       /\ dict_get [("naam", VNone); ("organisatie", OrganisatieType_default);
                    ("bron", VNone)] "organisatie" = Some x.
Proof.
  split; [right; left; reflexivity|]. split; [reflexivity|]. split; [reflexivity|].
  split.
  - exact (proj1 (proj2 (missing_field_is_None Membership "organisatie"
                           (TClass Resolved.OrganisatieType) []
                           [("naam", VNone); ("organisatie", VNone); ("bron", VNone)]
                           (or_intror (or_introl eq_refl)) eq_refl)) eq_refl).
  - split; [reflexivity|]. split; [reflexivity|]. split; [reflexivity|].
    exact (proj2 (proj2 (missing_field_is_None Membership "organisatie"
                           (TClass Resolved.OrganisatieType) [("organisatie", VNone)]
                           [("naam", VNone); ("organisatie", OrganisatieType_default);
                            ("bron", VNone)]
                           (or_intror (or_introl eq_refl)) eq_refl)) eq_refl eq_refl).
Defined.



(** The dates in the list [entries] of a [Logbook] are written and read in
    the format configured for [entries], those of the dict [marks] in the
    format configured for [marks], element by element; a list with a text
    that is no date raises the exception of that element; and the elements
    of a list held under [when] of an [Event] are read by the first and by
    the second input format of [when]. *)
Lemma container_elements_use_field_name_witness :
  (forall v t, _serialize_field Logbook "entries" v t = None)
  /\ (forall v t, _deserialize_field Logbook "entries" v t = None)
  /\ _serialize_value Logbook "entries"
       (VList [VDatetime noon; VDatetime (noon_in "Europe/Amsterdam")])
       (TList [TDatetime])
     = VList [VStr "01-01-2024 12:00"; VStr "01-01-2024 11:00"]
  /\ _serialize_value Logbook "marks" (VDict [("a", VDatetime noon)])
       (TDict [TPlain "str"; TDatetime])
     = VDict [("a", VStr "01-01-2024")]
  /\ _deserialize_value Logbook "entries"
       (VList [VStr "01-01-2024 11:00"; VStr "02-01-2024 09:30"; VNone])
       (TList [TDatetime])
     = Ok (VList [VDatetime (mkDatetime 2024 1 1 11 0 0 0
                               (Some (ZoneInfo "Europe/Amsterdam")));
                  VDatetime (mkDatetime 2024 1 2 9 30 0 0
                               (Some (ZoneInfo "Europe/Amsterdam")));
                  VNone])
  /\ _deserialize_value Logbook "entries"
       (VList [VStr "01-01-2024 11:00"; VStr "morgen"; VStr "02-01-2024 09:30"])
       (TList [TDatetime])
     = Raise (ValueError "entries" (VStr "morgen"))
  /\ _deserialize_value Logbook "marks"
       (VDict [("a", VStr "01-01-2024"); ("b", VStr "03-02-2024")])
       (TDict [TPlain "str"; TDatetime])
     = Ok (VDict [("a", VDatetime (mkDatetime 2024 1 1 0 0 0 0
                                     (Some (ZoneInfo "Europe/Amsterdam"))));
                  ("b", VDatetime (mkDatetime 2024 2 3 0 0 0 0
                                     (Some (ZoneInfo "Europe/Amsterdam"))))])
  /\ _deserialize_value Event "when" (VStr "2024-02-01") TDatetime
     = Ok (VDatetime (mkDatetime 2024 2 1 0 0 0 0 (Some (ZoneInfo "Europe/Amsterdam"))))
  /\ _deserialize_value Event "when"
       (VList [VStr "01-02-2024"; VStr "2024-02-01"]) (TList [TDatetime])
     = Ok (VList [VDatetime (mkDatetime 2024 2 1 0 0 0 0
                               (Some (ZoneInfo "Europe/Amsterdam")));
                  VDatetime (mkDatetime 2024 2 1 0 0 0 0
                               (Some (ZoneInfo "Europe/Amsterdam")))]).
Proof.
  pose proof (container_elements_use_field_name Logbook Logbook "entries"
                (TList [TDatetime]) (fun v t => eq_refl) (fun v t => eq_refl))
    as [E1 [_ [_ [D1 [D2 _]]]]].
  pose proof (container_elements_use_field_name Logbook Logbook "marks"
                (TDict [TPlain "str"; TDatetime])
                (fun v t => eq_refl) (fun v t => eq_refl))
    as [_ [E2 [_ [_ [_ [D3 _]]]]]].
  pose proof (container_elements_use_field_name Event Event "when"
                (TList [TDatetime]) (fun v t => eq_refl) (fun v t => eq_refl))
    as [_ [_ [_ [D4 [_ [_ D5]]]]]].
  split; [intros v t; reflexivity|]. split; [intros v t; reflexivity|].
  split; [exact (E1 [noon; noon_in "Europe/Amsterdam"])|].
  split; [exact (E2 [("a", noon)] eq_refl)|].
  split.
  { apply D1. repeat (apply Forall2_cons; [reflexivity|]). apply Forall2_nil. }
  split.
  { apply (D2 [VStr "01-01-2024 11:00"] (VStr "morgen") [VStr "02-01-2024 09:30"]
              [VDatetime (mkDatetime 2024 1 1 11 0 0 0
                            (Some (ZoneInfo "Europe/Amsterdam")))]).
    - apply Forall2_cons; [reflexivity | apply Forall2_nil].
    - reflexivity. }
  split.
  { apply D3; [reflexivity|].
    repeat (apply Forall2_cons; [split; reflexivity|]). apply Forall2_nil. }
  split.
  { apply (D5 "2024-02-01" ["%d-%m-%Y"] "%Y-%m-%d" []
              (mkDatetime 2024 2 1 0 0 0 0 None)).
    - reflexivity.
    - apply Forall_cons; [reflexivity | apply Forall_nil].
    - reflexivity. }
  apply D4. repeat (apply Forall2_cons; [reflexivity|]). apply Forall2_nil.
Defined.

(** Keys that [Event] does not declare change nothing. *)
Lemma unknown_keys_ignored_witness :
  known_items Event [("when", VStr "01-02-2024"); ("colour", VStr "red");
                     ("title", VStr "x"); ("pages", VInt 3)]
  = [("when", VStr "01-02-2024"); ("title", VStr "x")]
  /\ from_dict Event (VDict [("when", VStr "01-02-2024"); ("colour", VStr "red");
                             ("title", VStr "x"); ("pages", VInt 3)])
     = from_dict Event (VDict [("when", VStr "01-02-2024"); ("title", VStr "x")]).
Proof.
  split; [reflexivity|].
  exact (unknown_keys_ignored Event
           [("when", VStr "01-02-2024"); ("colour", VStr "red");
            ("title", VStr "x"); ("pages", VInt 3)]).
Defined.

(** The classes of the repository as they are declared keep the raw
    values: nothing is parsed and no nested record is built. *)
Example declared_types_keep_raw_values :
  from_dict Declared.TimelineDocument
    (VDict [("id", VStr "d1"); ("title", VStr "Kamerbrief");
            ("created_at", VStr "2024-01-01T12:00:00+01:00");
            ("content_text",
             VList [VDict [("chunk_identifier", VStr "c1"); ("content", VStr "a")]])])
  = Ok (VObj Declared.TimelineDocument
          [VStr "d1"; VStr "Kamerbrief"; VStr "2024-01-01T12:00:00+01:00";
           VNone; VNone; VNone;
           VList [VDict [("chunk_identifier", VStr "c1"); ("content", VStr "a")]];
           VDict []]).
Proof. reflexivity. Qed.

(** A naive date/time value is never lossless: what the parsing rules
    return carries a zone, and a naive value equals no aware value. *)
Lemma naive_datetime_is_not_lossless cls name dt :
  tzinfo_of dt = None -> ~ lossless cls name dt.
Proof.
  intros Hn [s [dt' [_ [Hp He]]]].
  destruct (parse_datetime_aware _ _ _ _ Hp) as [dt0 [[= <-] Ha]].
  unfold datetime_eq in He. simpl in He.
  unfold PyDatetime.datetime_eq, PyDatetime.utcoffset in He.
  rewrite Hn in He. destruct (tzinfo_of dt'); [discriminate | apply Ha; reflexivity].
Qed.


(** The conditions of [conforms] are needed.  [None] under a record type
    with a default instance comes back as that instance; a tuple comes back
    as a list; a date/time under [Any] comes back as text; and a date/time
    with a zone, written in a format of second precision that shows no
    zone, comes back an hour off when the input zone is not the output
    zone. *)
Example conformance_conditions_are_needed :
  (from_dict Resolved.Organisatie (to_dict Resolved.Organisatie [VNone; VNone; VNone])
   = Ok (VObj Resolved.Organisatie [VNone; OrganisatieType_default; VNone])
   /\ py_eqb (VObj Resolved.Organisatie [VNone; OrganisatieType_default; VNone])
             (VObj Resolved.Organisatie [VNone; VNone; VNone]) = false)
  /\ (_deserialize_value Event "title"
        (_serialize_value Event "title" (VTuple [VStr "a"]) (TTuple [TPlain "str"]))
        (TTuple [TPlain "str"])
      = Ok (VList [VStr "a"])
      /\ py_eqb (VList [VStr "a"]) (VTuple [VStr "a"]) = false)
  /\ (_deserialize_value Resolved.TimelineDocument "informatieobject"
        (_serialize_value Resolved.TimelineDocument "informatieobject"
           (VDict [("datum", VDatetime (noon_in "Europe/Amsterdam"))])
           (TDict [Resolved.str; Resolved.Any]))
        (TDict [Resolved.str; Resolved.Any])
      = Ok (VDict [("datum", VStr "2024-01-01T12:00:00+01:00")]))
  /\ (_serialize_value Logbook "opened" (VDatetime (noon_in "UTC")) TDatetime
      = VStr "01-01-2024 12:00:00"
      /\ _deserialize_value Logbook "opened" (VStr "01-01-2024 12:00:00") TDatetime
         = Ok (VDatetime (noon_in "Europe/Amsterdam"))
      /\ datetime_eq (noon_in "Europe/Amsterdam") (noon_in "UTC") = false).
Proof.
  repeat split; vm_compute; reflexivity.
Qed.



(** * The further properties at work *)

(** The keys that [to_dict] writes for a chunk. *)
Lemma to_dict_keys_are_field_names_witness :
  distinct (map fname (fields Declared.ContentChunk)) = true
  /\ List.length [VStr "c1"; VStr "Eerste alinea"]
     = List.length (fields Declared.ContentChunk)
  /\ exists items,
       to_dict Declared.ContentChunk [VStr "c1"; VStr "Eerste alinea"] = VDict items
       /\ map fst items = ["chunk_identifier"; "content"].
Proof.
  split; [reflexivity|]. split; [reflexivity|].
  destruct (to_dict_keys_are_field_names Declared.ContentChunk
              [VStr "c1"; VStr "Eerste alinea"] eq_refl eq_refl)
    as [items [H1 [H2 _]]].
  exists items. split; [exact H1 | exact H2].
Defined.

(** The encoding of the example timeline, with its documents, chunks and
    dates, is a value of the generic tree. *)
Lemma encoding_is_generic_tree_witness :
  (forall c n v t, _serialize_field c n v t = None)
  /\ plain (_serialize_value Resolved.Timeline "tijdlijn"
              (VObj Resolved.Timeline timeline_values) (TPlain "None")) = true.
Proof.
  split; [intros c n v t; reflexivity|].
  exact (encoding_is_generic_tree (fun c n v t => eq_refl) Resolved.Timeline
           "tijdlijn" (VObj Resolved.Timeline timeline_values) (TPlain "None")).
Defined.

(** Encoding the encoded timeline again, as a value of another class. *)
Lemma encoding_is_idempotent_witness :
  (forall c n v t, _serialize_field c n v t = None)
  /\ _serialize_value Logbook "marks"
       (_serialize_value Resolved.Timeline "tijdlijn"
          (VObj Resolved.Timeline timeline_values) (TPlain "None"))
       (TDict [TPlain "str"; TDatetime])
     = _serialize_value Resolved.Timeline "tijdlijn"
         (VObj Resolved.Timeline timeline_values) (TPlain "None").
Proof.
  split; [intros c n v t; reflexivity|].
  exact (encoding_is_idempotent (fun c n v t => eq_refl) Resolved.Timeline
           "tijdlijn" (VObj Resolved.Timeline timeline_values) (TPlain "None")
           Logbook "marks" (TDict [TPlain "str"; TDatetime])).
Defined.

(** A stored timeline without the key [documents] has the empty list. *)
Lemma missing_field_takes_default_witness :
  In (Field "documents" (TPlain "'List[TimelineDocument]'") (DefaultFactory FList))
     (fields Declared.Timeline)
  /\ distinct (map fname (fields Declared.Timeline)) = true
  /\ dict_get [("identifier", VStr "t1"); ("name", VStr "Tijdlijn")] "documents" = None
  /\ from_dict Declared.Timeline
       (VDict [("identifier", VStr "t1"); ("name", VStr "Tijdlijn")])
     = Ok (VObj Declared.Timeline [VStr "t1"; VStr "Tijdlijn"; VList []; VNone; VNone])
  /\ getattr (VObj Declared.Timeline [VStr "t1"; VStr "Tijdlijn"; VList []; VNone; VNone])
       "documents" = Some (VList []).
Proof.
  split; [right; right; left; reflexivity|].
  split; [reflexivity|]. split; [reflexivity|]. split; [reflexivity|].
  exact (proj1 (missing_field_takes_default Declared.Timeline
                  (Field "documents" (TPlain "'List[TimelineDocument]'")
                         (DefaultFactory FList))
                  [("identifier", VStr "t1"); ("name", VStr "Tijdlijn")]
                  (VObj Declared.Timeline
                        [VStr "t1"; VStr "Tijdlijn"; VList []; VNone; VNone])
                  (or_intror (or_intror (or_introl eq_refl)))
                  eq_refl eq_refl eq_refl eq_refl)).
Defined.

(** The date of an [Event], read day first, carries the input zone. *)
Lemma decoded_datetime_is_aware_witness :
  datetime_typed TDatetime = true
  /\ (forall t, _deserialize_field Event "when" (VStr "01-02-2024") t = None)
  /\ _deserialize_value Event "when" (VStr "01-02-2024") TDatetime
     = Ok (VDatetime (mkDatetime 2024 2 1 0 0 0 0 (Some (ZoneInfo "Europe/Amsterdam"))))
  /\ ((VStr "01-02-2024" = VNone
       /\ VDatetime (mkDatetime 2024 2 1 0 0 0 0 (Some (ZoneInfo "Europe/Amsterdam")))
          = VNone)
      \/ exists dt,
           VDatetime (mkDatetime 2024 2 1 0 0 0 0 (Some (ZoneInfo "Europe/Amsterdam")))
           = VDatetime dt
           /\ tzinfo_of dt <> None).
Proof.
  split; [reflexivity|]. split; [intros t; reflexivity|]. split; [reflexivity|].
  exact (decoded_datetime_is_aware Event "when" (VStr "01-02-2024") TDatetime
           (VDatetime (mkDatetime 2024 2 1 0 0 0 0 (Some (ZoneInfo "Europe/Amsterdam"))))
           eq_refl (fun t => eq_refl) eq_refl).
Defined.

(** A [Stamp] takes the text of its date as it comes, and refuses a key
    that names no field. *)
Lemma plain_dataclass_takes_raw_values_witness :
  is_base_model ServiceExamples.Stamp = false
  /\ _deserialize_field Event "stamp"
       (VDict [("label", VStr "a"); ("at", VStr "01-02-2024")])
       (TClass ServiceExamples.Stamp) = None
  /\ getattr (VObj ServiceExamples.Stamp [VStr "a"; VStr "01-02-2024"]) "at"
     = Some (VStr "01-02-2024")
  /\ _deserialize_value Event "stamp" (VDict [("colour", VStr "red")])
       (TClass ServiceExamples.Stamp) = Raise TypeError.
Proof.
  split; [reflexivity|]. split; [reflexivity|]. split.
  - exact (proj2 (plain_dataclass_takes_raw_values Event "stamp" ServiceExamples.Stamp
                    [("label", VStr "a"); ("at", VStr "01-02-2024")] eq_refl eq_refl)
             (VObj ServiceExamples.Stamp [VStr "a"; VStr "01-02-2024"])
             (Field "at" TDatetime MISSING) (VStr "01-02-2024")
             eq_refl (or_intror (or_introl eq_refl)) eq_refl).
  - exact (proj1 (plain_dataclass_takes_raw_values Event "stamp" ServiceExamples.Stamp
                    [("colour", VStr "red")] eq_refl eq_refl) eq_refl).
Defined.

(** The text "motie" given for the document types of a query. *)
Lemma string_for_list_is_split_witness :
  (forall v t, _deserialize_field Event "document_types" v t = None)
  /\ inner_type [TPlain "str"] = TPlain "str"
  /\ _deserialize_value Event "document_types" (VStr "motie") (TList [TPlain "str"])
     = Ok (VList [VStr "m"; VStr "o"; VStr "t"; VStr "i"; VStr "e"]).
Proof.
  split; [intros v t; reflexivity|]. split; [reflexivity|].
  exact (string_for_list_is_split Event "document_types" "motie" [TPlain "str"] "str"
           (fun v t => eq_refl) eq_refl).
Defined.
(** Two chunks held in the list of a document. *)
Lemma list_of_records_round_trip_witness :
  (forall c n v t, _serialize_field c n v t = None)
  /\ (forall c n v t, _deserialize_field c n v t = None)
  /\ is_base_model Resolved.ContentChunk = true
  /\ distinct (map fname (fields Resolved.ContentChunk)) = true
  /\ Forall (fun vals =>
               Forall2 (fun f v => conforms Resolved.ContentChunk (fname f) (ftype f) v)
                       (fields Resolved.ContentChunk) vals)
            [[VStr "c1"; VStr "Eerste alinea"]; [VStr "c2"; VStr "Tweede alinea"]]
  /\ _serialize_value Resolved.TimelineDocument "content_text"
       (VList [VObj Resolved.ContentChunk [VStr "c1"; VStr "Eerste alinea"];
               VObj Resolved.ContentChunk [VStr "c2"; VStr "Tweede alinea"]])
       (TList [TClass Resolved.ContentChunk])
     = VList [to_dict Resolved.ContentChunk [VStr "c1"; VStr "Eerste alinea"];
              to_dict Resolved.ContentChunk [VStr "c2"; VStr "Tweede alinea"]].
Proof.
  split; [intros c n v t; reflexivity|]. split; [intros c n v t; reflexivity|].
  split; [reflexivity|]. split; [reflexivity|].
  assert (H : Forall (fun vals =>
               Forall2 (fun f v => conforms Resolved.ContentChunk (fname f) (ftype f) v)
                       (fields Resolved.ContentChunk) vals)
            [[VStr "c1"; VStr "Eerste alinea"]; [VStr "c2"; VStr "Tweede alinea"]]).
  { repeat first [ apply Forall_cons | apply Forall_nil | apply Forall2_cons
                 | apply Forall2_nil | apply conforms_plain; reflexivity ]. }
  split; [exact H|].
  exact (proj1 (list_of_records_round_trip (fun c n v t => eq_refl)
                  (fun c n v t => eq_refl)
                  Resolved.TimelineDocument "content_text" Resolved.ContentChunk
                  [[VStr "c1"; VStr "Eerste alinea"]; [VStr "c2"; VStr "Tweede alinea"]]
                  (TList [TClass Resolved.ContentChunk]) [] eq_refl eq_refl H)).
Defined.

(** A stored document with a date, without a publisher. *)
Lemma text_annotated_fields_are_not_decoded_witness :
  (forall c n v t, _deserialize_field c n v t = None)
  /\ text_annotated Declared.TimelineDocument = true
  /\ distinct (map fname (fields Declared.TimelineDocument)) = true
  /\ exists kwargs,
       from_dict_loop
         (fun n v t => _deserialize_value Declared.TimelineDocument n v t)
         (VDict [("id", VStr "d1"); ("title", VStr "Kamerbrief");
                 ("created_at", VStr "2024-01-01 12:00:00");
                 ("content_text", VList [ServiceExamples.stored_chunk])])
         (fields Declared.TimelineDocument) [] = Ok kwargs
       /\ dict_get kwargs "created_at" = Some (VStr "2024-01-01 12:00:00")
       /\ dict_get kwargs "content_text" = Some (VList [ServiceExamples.stored_chunk])
       /\ dict_get kwargs "publisher" = None.
Proof.
  split; [intros c n v t; reflexivity|].
  split; [reflexivity|]. split; [reflexivity|].
  destruct (@text_annotated_fields_are_not_decoded PyDatetime.lib BaseModel_hooks
              (fun c n v t => eq_refl)
              Declared.TimelineDocument
              [("id", VStr "d1"); ("title", VStr "Kamerbrief");
               ("created_at", VStr "2024-01-01 12:00:00");
               ("content_text", VList [ServiceExamples.stored_chunk])]
              eq_refl eq_refl) as [kwargs [H1 [_ H2]]].
  exists kwargs. split; [exact H1|].
  split; [exact (H2 (Field "created_at" (TPlain "'datetime'") MISSING)
                    (or_intror (or_intror (or_introl eq_refl))))|].
  split; [exact (H2 (Field "content_text" (TPlain "'List[ContentChunk]'")
                           (DefaultFactory FList))
                    (or_intror (or_intror (or_intror (or_intror (or_intror
                       (or_intror (or_introl eq_refl))))))))|].
  exact (H2 (Field "publisher" (TPlain "'Optional[str]'") (Default SNone))
            (or_intror (or_intror (or_intror (or_introl eq_refl))))).
Defined.

(** The date of a document of the repository comes back as text. *)
Lemma text_annotated_round_trip_witness :
  (forall c n v t, _deserialize_field c n v t = None)
  /\ text_annotated Declared.TimelineDocument = true
  /\ distinct (map fname (fields Declared.TimelineDocument)) = true
  /\ List.length [VStr "d1"; VStr "Kamerbrief"; VDatetime (noon_in "UTC");
                  VNone; VNone; VNone; VList []; VDict []]
     = List.length (fields Declared.TimelineDocument)
  /\ from_dict Declared.TimelineDocument
       (to_dict Declared.TimelineDocument
          [VStr "d1"; VStr "Kamerbrief"; VDatetime (noon_in "UTC");
           VNone; VNone; VNone; VList []; VDict []])
     = Ok (VObj Declared.TimelineDocument
             [VStr "d1"; VStr "Kamerbrief"; VStr "2024-01-01T13:00:00+01:00";
              VNone; VNone; VNone; VList []; VDict []]).
Proof.
  split; [intros c n v t; reflexivity|].
  split; [reflexivity|]. split; [reflexivity|]. split; [reflexivity|].
  exact (text_annotated_round_trip (fun c n v t => eq_refl) Declared.TimelineDocument
           [VStr "d1"; VStr "Kamerbrief"; VDatetime (noon_in "UTC");
            VNone; VNone; VNone; VList []; VDict []] eq_refl eq_refl eq_refl).
Defined.

(** The document "d1" of the example timeline is found, "d2" is not. *)
Lemma doc_by_id_returns_first_match_witness :
  getattr (VObj Declared.Timeline ServiceExamples.timeline_values) "documents"
  = Some (VList [ServiceExamples.document])
  /\ doc_by_id (VObj Declared.Timeline ServiceExamples.timeline_values) "d1"
     = Ok ServiceExamples.document
  /\ doc_by_id (VObj Declared.Timeline ServiceExamples.timeline_values) "d2"
     = Ok VNone.
Proof.
  split; [reflexivity|]. split.
  - exact (proj1 (doc_by_id_returns_first_match
                    (VObj Declared.Timeline ServiceExamples.timeline_values)
                    [ServiceExamples.document] "d1" eq_refl)
             [] ServiceExamples.document [] (VStr "d1") eq_refl
             (Forall_nil _) eq_refl eq_refl).
  - apply (proj1 (proj2 (doc_by_id_returns_first_match
                           (VObj Declared.Timeline ServiceExamples.timeline_values)
                           [ServiceExamples.document] "d2" eq_refl))).
    apply Forall_cons; [|apply Forall_nil].
    exists (VStr "d1"). split; reflexivity.
Defined.

(** A timeline as [from_dict] returns it holds its documents as mappings. *)
Lemma doc_by_id_needs_instances_witness :
  getattr (VObj Declared.Timeline
             [VStr "t1"; VStr "Tijdlijn"; VList [VDict [("id", VStr "d1")]];
              VNone; VNone]) "documents"
  = Some (VList ([] ++ VDict [("id", VStr "d1")] :: [])%list)
  /\ getattr (VDict [("id", VStr "d1")]) "id" = None
  /\ doc_by_id (VObj Declared.Timeline
                  [VStr "t1"; VStr "Tijdlijn"; VList [VDict [("id", VStr "d1")]];
                   VNone; VNone]) "d1"
     = Raise AttributeError.
Proof.
  split; [reflexivity|]. split; [reflexivity|].
  exact (doc_by_id_needs_instances
           (VObj Declared.Timeline
              [VStr "t1"; VStr "Tijdlijn"; VList [VDict [("id", VStr "d1")]];
               VNone; VNone])
           [] (VDict [("id", VStr "d1")]) [] "d1" eq_refl (Forall_nil _) eq_refl).
Defined.

(** Chunks given as text, as nothing and as a mapping. *)
Lemma normalize_chunks_idempotent_witness :
  _normalize_chunks ServiceExamples.digest
    (VList [VStr "Eerste alinea"; VNone; ServiceExamples.stored_chunk])
  = Ok (VList [VObj Declared.ContentChunk
                 [VStr "md5:Eerste alinea"; VStr "Eerste alinea"];
               ServiceExamples.chunk])
  /\ _normalize_chunks ServiceExamples.digest
       (VList [VObj Declared.ContentChunk
                 [VStr "md5:Eerste alinea"; VStr "Eerste alinea"];
               ServiceExamples.chunk])
     = Ok (VList [VObj Declared.ContentChunk
                    [VStr "md5:Eerste alinea"; VStr "Eerste alinea"];
                  ServiceExamples.chunk]).
Proof.
  split; [reflexivity|].
  exact (normalize_chunks_idempotent ServiceExamples.digest
           (VList [VStr "Eerste alinea"; VNone; ServiceExamples.stored_chunk])
           (VList [VObj Declared.ContentChunk
                     [VStr "md5:Eerste alinea"; VStr "Eerste alinea"];
                   ServiceExamples.chunk])
           eq_refl).
Defined.

(** A processed document is normalised once and for all. *)
Lemma normalize_is_idempotent_witness :
  _normalize_document ServiceExamples.digest ServiceExamples.show
    (VDict ServiceExamples.processed)
  = Ok (VObj Declared.TimelineDocument
          [VStr "kst-1"; VStr "Kamerbrief"; VNone; VNone; VNone; VNone;
           VList [VObj Declared.ContentChunk
                    [VStr "md5:Eerste alinea"; VStr "Eerste alinea"]];
           VDict []])
  /\ _normalize_document ServiceExamples.digest ServiceExamples.show
       (VObj Declared.TimelineDocument
          [VStr "kst-1"; VStr "Kamerbrief"; VNone; VNone; VNone; VNone;
           VList [VObj Declared.ContentChunk
                    [VStr "md5:Eerste alinea"; VStr "Eerste alinea"]];
           VDict []])
     = Ok (VObj Declared.TimelineDocument
             [VStr "kst-1"; VStr "Kamerbrief"; VNone; VNone; VNone; VNone;
              VList [VObj Declared.ContentChunk
                       [VStr "md5:Eerste alinea"; VStr "Eerste alinea"]];
              VDict []]).
Proof.
  split; [reflexivity|].
  exact (proj1 (proj1 (normalize_is_idempotent ServiceExamples.digest
                         ServiceExamples.show)
                  (VDict ServiceExamples.processed) _ eq_refl)).
Defined.

(** A stored timeline whose documents are [null]. *)
Lemma null_documents_raise_witness :
  (forall c n v t, _deserialize_field c n v t = None)
  /\ dict_get [("identifier", VStr "t1"); ("name", VStr "Tijdlijn");
               ("documents", VNone)] "documents" = Some VNone
  /\ _normalize_timeline ServiceExamples.digest ServiceExamples.show
       (VDict [("identifier", VStr "t1"); ("name", VStr "Tijdlijn");
               ("documents", VNone)])
     = Raise TypeError.
Proof.
  split; [intros c n v t; reflexivity|]. split; [reflexivity|].
  exact (proj1 (null_documents_raise ServiceExamples.digest ServiceExamples.show
                  (fun c n v t => eq_refl)
                  [("identifier", VStr "t1"); ("name", VStr "Tijdlijn");
                   ("documents", VNone)]) eq_refl).
Defined.
(** The example timeline is a timeline as the service holds it. *)
Lemma example_timeline_record :
  timeline_record (VObj Declared.Timeline ServiceExamples.timeline_values).
Proof.
  exists (VStr "t1"), (VStr "Tijdlijn"), [ServiceExamples.document], VNone, VNone.
  split; [reflexivity|]. split; [reflexivity|].
  apply Forall_cons; [|apply Forall_nil].
  exists (VStr "d1"), (VStr "Kamerbrief"), (VStr "2024-01-01 00:00:00"),
    VNone, (VStr "samenvatting"), VNone, [ServiceExamples.chunk],
    (VDict [("titel", VStr "Kamerbrief")]).
  split; [reflexivity|]. split; [reflexivity|].
  apply Forall_cons; [|apply Forall_nil].
  exists (VStr "c1"), (VStr "Eerste alinea").
  split; [reflexivity|]. split; reflexivity.
Defined.

(** The example timeline, written to a mapping and normalised. *)
Lemma normalize_restores_stored_timeline_witness :
  (forall c n v t, _serialize_field c n v t = None)
  /\ (forall c n v t, _deserialize_field c n v t = None)
  /\ timeline_record (VObj Declared.Timeline ServiceExamples.timeline_values)
  /\ _normalize_timeline ServiceExamples.digest ServiceExamples.show
       (to_dict Declared.Timeline ServiceExamples.timeline_values)
     = Ok (VObj Declared.Timeline ServiceExamples.timeline_values).
Proof.
  split; [intros c n v t; reflexivity|]. split; [intros c n v t; reflexivity|].
  split; [exact example_timeline_record|].
  exact (proj1 (normalize_restores_stored_timeline ServiceExamples.digest
                  ServiceExamples.show
                  (fun c n v t => eq_refl) (fun c n v t => eq_refl)
                  ServiceExamples.timeline_values example_timeline_record)).
Defined.

(** The processed document "kst-1". *)
Lemma processed_document_identifier_witness :
  (forall c n v t, _deserialize_field c n v t = None)
  /\ dict_get ServiceExamples.processed "id" = None
  /\ _normalize_document ServiceExamples.digest ServiceExamples.show
       (VDict ServiceExamples.processed)
     = Ok (VObj Declared.TimelineDocument
             [VStr "kst-1"; VStr "Kamerbrief"; VNone; VNone; VNone; VNone;
              VList [VObj Declared.ContentChunk
                       [VStr "md5:Eerste alinea"; VStr "Eerste alinea"]];
              VDict []])
  /\ getattr (VObj Declared.TimelineDocument
                [VStr "kst-1"; VStr "Kamerbrief"; VNone; VNone; VNone; VNone;
                 VList [VObj Declared.ContentChunk
                          [VStr "md5:Eerste alinea"; VStr "Eerste alinea"]];
                 VDict []]) "id"
     = Some (VStr "kst-1").
Proof.
  split; [intros c n v t; reflexivity|]. split; [reflexivity|].
  split; [reflexivity|].
  exact (proj1 (processed_document_identifier ServiceExamples.digest
                  ServiceExamples.show (fun c n v t => eq_refl)
                  ServiceExamples.processed _ eq_refl eq_refl)
           (VStr "kst-1") eq_refl eq_refl).
Defined.

(** An empty index answers no [get]; an index that holds a number as the
    body raises. *)
Lemma repository_get_results_witness :
  repository_get ServiceExamples.store ServiceExamples.store_get [] "tijdlijnen" "t1"
  = Ok VNone
  /\ repository_get ServiceExamples.store ServiceExamples.store_get
       [("t1", VInt 7)] "tijdlijnen" "t1"
     = Raise TypeError.
Proof.
  split.
  - exact (proj1 (repository_get_results ServiceExamples.store
                    ServiceExamples.store_get [] "tijdlijnen" "t1") eq_refl).
  - exact (proj2 (proj2 (proj2 (repository_get_results ServiceExamples.store
                                  ServiceExamples.store_get [("t1", VInt 7)]
                                  "tijdlijnen" "t1")))
             _ (VInt 7) eq_refl eq_refl eq_refl eq_refl).
Defined.

(** The index held in memory answers with the body last indexed. *)
Lemma store_get_after_index :
  forall (client : ServiceExamples.store) (index id : string) (body : pyval),
  exists items,
    ServiceExamples.store_get
      (ServiceExamples.store_index client index (VStr id) body) index id
    = Some (VDict items)
    /\ dict_get items "_source" = Some body.
Proof.
  intros client index id body.
  unfold ServiceExamples.store_get, ServiceExamples.store_index.
  rewrite dict_get_set_same. eexists. split; reflexivity.
Defined.

(** The example timeline, stored in an empty index and read back, and the
    same timeline with a date of generation that carries no zone, as
    [datetime.now()] gives it. *)
Lemma upsert_then_get_restores_witness :
  (forall c n v t, _serialize_field c n v t = None)
  /\ (forall c n v t, _deserialize_field c n v t = None)
  /\ plain (VStr "Tijdlijn") = true
  /\ plain VNone = true
  /\ Forall document_record [ServiceExamples.document]
  /\ (exists client',
         upsert ServiceExamples.store ServiceExamples.store_index [] "tijdlijnen"
           (VObj Declared.Timeline ServiceExamples.timeline_values) = Ok client'
         /\ (stored <- repository_get ServiceExamples.store ServiceExamples.store_get
                         client' "tijdlijnen" "t1" ;;
             _normalize_timeline ServiceExamples.digest ServiceExamples.show stored)
            = Ok (VObj Declared.Timeline ServiceExamples.timeline_values))
  /\ (exists client',
         upsert ServiceExamples.store ServiceExamples.store_index [] "tijdlijnen"
           (VObj Declared.Timeline
              [VStr "t1"; VStr "Tijdlijn"; VList [ServiceExamples.document]; VNone;
               VDatetime noon]) = Ok client'
         /\ (stored <- repository_get ServiceExamples.store ServiceExamples.store_get
                         client' "tijdlijnen" "t1" ;;
             _normalize_timeline ServiceExamples.digest ServiceExamples.show stored)
            = Ok (VObj Declared.Timeline
                    [VStr "t1"; VStr "Tijdlijn"; VList [ServiceExamples.document];
                     VNone; VStr "2024-01-01T12:00:00+01:00"])).
Proof.
  assert (Hdocs : Forall document_record [ServiceExamples.document]).
  { destruct example_timeline_record as [i [n [docs [b [g [E [_ H]]]]]]].
    injection E as _ _ <- _ _. exact H. }
  split; [intros c n v t; reflexivity|]. split; [intros c n v t; reflexivity|].
  split; [reflexivity|]. split; [reflexivity|]. split; [exact Hdocs|].
  split.
  - destruct (upsert_then_get_restores (hooks := BaseModel_hooks)
                ServiceExamples.digest ServiceExamples.show
                ServiceExamples.store ServiceExamples.store_index
                ServiceExamples.store_get
                (fun c n v t => eq_refl) (fun c n v t => eq_refl)
                store_get_after_index [] "tijdlijnen" "t1" (VStr "Tijdlijn")
                [ServiceExamples.document] VNone VNone eq_refl eq_refl Hdocs)
      as [client' [stored_date [Hu [Hg [Hp _]]]]].
    exists client'. split; [exact Hu|].
    rewrite (Hp eq_refl) in Hg. exact Hg.
  - destruct (upsert_then_get_restores (hooks := BaseModel_hooks)
                ServiceExamples.digest ServiceExamples.show
                ServiceExamples.store ServiceExamples.store_index
                ServiceExamples.store_get
                (fun c n v t => eq_refl) (fun c n v t => eq_refl)
                store_get_after_index [] "tijdlijnen" "t1" (VStr "Tijdlijn")
                [ServiceExamples.document] VNone (VDatetime noon)
                eq_refl eq_refl Hdocs)
      as [client' [stored_date [Hu [Hg [_ Hd]]]]].
    exists client'. split; [exact Hu|].
    rewrite (Hd noon eq_refl) in Hg. exact Hg.
Defined.

(** Motions and agendas, selected in two orders. *)
Lemma publication_filter_ignores_order_witness :
  (forall t, In t ["Motie"; "Agenda's"] <-> In t ["Agenda's"; "Motie"; "Motie"])
  /\ _determine_publication_filter ServiceExamples.lower ["Motie"; "Agenda's"]
     = _determine_publication_filter ServiceExamples.lower
         ["Agenda's"; "Motie"; "Motie"].
Proof.
  assert (H : forall t, In t ["Motie"; "Agenda's"]
                        <-> In t ["Agenda's"; "Motie"; "Motie"])
    by (intros t; simpl; tauto).
  split; [exact H|].
  exact (publication_filter_ignores_order ServiceExamples.lower
           ["Motie"; "Agenda's"] ["Agenda's"; "Motie"; "Motie"] H).
Defined.

(** Two of the types the application offers. *)
Lemma offered_types_give_a_filter_witness :
  map ServiceExamples.lower AVAILABLE_DOCUMENT_TYPES
  = ["alle parlementaire documenten"; "handelingen"; "motie"; "kamervragen";
     "kamerstukken"; "agenda's"]
  /\ (forall t, In t ["Kamerstukken"; "Motie"] -> In t AVAILABLE_DOCUMENT_TYPES)
  /\ exists filter,
       _determine_publication_filter ServiceExamples.lower ["Kamerstukken"; "Motie"]
       = Some filter.
Proof.
  assert (H : forall t, In t ["Kamerstukken"; "Motie"]
                        -> In t AVAILABLE_DOCUMENT_TYPES)
    by (intros t; simpl; tauto).
  split; [reflexivity|]. split; [exact H|].
  exact (offered_types_give_a_filter ServiceExamples.lower ["Kamerstukken"; "Motie"]
           eq_refl H).
Defined.

(** The example timeline, read from its stored mapping, can be searched. *)
Lemma lookup_after_normalize_returns_witness :
  (forall c n v t, _deserialize_field c n v t = None)
  /\ plain (VDict [("identifier", VStr "t1"); ("name", VStr "Tijdlijn");
                   ("documents",
                    VList [VDict [("id", VStr "d1"); ("title", VStr "Kamerbrief")]])])
     = true
  /\ _normalize_timeline ServiceExamples.digest ServiceExamples.show
       (VDict [("identifier", VStr "t1"); ("name", VStr "Tijdlijn");
               ("documents",
                VList [VDict [("id", VStr "d1"); ("title", VStr "Kamerbrief")]])])
     = Ok (VObj Declared.Timeline
             [VStr "t1"; VStr "Tijdlijn";
              VList [VObj Declared.TimelineDocument
                       [VStr "d1"; VStr "Kamerbrief"; VNone; VNone; VNone; VNone;
                        VList []; VDict []]];
              VNone; VNone])
  /\ exists r,
       doc_by_id (VObj Declared.Timeline
                    [VStr "t1"; VStr "Tijdlijn";
                     VList [VObj Declared.TimelineDocument
                              [VStr "d1"; VStr "Kamerbrief"; VNone; VNone; VNone; VNone;
                               VList []; VDict []]];
                     VNone; VNone]) "d1"
       = Ok r.
Proof.
  split; [intros c n v t; reflexivity|]. split; [reflexivity|].
  split; [reflexivity|].
  exact (lookup_after_normalize_returns ServiceExamples.digest ServiceExamples.show
           (fun c n v t => eq_refl)
           [("identifier", VStr "t1"); ("name", VStr "Tijdlijn");
            ("documents",
             VList [VDict [("id", VStr "d1"); ("title", VStr "Kamerbrief")]])]
           _ "d1" eq_refl eq_refl).
Defined.

(** A response with one stored timeline and one hit without a source. *)
Lemma find_all_gives_timelines_witness :
  exists docs,
    find_all
      (VDict [("hits",
               VDict [("hits",
                       VList [VDict [("_id", VStr "t1");
                                     ("_source",
                                      VDict [("identifier", VStr "t1");
                                             ("name", VStr "Tijdlijn")])];
                              VDict [("_id", VStr "t2")]])])])
    = Ok (VList docs)
    /\ Forall (fun d => isinstance d Declared.Timeline = true) docs
    /\ (List.length docs <= 2)%nat.
Proof.
  apply (proj1 (find_all_gives_timelines
                  [("hits",
                    VDict [("hits",
                            VList [VDict [("_id", VStr "t1");
                                          ("_source",
                                           VDict [("identifier", VStr "t1");
                                                  ("name", VStr "Tijdlijn")])];
                                   VDict [("_id", VStr "t2")]])])])
           _ _ eq_refl eq_refl).
  apply Forall_cons; [|apply Forall_cons; [|apply Forall_nil]].
  - eexists. split; [reflexivity|]. intros source [= <-]. left. reflexivity.
  - eexists. split; [reflexivity|]. intros source H. discriminate H.
Defined.

